(** * builders/cmip.py: path-to-attributes parsers, version selection and
    catalog construction of intake-esm-datastore.

    The development follows the source file top down:
    - [py]: the Python built-ins the source calls ([str.split], [str.strip],
      [os.path.basename], [os.path.dirname], [float], list indexing);
    - [core]: the helpers imported from the [core] module of the repository;
    - the two parsers [cmip6_parser] and [cmip5_parser];
    - the data frame operations behind [_pick_latest_version];
    - [build_cmip] and the command line entry point [cli].

    Text is modelled as [string], the bytes of its UTF-8 encoding: the
    source cuts and compares text at ASCII characters only ([/], [-], [s],
    the field names), which is the same on the bytes. A Python [dict] is a
    [gmap string value], a raised exception [Raise e]. What [float] takes
    for a number is left to Python: the parsers are defined over any
    [float]; [py.float] is the one the sample runs use. *)

From Stdlib Require Import ZArith Ascii String SpecFloat.
From Stdlib Require Import Sorting.Sorted.
From Stdlib Require OrderedTypeEx.
From stdpp Require Import base option list gmap strings pretty sorting.

(* ================================================================== *)
(** * Python built-ins *)
(* ================================================================== *)

Module py.

(** The exception classes the source can meet. *)
Inductive exn : Set :=
| KeyError
| IndexError
| ValueError
| TypeError
| AttributeError
| OSError.

(** A computation that returns or raises. *)
Inductive result (A : Type) : Type :=
| Ok (a : A)
| Raise (e : exn).
Arguments Ok {A} a.
Arguments Raise {A} e.

Definition rbind {A B} (x : result A) (f : A → result B) : result B :=
  match x with
  | Ok a => f a
  | Raise e => Raise e
  end.

Definition is_ok {A} (x : result A) : bool :=
  match x with Ok _ => true | Raise _ => false end.

(** ** Characters *)

Definition ascii_eqb (a b : ascii) : bool := Ascii.eqb a b.

Definition char_in (c : ascii) (chars : string) : bool :=
  existsb (ascii_eqb c) (list_ascii_of_string chars).

Definition is_digit (c : ascii) : bool :=
  let n := nat_of_ascii c in (48 <=? n)%nat && (n <=? 57)%nat.

Definition digit_val (c : ascii) : Z := Z.of_nat (nat_of_ascii c) - 48.

(** The whitespace [float] strips from both ends of its text
    ([Py_ISSPACE]): tab, line feed, vertical tab, form feed, carriage
    return and the space. *)
Definition is_space (c : ascii) : bool :=
  let n := nat_of_ascii c in
  ((9 <=? n)%nat && (n <=? 13)%nat) || (n =? 32)%nat.

Definition lower (c : ascii) : ascii :=
  let n := nat_of_ascii c in
  if (65 <=? n)%nat && (n <=? 90)%nat then ascii_of_nat (n + 32) else c.

(** ** Strings *)

Definition is_empty (s : string) : bool :=
  match s with EmptyString => true | String _ _ => false end.

(** [s.startswith(p)] *)
Definition startswith (s p : string) : bool := String.prefix p s.

(** [s[1:]] *)
Definition drop1 (s : string) : string :=
  match s with EmptyString => EmptyString | String _ t => t end.

(** Stripping by a character class, as [float] and [str.strip()] do for
    whitespace. *)
Fixpoint lstrip_by (p : ascii → bool) (s : string) : string :=
  match s with
  | EmptyString => EmptyString
  | String c t => if p c then lstrip_by p t else s
  end.

Fixpoint rstrip_by (p : ascii → bool) (s : string) : string :=
  match s with
  | EmptyString => EmptyString
  | String c t =>
      let t' := rstrip_by p t in
      if is_empty t' && p c then EmptyString else String c t'
  end.

(** [s.lstrip(chars)] *)
Fixpoint lstrip (chars s : string) : string :=
  match s with
  | EmptyString => EmptyString
  | String c t => if char_in c chars then lstrip chars t else s
  end.

(** [s.rstrip(chars)] *)
Fixpoint rstrip (chars s : string) : string :=
  match s with
  | EmptyString => EmptyString
  | String c t =>
      let t' := rstrip chars t in
      if is_empty t' && char_in c chars then EmptyString else String c t'
  end.

(** [s.strip(chars)] *)
Definition strip (chars s : string) : string := lstrip chars (rstrip chars s).

(** The walk of [str.split]: [skip] counts the characters of a separator
    just matched that are still to be passed over. The result is never
    empty; its head is the segment being read. *)
Fixpoint split_go (sep : string) (skip : nat) (s : string) : list string :=
  match s with
  | EmptyString => [EmptyString]
  | String c t =>
      match skip with
      | S k => split_go sep k t
      | O =>
          if String.prefix sep s
          then EmptyString :: split_go sep (String.length sep - 1) t
          else match split_go sep 0 t with
               | seg :: rest => String c seg :: rest
               | [] => [String c EmptyString]
               end
      end
  end.

(** [s.split(sep)]: cuts at every occurrence of [sep], left to right;
    an empty separator raises [ValueError]. *)
Definition split (s sep : string) : result (list string) :=
  if is_empty sep then Raise ValueError else Ok (split_go sep 0 s).

(** [(p[:i], p[i:])] for [i = p.rfind('/') + 1], the cut both functions of
    [posixpath] start from. *)
Fixpoint rcut_slash (p : string) : string * string :=
  match p with
  | EmptyString => (EmptyString, EmptyString)
  | String c t =>
      let '(h, tl) := rcut_slash t in
      if negb (is_empty h) then (String c h, tl)
      else if ascii_eqb c "/" then (String c EmptyString, tl)
      else (EmptyString, String c tl)
  end.

(** [os.path.basename(p)] *)
Definition basename (p : string) : string := snd (rcut_slash p).

Definition all_slashes (s : string) : bool :=
  forallb (ascii_eqb "/") (list_ascii_of_string s).

(** [os.path.dirname(p)]: the head of the cut, without its trailing slashes
    unless it consists of slashes only. *)
Definition dirname (p : string) : string :=
  let head := fst (rcut_slash p) in
  if negb (is_empty head) && negb (all_slashes head) then rstrip "/" head
  else head.

(** ** Floats: [float(s)] *)

(** Python floats are IEEE 754 binary64 numbers. *)
Definition prec : Z := 53.
Definition emax : Z := 1024.

Definition nan : spec_float := S754_nan.

(** The double nearest to the integer [z] (ties to even). *)
Definition float_of_Z (z : Z) : spec_float := binary_normalize prec emax z 0 false.

(** The double nearest to [m * 10^e] for [m >= 0], with sign [neg]:
    exact integers are rounded once; a negative exponent is one correctly
    rounded division of two integers. *)
Definition float_of_decimal (neg : bool) (m e : Z) : spec_float :=
  match m with
  | Zpos _ =>
      if (0 <=? e)%Z then
        match (m * 10 ^ e)%Z with
        | Zpos p => binary_round prec emax neg p 0
        | _ => S754_zero neg
        end
      else
        let '(q, e', l) := SFdiv_core_binary prec emax m 0 (10 ^ (- e))%Z 0 in
        binary_round_aux prec emax neg q e' l
  | _ => S754_zero neg
  end.

(** A [digitpart] of the float grammar: digits, with single underscores
    allowed between two digits. Returns the value read, the number of
    digits, and the text left. *)
Fixpoint digitpart (s : string) (acc : Z) (n : nat) : Z * nat * string :=
  match s with
  | EmptyString => (acc, n, EmptyString)
  | String c t =>
      if is_digit c then digitpart t (10 * acc + digit_val c)%Z (S n)
      else if ascii_eqb c "_" && (0 <? n)%nat
              && match t with String d _ => is_digit d | EmptyString => false end
      then digitpart t acc n
      else (acc, n, s)
  end.

(** An optional sign: [(negative, rest)]. *)
Definition sign (s : string) : bool * string :=
  match s with
  | String c t =>
      if ascii_eqb c "-" then (true, t)
      else if ascii_eqb c "+" then (false, t)
      else (false, s)
  | EmptyString => (false, s)
  end.

(** An optional exponent [e<sign><digitpart>]: [Some (value, rest)], or
    [None] when an [e] is not followed by digits. *)
Definition exponent (s : string) : option (Z * string) :=
  match s with
  | String c t =>
      if ascii_eqb (lower c) "e" then
        let '(neg, t1) := sign t in
        let '(v, n, rest) := digitpart t1 0 0 in
        if (0 <? n)%nat then Some (if neg then (- v)%Z else v, rest) else None
      else Some (0%Z, s)
  | EmptyString => Some (0%Z, s)
  end.

Definition lower_string (s : string) : string :=
  string_of_list_ascii (map lower (list_ascii_of_string s)).

(** [float(s)] for a string within ASCII: surrounding whitespace is
    ignored; the text is an optionally signed [inf], [infinity] or [nan]
    (in any case) or a decimal number [digits[.digits][e[sign]digits]];
    anything else raises [ValueError]. Python first maps the decimal
    digits and spaces of other scripts to ASCII; here text outside ASCII
    raises, and the sample paths have none. *)
Definition float (s : string) : result spec_float :=
  let s0 := lstrip_by is_space (rstrip_by is_space s) in
  let '(neg, s1) := sign s0 in
  let w := lower_string s1 in
  if String.eqb w "inf" || String.eqb w "infinity" then Ok (S754_infinity neg)
  else if String.eqb w "nan" then Ok S754_nan
  else
    let '(ip, ni, s2) := digitpart s1 0 0 in
    let '(fp, nf, s3) :=
      match s2 with
      | String c t => if ascii_eqb c "." then digitpart t ip 0 else (ip, O, s2)
      | EmptyString => (ip, O, s2)
      end in
    if (ni + nf =? 0)%nat then Raise ValueError
    else match exponent s3 with
         | Some (ex, EmptyString) => Ok (float_of_decimal neg fp (ex - Z.of_nat nf))
         | _ => Raise ValueError
         end.

(** ** Lists *)

(** [l[i]] with Python's negative indices; out of range raises
    [IndexError]. *)
Definition getitem {A} (l : list A) (i : Z) : result A :=
  let n := Z.of_nat (length l) in
  let j := if (i <? 0)%Z then (n + i)%Z else i in
  if (j <? 0)%Z then Raise IndexError
  else match l !! Z.to_nat j with
       | Some a => Ok a
       | None => Raise IndexError
       end.

End py.

Import py.

(* ================================================================== *)
(** * Values and attribute mappings *)
(* ================================================================== *)

(** A value held by an attribute mapping or a catalog cell: text, a float
    ([np.nan] is the float NaN), or [None]. *)
Inductive value : Type :=
| VStr (s : string)
| VFloat (f : spec_float)
| VNone.

(** [np.nan] *)
Definition NaN : value := VFloat py.nan.

(** An attribute mapping: the [dict] a parser fills and returns. *)
Abbreviation dict := (gmap string value).

Definition of_option (o : option string) : value :=
  match o with Some s => VStr s | None => VNone end.

(** [x or d] for an optional string [x]: [None] and the empty string are
    both false. *)
Definition or_default (x : option string) (d : string) : string :=
  match x with
  | Some s => if py.is_empty s then d else s
  | None => d
  end.


(* ================================================================== *)
(** * The helpers of the [core] module *)
(* ================================================================== *)

Module core.

(** ** Regular expressions, as far as the patterns of the source go *)

(** A literal text, [\d], concatenation, [|], and [r{n}]. *)
Inductive regex : Type :=
| Lit (s : string)
| Digit
| Cat (r1 r2 : regex)
| Alt (r1 r2 : regex)
| Rep (n : nat) (r : regex).

Fixpoint sdrop (n : nat) (s : string) : string :=
  match n, s with
  | S k, String _ t => sdrop k t
  | _, _ => s
  end.

Fixpoint stake (n : nat) (s : string) : string :=
  match n, s with
  | S k, String c t => String c (stake k t)
  | _, _ => EmptyString
  end.

(** The ways [r] matches a prefix of [s], as the texts left after each
    match, in the order a backtracking matcher tries them. *)
Fixpoint rmatch (r : regex) (s : string) : list string :=
  match r with
  | Lit l => if String.prefix l s then [sdrop (String.length l) s] else []
  | Digit =>
      match s with
      | String c t => if py.is_digit c then [t] else []
      | EmptyString => []
      end
  | Cat r1 r2 => flat_map (rmatch r2) (rmatch r1 s)
  | Alt r1 r2 => rmatch r1 s ++ rmatch r2 s
  | Rep n r1 => Nat.iter n (flat_map (rmatch r1)) [s]
  end.

(** The first match of [r] in [s], scanning start positions left to
    right: the matched text. *)
Fixpoint search (r : regex) (s : string) : option string :=
  match rmatch r s with
  | rest :: _ => Some (stake (String.length s - String.length rest) s)
  | [] =>
      match s with
      | String _ t => search r t
      | EmptyString => None
      end
  end.

(** The texts a pattern stands for. *)
Inductive matches : regex → string → Prop :=
| matches_lit l : matches (Lit l) l
| matches_digit c : py.is_digit c = true → matches Digit (String c EmptyString)
| matches_cat r1 r2 w1 w2 :
    matches r1 w1 → matches r2 w2 → matches (Cat r1 r2) (w1 +:+ w2)
| matches_alt_l r1 r2 w : matches r1 w → matches (Alt r1 r2) w
| matches_alt_r r1 r2 w : matches r2 w → matches (Alt r1 r2) w
| matches_rep_0 r : matches (Rep 0 r) EmptyString
| matches_rep_S n r w1 w2 :
    matches (Rep n r) w1 → matches r w2 → matches (Rep (S n) r) (w1 +:+ w2).

(** Modelled from the spec: [extract_attr_with_regex] of the [core] module
    (the Path Attribute Extractor), which is not among the sources. It
    "performs a single pattern search over the full path string", "returns
    the first match, with leading/trailing characters in [strip_chars]
    removed if specified", and "returns a missing marker (never raises)
    when the regex finds no match". *)
Definition extract_attr_with_regex
    (input_str : string) (regex : regex) (strip_chars : option string) : option string :=
  match search regex input_str with
  | Some m =>
      Some (match strip_chars with
            | Some chars => py.strip chars m
            | None => m
            end)
  | None => None
  end.

(** ** Filename templates *)

(** A template is "an ordered sequence of literal separators and named
    placeholders". *)
Inductive token : Type :=
| Field (name : string)
| Literal (text : string).

(** Reads a format string such as ['{variable}_{mip_table}.nc']:
    [in_field] tells whether the walk is between braces. *)
Fixpoint template_go (in_field : bool) (s : string) : list token :=
  match s with
  | EmptyString => if in_field then [Field EmptyString] else []
  | String c t =>
      if in_field then
        if py.ascii_eqb c "}" then Field EmptyString :: template_go false t
        else match template_go true t with
             | Field n :: rest => Field (String c n) :: rest
             | rest => Field (String c EmptyString) :: rest
             end
      else if py.ascii_eqb c "{" then template_go true t
      else match template_go false t with
           | Literal l :: rest => Literal (String c l) :: rest
           | rest => Literal (String c EmptyString) :: rest
           end
  end.

Definition parse_template (template : string) : list token := template_go false template.

(** The text before and after the first occurrence of [l] in [s]. *)
Fixpoint find_first (l s : string) : option (string * string) :=
  if String.prefix l s then Some (EmptyString, sdrop (String.length l) s)
  else match s with
       | String c t =>
           match find_first l t with
           | Some (b, a) => Some (String c b, a)
           | None => None
           end
       | EmptyString => None
       end.

(** Cuts [s] at the template's literals, in order: each placeholder is
    bound to the text up to the next literal. *)
Fixpoint match_tokens (toks : list token) (s : string) : option (list (string * string)) :=
  match toks with
  | [] => if py.is_empty s then Some [] else None
  | Literal l :: rest =>
      if String.prefix l s then match_tokens rest (sdrop (String.length l) s) else None
  | Field f :: rest =>
      match rest with
      | [] => Some [(f, s)]
      | Literal l :: rest' =>
          match find_first l s with
          | Some (seg, after) =>
              match match_tokens rest' after with
              | Some binds => Some ((f, seg) :: binds)
              | None => None
              end
          | None => None
          end
      | Field _ :: _ => None
      end
  end.

Definition literals (toks : list token) : list string :=
  flat_map (λ t, match t with Literal l => [l] | Field _ => [] end) toks.

Definition contains (l s : string) : bool :=
  match find_first l s with Some _ => true | None => false end.

(** A template matches when cutting the filename at its literals "yields
    exactly as many dynamic segments as there are placeholders": every
    placeholder gets a segment, and no segment holds a literal that would
    cut it further. *)
Definition match_template (template filename : string) : option (list (string * string)) :=
  let toks := parse_template template in
  match match_tokens toks filename with
  | Some binds =>
      if forallb (λ b, forallb (λ l, negb (contains l (snd b))) (literals toks)) binds
      then Some binds else None
  | None => None
  end.

(** Modelled from the spec: [reverse_filename_format] of the [core] module
    (the Template Reverse-Matcher), which is not among the sources.
    "Templates are tried strictly in list order; the first template whose
    literal separator structure is consistent with the filename ... is
    selected, and each placeholder is bound to its corresponding dynamic
    segment." When no template matches nothing is bound: the parsers call
    it outside their [try] blocks and still "never raise", so the signal
    is the empty mapping. *)
Fixpoint reverse_filename_format (file_basename : string) (templates : list string)
    : gmap string string :=
  match templates with
  | [] => ∅
  | t :: rest =>
      match match_template t file_basename with
      | Some binds => list_to_map binds
      | None => reverse_filename_format file_basename rest
      end
  end.

End core.

(* ================================================================== *)
(** * The parsers *)
(* ================================================================== *)

(** ** Statements that update a state and may raise

    The statements of a [try] block read and update [fileparts]; when one
    raises, the updates made so far stay in the mapping. The same shape
    serves [build_cmip], whose state is the record of what it did to the
    outside world. *)

Definition ST (S A : Type) : Type := S → result A * S.

Definition ret {S A} (a : A) : ST S A := λ s, (Ok a, s).

Definition bind {S A B} (m : ST S A) (f : A → ST S B) : ST S B :=
  λ s, match m s with
       | (Ok a, s') => f a s'
       | (Raise e, s') => (Raise e, s')
       end.

Notation "x ⇐ m ;; k" := (bind m (λ x, k))
  (at level 100, m at next level, right associativity).
Notation "m ;;; k" := (bind m (λ _, k))
  (at level 100, right associativity).

(** A pure step that may raise. *)
Definition lift {S A} (r : result A) : ST S A := λ s, (r, s).

(** The state of a parser's [try] block is the mapping [fileparts]. *)
Abbreviation M := (ST dict).

(** [fileparts[key] = v] *)
Definition setitem (key : string) (v : value) : M unit :=
  λ d, (Ok tt, <[key := v]> d).

(** [fileparts[key]], read as text. The parsers only read fields bound by
    the matcher, which are text; a float there has no text methods. *)
Definition getitem_str (key : string) : M string :=
  λ d, match d !! key with
       | Some (VStr s) => (Ok s, d)
       | Some _ => (Raise AttributeError, d)
       | None => (Raise KeyError, d)
       end.

(** [a, b = l] *)
Definition unpack2 {A} (l : list A) : result (A * A) :=
  match l with
  | [a; b] => Ok (a, b)
  | _ => Raise ValueError
  end.

(** [r'v\d{4}\d{2}\d{2}|v\d{1}'] *)
Definition version_regex : core.regex :=
  core.Alt
    (core.Cat (core.Lit "v")
       (core.Cat (core.Rep 4 core.Digit) (core.Cat (core.Rep 2 core.Digit) (core.Rep 2 core.Digit))))
    (core.Cat (core.Lit "v") (core.Rep 1 core.Digit)).

(** [r'/3hr/|/6hr/|/day/|/fx/|/mon/|/monClim/|/subhr/|/yr/'] *)
Definition freq_regex : core.regex :=
  core.Alt (core.Lit "/3hr/") (core.Alt (core.Lit "/6hr/") (core.Alt (core.Lit "/day/")
  (core.Alt (core.Lit "/fx/") (core.Alt (core.Lit "/mon/") (core.Alt (core.Lit "/monClim/")
  (core.Alt (core.Lit "/subhr/") (core.Lit "/yr/"))))))).

(** [r'aerosol|atmos|land|landIce|ocean|ocnBgchem|seaIce'] *)
Definition realm_regex : core.regex :=
  core.Alt (core.Lit "aerosol") (core.Alt (core.Lit "atmos") (core.Alt (core.Lit "land")
  (core.Alt (core.Lit "landIce") (core.Alt (core.Lit "ocean") (core.Alt (core.Lit "ocnBgchem")
  (core.Lit "seaIce")))))).

(** A version token: [v] and eight digits, or [v] and one digit. *)
Definition version_token (t : string) : Prop :=
  ∃ digits, t = "v" +:+ digits
            ∧ forallb py.is_digit (list_ascii_of_string digits) = true
            ∧ (String.length digits = 8%nat ∨ String.length digits = 1%nat).

Definition cmip6_templates : list string :=
  [ "{variable_id}_{table_id}_{source_id}_{experiment_id}_{member_id}_{grid_label}_{time_range}.nc";
    "{variable_id}_{table_id}_{source_id}_{experiment_id}_{member_id}_{grid_label}.nc" ].

Definition cmip5_templates : list string :=
  [ "{variable}_{mip_table}_{model}_{experiment}_{ensemble_member}_{temporal_subset}.nc";
    "{variable}_{mip_table}_{model}_{experiment}_{ensemble_member}.nc" ].

Section Parsers.

(** The two helpers imported from [core]; the parsers are defined over
    any implementation of them. *)
Variable reverse_filename_format : string → list string → gmap string string.
Variable extract_attr_with_regex : string → core.regex → option string → option string.

(** Python's [float] on text: the parsers are defined over what it
    answers, whatever text it takes for a number. *)
Variable float : string → result spec_float.

(** The body of the [try] block of [cmip6_parser] (lines 41-56). *)
Definition cmip6_try (filepath : string) : M unit :=
  let parent := py.strip "/" (py.dirname filepath) in
  source_id ⇐ getitem_str "source_id" ;;
  parent_split ⇐ lift (py.split parent ("/" +:+ source_id +:+ "/")) ;;
  before ⇐ lift (py.getitem parent_split 0) ;;
  part_1 ⇐ lift (py.split (py.strip "/" before) "/") ;;
  variable_id ⇐ getitem_str "variable_id" ;;
  below ⇐ lift (py.split parent ("/" +:+ variable_id +:+ "/")) ;;
  after ⇐ lift (py.getitem below 1) ;;
  segments ⇐ lift (py.split (py.strip "/" after) "/") ;;
  grid_label ⇐ lift (py.getitem segments 0) ;;
  setitem "grid_label" (VStr grid_label) ;;;
  activity_id ⇐ lift (py.getitem part_1 (-2)) ;;
  setitem "activity_id" (VStr activity_id) ;;;
  institution_id ⇐ lift (py.getitem part_1 (-1)) ;;
  setitem "institution_id" (VStr institution_id) ;;;
  let version := or_default (extract_attr_with_regex parent version_regex None) "v0" in
  setitem "version" (VStr version) ;;;
  setitem "path" (VStr filepath) ;;;
  member_id ⇐ getitem_str "member_id" ;;
  if py.startswith member_id "s" then
    parts ⇐ lift (py.split member_id "-") ;;
    first ⇐ lift (py.getitem parts 0) ;;
    year ⇐ lift (float (py.drop1 first)) ;;
    setitem "dcpp_init_year" (VFloat year) ;;;
    member_id' ⇐ getitem_str "member_id" ;;
    parts' ⇐ lift (py.split member_id' "-") ;;
    suffix ⇐ lift (py.getitem parts' (-1)) ;;
    setitem "member_id" (VStr suffix)
  else
    setitem "dcpp_init_year" NaN.

(** [cmip6_parser(filepath)]: the matcher's bindings, then the [try] block
    whose exception, if any, is dropped ([except Exception: pass]). *)
Definition cmip6_parser (filepath : string) : dict :=
  let basename := py.basename filepath in
  let fileparts : dict := VStr <$> reverse_filename_format basename cmip6_templates in
  snd (cmip6_try filepath fileparts).

(** The body of the [try] block of [cmip5_parser] (lines 93-96). *)
Definition cmip5_try (filepath : string) : M unit :=
  experiment ⇐ getitem_str "experiment" ;;
  pieces ⇐ lift (py.split (py.dirname filepath) experiment) ;;
  parts ⇐ lift (unpack2 pieces) ;;
  let '(part1, part2) := parts in
  part1 ⇐ lift (py.split (py.strip "/" part1) "/") ;;
  institute ⇐ lift (py.getitem part1 (-2)) ;;
  setitem "institute" (VStr institute) ;;;
  product_id ⇐ lift (py.getitem part1 (-3)) ;;
  setitem "product_id" (VStr product_id).

(** [cmip5_parser(filepath)] *)
Definition cmip5_parser (filepath : string) : dict :=
  let file_basename := py.basename filepath in
  let fileparts : dict := VStr <$> reverse_filename_format file_basename cmip5_templates in
  let frequency := extract_attr_with_regex filepath freq_regex (Some "/") in
  let realm := extract_attr_with_regex filepath realm_regex None in
  let version := or_default (extract_attr_with_regex filepath version_regex None) "v0" in
  let fileparts := <["frequency" := of_option frequency]> fileparts in
  let fileparts := <["modeling_realm" := of_option realm]> fileparts in
  let fileparts := <["version" := VStr version]> fileparts in
  let fileparts := <["path" := VStr filepath]> fileparts in
  snd (cmip5_try filepath fileparts).

(** ** Notions the properties of the parsers are stated with *)

(** The parent directory the block of [cmip6_parser] works on. *)
Definition cmip6_parent (filepath : string) : string :=
  py.strip "/" (py.dirname filepath).

(** What the matcher bound for a path: the mapping the [try] block of
    [cmip6_parser] starts from. *)
Definition cmip6_bound (filepath : string) : dict :=
  VStr <$> reverse_filename_format (py.basename filepath) cmip6_templates.

(** The directory-derived fields of lines 42-47: the grid label is the
    segment after the directory named by [variable_id]; the activity and
    the institution are the last two segments before the directory named
    by [source_id]. *)
Definition directory_fields (fm : dict) (filepath : string) (g a i : string) : Prop :=
  ∃ source_id variable_id parent_split before part_1 below after segments,
    fm !! "source_id" = Some (VStr source_id)
    ∧ py.split (cmip6_parent filepath) ("/" +:+ source_id +:+ "/") = Ok parent_split
    ∧ py.getitem parent_split 0 = Ok before
    ∧ py.split (py.strip "/" before) "/" = Ok part_1
    ∧ py.getitem part_1 (-2) = Ok a
    ∧ py.getitem part_1 (-1) = Ok i
    ∧ fm !! "variable_id" = Some (VStr variable_id)
    ∧ py.split (cmip6_parent filepath) ("/" +:+ variable_id +:+ "/") = Ok below
    ∧ py.getitem below 1 = Ok after
    ∧ py.split (py.strip "/" after) "/" = Ok segments
    ∧ py.getitem segments 0 = Ok g.

(** The [try] block of [cmip6_parser] runs to its end. *)
Definition cmip6_completes (filepath : string) : Prop :=
  (cmip6_try filepath (cmip6_bound filepath)).1 = Ok tt.

(** The version a parser records from the text it searches: the
    extractor's answer for [version_regex], or ['v0']. *)
Definition version_of (text : string) : string :=
  or_default (extract_attr_with_regex text version_regex None) "v0".

(** A mapping that carries the path it was made from and the version
    found in [text]. *)
Definition carries_path_version (filepath text : string) (d : dict) : Prop :=
  d !! "path" = Some (VStr filepath) ∧ d !! "version" = Some (VStr (version_of text)).

End Parsers.

(** The parsers over the helpers as the specification describes them. *)
Definition cmip6 : string → dict :=
  cmip6_parser core.reverse_filename_format core.extract_attr_with_regex py.float.
Definition cmip5 : string → dict :=
  cmip5_parser core.reverse_filename_format core.extract_attr_with_regex.

(** ** Sample paths *)

(** The example of the specification (new convention). *)
Definition noaa_path : string :=
  ".../CMIP6/ScenarioMIP/NOAA/GFDL-CM4/ssp585/r1i1p1f1/Amon/tas/gn/v20180701/tas_Amon_GFDL-CM4_ssp585_r1i1p1f1_gn_201501-210012.nc".

(** The same file under a directory whose grid segment differs from the
    grid label of the filename. *)
Definition regridded_path : string :=
  ".../CMIP6/ScenarioMIP/NOAA/GFDL-CM4/ssp585/r1i1p1f1/Amon/tas/gr1/v20180701/tas_Amon_GFDL-CM4_ssp585_r1i1p1f1_gn_201501-210012.nc".

(** The sub-experiment example of the docstring, in its directory. *)
Definition dcpp_path : string :=
  "/CMIP6/DCPP/CNRM-CERFACS/CNRM-CM6-1/dcppA-hindcast/s1960-r2i1p1f1/day/pr/gn/v20190101/pr_day_CNRM-CM6-1_dcppA-hindcast_s1960-r2i1p1f1_gn_198001-198412.nc".

(** The same file in a flat directory. *)
Definition flat_dcpp_path : string :=
  "/scratch/pr_day_CNRM-CM6-1_dcppA-hindcast_s1960-r2i1p1f1_gn_198001-198412.nc".

(** A member id that begins with [s] and holds no year. *)
Definition sub_path : string :=
  "/CMIP6/DCPP/CNRM-CERFACS/CNRM-CM6-1/dcppA-hindcast/sub-r2i1p1f1/day/pr/gn/v20190101/pr_day_CNRM-CM6-1_dcppA-hindcast_sub-r2i1p1f1_gn_198001-198412.nc".

(** A version token in the filename only. *)
Definition unversioned_path : string :=
  "/CMIP6/ScenarioMIP/NOAA/GFDL-CM4/ssp585/r1i1p1f1/Amon/tas/gn/tas_Amon_GFDL-CM4_ssp585_r1i1p1f1_gn_v2.nc".

(* ================================================================== *)
(** * Catalog tables *)
(* ================================================================== *)

(** A row of a [pandas.DataFrame]: its index label and its cells by
    column name. *)
Record Row : Type := { index : Z; cells : gmap string value }.

(** A frame: its column names, and its rows in order. *)
Record DataFrame : Type := { columns : list string; rows : list Row }.

(** The cell of a row under a column; a field the parser did not produce
    holds the missing marker. *)
Definition cell (r : Row) (c : string) : value := default NaN (cells r !! c).

(** [pandas.isna]: [None] and the float NaN are missing. *)
Definition isna (v : value) : bool :=
  match v with
  | VNone => true
  | VFloat S754_nan => true
  | _ => false
  end.

(** Python's [==] on cell values. *)
Definition value_eqb (v w : value) : bool :=
  match v, w with
  | VStr a, VStr b => String.eqb a b
  | VFloat x, VFloat y => SFeqb x y
  | VNone, VNone => true
  | _, _ => false
  end.

(** Python's [<=] on two values of one type. *)
Definition value_leb (v w : value) : bool :=
  match v, w with
  | VStr a, VStr b => String.leb a b
  | VFloat x, VFloat y => SFleb x y
  | _, _ => false
  end.

(** One representative per class of equal values: the two float zeros
    are equal, everything else that is not missing is equal only to
    itself. *)
Definition canon (v : value) : value :=
  match v with
  | VFloat (S754_zero _) => VFloat (S754_zero false)
  | _ => v
  end.

#[global] Instance spec_float_eq_dec : EqDecision spec_float.
Proof. solve_decision. Defined.
#[global] Instance value_eq_dec : EqDecision value.
Proof. solve_decision. Defined.
#[global] Instance Row_eq_dec : EqDecision Row.
Proof. solve_decision. Defined.

(** The values of the columns [keys] in a row, up to equality. *)
Definition group_key (keys : list string) (r : Row) : list value :=
  map (λ c, canon (cell r c)) keys.

(** Rows with a missing value in a grouping column belong to no group
    ([groupby] drops them). *)
Definition has_key (keys : list string) (r : Row) : bool :=
  forallb (λ c, negb (isna (cell r c))) keys.

(** [df.groupby(keys)]: the rows with a complete key, split by key; each
    group keeps the order of the frame. No key column raises
    [ValueError]. The groups are listed by first appearance: the source
    only collects labels from them, in a list whose order [drop]
    ignores. *)
Definition groupby (df : DataFrame) (keys : list string) : result (list (list Row)) :=
  match keys with
  | [] => Raise ValueError
  | _ =>
      let live := filter (λ r, has_key keys r = true) (rows df) in
      Ok (map (λ k, filter (λ r, group_key keys r = k) live)
              (remove_dups (map (group_key keys) live)))
  end.

(** [series.nunique()]: the number of distinct values that are not
    missing. *)
Definition nunique (vs : list value) : nat :=
  length (remove_dups (map canon (filter (λ v, isna v = false) vs))).

Definition is_text (v : value) : bool :=
  match v with VStr _ => true | _ => false end.
Definition is_float (v : value) : bool :=
  match v with VFloat _ => true | _ => false end.

(** Sorting compares the values that are not missing with [<]; text and
    floats do not compare ([TypeError]). *)
Definition comparable (vs : list value) : bool :=
  let present := filter (λ v, isna v = false) vs in
  forallb is_text present || forallb is_float present.

(** [df.drop(index=labels)]: every row bearing one of the labels goes; a
    label that no row bears raises [KeyError]. *)
Definition drop (df : DataFrame) (labels : list Z) : result DataFrame :=
  if forallb (λ l, bool_decide (l ∈ map index (rows df))) labels
  then Ok {| columns := columns df;
             rows := filter (λ r, index r ∉ labels) (rows df) |}
  else Raise KeyError.

(** [df[df.<column>.isin(values)]] with [values] a list of text: the rows
    whose cell is one of the texts. A column the frame lacks raises
    [AttributeError]. *)
Definition isin (v : value) (values : list string) : bool :=
  match v with
  | VStr s => bool_decide (s ∈ values)
  | _ => false
  end.

Definition select_isin (df : DataFrame) (column : string) (values : list string) : result DataFrame :=
  if bool_decide (column ∈ columns df)
  then Ok {| columns := columns df;
             rows := filter (λ r, isin (cell r column) values = true) (rows df) |}
  else Raise AttributeError.

(** [mapM] for computations that may raise. *)
Fixpoint traverse {A B} (f : A → result B) (l : list A) : result (list B) :=
  match l with
  | [] => Ok []
  | a :: l' => rbind (f a) (λ b, rbind (traverse f l') (λ bs, Ok (b :: bs)))
  end.

(** ** Sorting as pandas does it, with a stable sort

    [nargsort]: the missing values go last; the others are sorted
    ascending, or, for a descending sort, reversed, sorted ascending and
    reversed again. For the lists numpy sorts by insertion this is the
    order it produces. *)

Fixpoint insert_by {A} (le : A → A → bool) (x : A) (l : list A) : list A :=
  match l with
  | [] => [x]
  | y :: l' => if le x y then x :: l else y :: insert_by le x l'
  end.

Definition isort {A} (le : A → A → bool) (l : list A) : list A :=
  foldr (insert_by le) [] l.

Definition nargsort (col : string) (ascending : bool) (rs : list Row) : list Row :=
  let le a b := value_leb (cell a col) (cell b col) in
  let non_nans := filter (λ r, isna (cell r col) = false) rs in
  let nans := filter (λ r, isna (cell r col) = true) rs in
  (if ascending then isort le non_nans else rev (isort le (rev non_nans))) ++ nans.

(** The order [sort_values] establishes between a row and a later one. *)
Definition row_before (col : string) (ascending : bool) (r1 r2 : Row) : Prop :=
  match isna (cell r1 col), isna (cell r2 col) with
  | _, true => True
  | true, false => False
  | false, false =>
      if ascending then value_leb (cell r1 col) (cell r2 col) = true
      else value_leb (cell r2 col) (cell r1 col) = true
  end.

(** [list(set(df.columns.tolist()) - {'path', 'version'})] *)
Definition grouping_columns (cols : list string) : list string :=
  filter (λ c, c ∉ ["path"; "version"]) (remove_dups cols).

(** The rows of a frame that equal [r] on every grouping column: the
    logical dataset of [r]. *)
Definition group_of (df : DataFrame) (r : Row) : list Row :=
  let grpby := grouping_columns (columns df) in
  filter (λ x, group_key grpby x = group_key grpby r) (rows df).

(** The version cells of some rows. *)
Definition versions (rs : list Row) : list value := map (λ r, cell r "version") rs.

(** A column of text and missing values, as the parsers fill [version] and
    [path]. *)
Definition textual (col : string) (rs : list Row) : Prop :=
  Forall (λ r, is_float (cell r col) = true → isna (cell r col) = true) rs.

(** ** The outside world *)

(** The calls a run makes to the file system and the network, in order:
    the traversal of [get_asset_list], the request of [requests.get], and
    the call of [df.to_csv]. What the process prints (lines 117-123) is
    not recorded. *)
Inductive event : Type :=
| Walk (root_path : string) (depth : Z)
| HttpGet (url : string)
| ToCsv (csv_filepath : string) (df : DataFrame).

(** The state of [build_cmip] and [cli] is the list of events so far. *)
Abbreviation IO := (ST (list event)).

Definition emit (e : event) : IO unit := λ tr, (Ok tt, tr ++ [e]).

Definition cmip6_activity_id_url : string :=
  "https://raw.githubusercontent.com/WCRP-CMIP/CMIP6_CVs/master/CMIP6_activity_id.json".

Definition cmip_columns : gmap string (list string) :=
  {[ "6" := [ "activity_id"; "institution_id"; "source_id"; "experiment_id";
              "member_id"; "table_id"; "variable_id"; "grid_label";
              "dcpp_init_year"; "version"; "time_range"; "path" ];
     "5" := [ "product_id"; "institute"; "model"; "experiment"; "frequency";
              "modeling_realm"; "mip_table"; "ensemble_member"; "variable";
              "temporal_subset"; "version"; "path" ] ]}.

Definition default_exclude_patterns : list string := ["*/files/*"; "*/latest/*"].

(** [d[key]] on a [dict] with text keys. *)
Definition lookup_key {A} (d : gmap string A) (key : string) : result A :=
  match d !! key with
  | Some a => Ok a
  | None => Raise KeyError
  end.

Section Catalog.

(** [DataFrame.sort_values(by=[col], ascending=...)] on the rows of a
    frame or group. pandas sorts with numpy's default, which promises no
    order among equal keys: the development holds for every sort. *)
Variable sort_values : string → bool → list Row → list Row.

(** The matcher and extractor of [core], and Python's [float], as for the
    parsers. *)
Variable reverse_filename_format : string → list string → gmap string string.
Variable extract_attr_with_regex : string → core.regex → option string → option string.
Variable float : string → result spec_float.

(** [get_asset_list(root_path, depth)]: the paths the traversal finds. *)
Variable get_asset_list : string → Z → result (list string).

(** [list(requests.get(url).json()['activity_id'].keys())] *)
Variable fetch_activity_ids : string → result (list string).

(** [Builder(columns, exclude_patterns)(filelist, parser)] *)
Variable Builder : list string → list string → list string → (string → dict) → result DataFrame.

(** [df.to_csv(csv_filepath, compression='gzip', index=False)]: whether
    the write returns or raises. *)
Variable to_csv : string → DataFrame → result unit.

(** [rows.sort_values(by=[col], ascending=...)], with the [TypeError] of a
    column that mixes text and floats. *)
Definition sort_rows (col : string) (ascending : bool) (rs : list Row) : result (list Row) :=
  if comparable (map (λ r, cell r col) rs)
  then Ok (sort_values col ascending rs)
  else Raise TypeError.

(** [_pick_latest_v(group)] (lines 110-114): the labels of all rows of
    the group but the first in descending version order, when the group
    has more than one version. [group.version] needs the column. *)
Definition _pick_latest_v (cols : list string) (group : list Row) : result (list Z) :=
  if bool_decide ("version" ∈ cols) then
    if (1 <? nunique (versions group))%nat then
      rbind (sort_rows "version" false group) (λ sorted,
      Ok (map index (tail sorted)))
    else Ok []
  else Raise AttributeError.

(** [_pick_latest_version(df)] (lines 103-124). The delayed tasks are
    computed one per group; an exception of any of them ends the call.
    Progress output is not modelled. *)
Definition _pick_latest_version (df : DataFrame) : result DataFrame :=
  let grpby := grouping_columns (columns df) in
  rbind (groupby df grpby) (λ groups,
  rbind (traverse (_pick_latest_v (columns df)) groups) (λ idx_to_remove,
  let idx_to_remove := concat idx_to_remove in
  drop df idx_to_remove)).

(** [df.sort_values(by=['path'])]; a frame without the column raises
    [KeyError]. *)
Definition sort_by_path (df : DataFrame) : result DataFrame :=
  if bool_decide ("path" ∈ columns df) then
    rbind (sort_rows "path" true (rows df)) (λ rs,
    Ok {| columns := columns df; rows := rs |})
  else Raise KeyError.

Definition parsers : gmap string (string → dict) :=
  {[ "6" := cmip6_parser reverse_filename_format extract_attr_with_regex float;
     "5" := cmip5_parser reverse_filename_format extract_attr_with_regex ]}.

(** [build_cmip(root_path, cmip_version, depth, columns, exclude_patterns,
    pick_latest_version)] (lines 127-185). *)
Definition build_cmip (root_path : string) (cmip_version : Z) (depth : Z)
    (columns : option (list string)) (exclude_patterns : list string)
    (pick_latest_version : bool) : IO DataFrame :=
  emit (Walk root_path depth) ;;;
  filelist ⇐ lift (get_asset_list root_path depth) ;;
  let cmip_version : string := pretty cmip_version in
  columns ⇐ match columns with
            | None => lift (lookup_key cmip_columns cmip_version)
            | Some columns => ret columns
            end ;;
  parser ⇐ lift (lookup_key parsers cmip_version) ;;
  df ⇐ lift (Builder columns exclude_patterns filelist parser) ;;
  df ⇐ (if String.eqb cmip_version "6" then
          emit (HttpGet cmip6_activity_id_url) ;;;
          activity_ids ⇐ lift (fetch_activity_ids cmip6_activity_id_url) ;;
          lift (select_isin df "activity_id" activity_ids)
        else ret df) ;;
  df ⇐ (if pick_latest_version then lift (_pick_latest_version df) else ret df) ;;
  lift (sort_by_path df).

(** [cli(root_path, depth, pick_latest_version, cmip_version,
    csv_filepath)] (lines 209-221); an option not given on the command
    line is [None]. *)
Definition cli (root_path : string) (depth : Z) (pick_latest_version : bool)
    (cmip_version : option Z) (csv_filepath : option string) : IO unit :=
  match cmip_version with
  | Some v =>
      if bool_decide (v ∈ [5; 6]%Z) then
        match csv_filepath with
        | None => lift (Raise ValueError)
        | Some csv_filepath =>
            df ⇐ build_cmip root_path v depth None default_exclude_patterns pick_latest_version ;;
            emit (ToCsv csv_filepath df) ;;;
            lift (to_csv csv_filepath df)
        end
      else lift (Raise ValueError)
  | None => lift (Raise ValueError)
  end.

End Catalog.

(* ================================================================== *)
(** * The catalog assembler of [core] *)
(* ================================================================== *)

Module assembler.

(** [fnmatch]-style matching of a path against a glob: [*] stands for any
    text and [?] for any one character; other characters stand for
    themselves. *)
Fixpoint glob (pat : list ascii) : string → bool :=
  match pat with
  | [] => py.is_empty
  | c :: pat' =>
      if py.ascii_eqb c "*" then
        fix star (s : string) : bool :=
          glob pat' s || match s with String _ t => star t | EmptyString => false end
      else
        λ s, match s with
             | String d t => (py.ascii_eqb c "?" || py.ascii_eqb c d) && glob pat' t
             | EmptyString => false
             end
  end.

Definition fnmatch (path pattern : string) : bool :=
  glob (list_ascii_of_string pattern) path.

(** The projection of a mapping onto the columns, "supplying the
    missing-value marker for any column not produced". *)
Definition project (columns : list string) (d : dict) : gmap string value :=
  list_to_map (map (λ c, (c, default NaN (d !! c))) columns).

(** Modelled from the spec: [Builder] of the [core] module (the Catalog
    Assembler), which is not among the sources. It "owns
    exclusion-pattern filtering of the asset list before parsing",
    invokes "the parser once per path", projects "each resulting mapping
    onto the convention's fixed column list" and assembles "an ordered
    table"; the rows are labelled 0, 1, 2, ... in that order. *)
Definition Builder (columns exclude_patterns filelist : list string)
    (parser : string → dict) : result DataFrame :=
  let kept := filter (λ p, existsb (fnmatch p) exclude_patterns = false) filelist in
  Ok {| columns := columns;
        rows := imap (λ i p, {| index := Z.of_nat i;
                                cells := project columns (parser p) |}) kept |}.

End assembler.

(** ** The program over the helpers as the specification describes them *)

Definition pick_latest_version : DataFrame → result DataFrame :=
  _pick_latest_version nargsort.

Section Run.

(** A run is fixed by what the traversal finds and what the vocabulary
    document lists. *)
Variable assets : list string.
Variable vocabulary : list string.

Definition run_build_cmip :=
  build_cmip nargsort core.reverse_filename_format core.extract_attr_with_regex py.float
    (λ _ _, Ok assets) (λ _, Ok vocabulary) assembler.Builder.

Definition run_cli :=
  cli nargsort core.reverse_filename_format core.extract_attr_with_regex py.float
    (λ _ _, Ok assets) (λ _, Ok vocabulary) assembler.Builder (λ _ _, Ok tt).

End Run.


(** ** A sample catalog *)

Definition sample_row (i : Z) (source_id : string) (dcpp_init_year : value)
    (version path : string) : Row :=
  {| index := i;
     cells := list_to_map [ ("source_id", VStr source_id);
                            ("dcpp_init_year", dcpp_init_year);
                            ("version", VStr version);
                            ("path", VStr path) ] |}.

Definition year_1960 : value := VFloat (py.float_of_Z 1960).

(** Two versions of a dataset with an initialisation year. *)
Definition hindcast_old : Row := sample_row 0 "CNRM-CM6-1" year_1960 "v20180701" "/a/v20180701/pr.nc".
Definition hindcast_new : Row := sample_row 1 "CNRM-CM6-1" year_1960 "v20190101" "/a/v20190101/pr.nc".
(** Two versions of a dataset without one: [cmip6_parser] sets NaN. *)
Definition scenario_old : Row := sample_row 2 "GFDL-CM4" NaN "v20180701" "/b/v20180701/tas.nc".
Definition scenario_new : Row := sample_row 3 "GFDL-CM4" NaN "v20190101" "/b/v20190101/tas.nc".
(** Two files of one version of a dataset. *)
Definition chunk_1 : Row := sample_row 4 "CanESM5" year_1960 "v1" "/c/v1/tas_1980.nc".
Definition chunk_2 : Row := sample_row 5 "CanESM5" year_1960 "v1" "/c/v1/tas_1990.nc".

Definition sample_columns : list string := ["source_id"; "dcpp_init_year"; "version"; "path"].

Definition sample_frame : DataFrame :=
  {| columns := sample_columns;
     rows := [hindcast_old; hindcast_new; scenario_old; scenario_new; chunk_1; chunk_2] |}.

(** What the selection leaves of it. *)
Definition sample_selected : DataFrame :=
  {| columns := sample_columns;
     rows := [hindcast_new; scenario_old; scenario_new; chunk_1; chunk_2] |}.

(** ** A sample run *)

(** The example file of the specification, published twice. *)
Definition noaa_path_2019 : string :=
  ".../CMIP6/ScenarioMIP/NOAA/GFDL-CM4/ssp585/r1i1p1f1/Amon/tas/gn/v20190101/tas_Amon_GFDL-CM4_ssp585_r1i1p1f1_gn_201501-210012.nc".

(** A file under an activity the vocabulary does not list. *)
Definition bogus_path : string :=
  ".../CMIP6/TestMIP/NOAA/GFDL-CM4/ssp585/r1i1p1f1/Amon/tas/gn/v20180701/tas_Amon_GFDL-CM4_ssp585_r1i1p1f1_gn_201501-210012.nc".

Definition sample_assets : list string :=
  [noaa_path; noaa_path_2019; bogus_path; flat_dcpp_path].

Definition sample_vocabulary : list string := ["CMIP"; "DCPP"; "ScenarioMIP"].

(** The versions of the rows of a result. *)
Definition result_versions (x : result DataFrame * list event) : result (list value) :=
  rbind x.1 (λ df, Ok (versions (rows df))).

(* ================================================================== *)
(** * Notions the further properties are stated with *)
(* ================================================================== *)

(** The directory levels above the directory named by [source_id] in the
    parent directory (lines 42-43), nearest first: the text before the
    first [/source_id/], or all of it when there is none, cut at
    slashes. *)
Definition cmip6_above (parent source_id : string) : list string :=
  reverse (py.split_go "/" 0
             (py.strip "/"
                (default "" (head (py.split_go ("/" +:+ source_id +:+ "/") 0 parent))))).

(** The directory levels below the directory named by [variable_id]
    (line 44), nearest first: the text between the first and the second
    [/variable_id/], cut at slashes; none when the parent directory holds
    no [/variable_id/]. *)
Definition cmip6_below (parent variable_id : string) : option (list string) :=
  match py.split_go ("/" +:+ variable_id +:+ "/") 0 parent with
  | _ :: after :: _ => Some (py.split_go "/" 0 (py.strip "/" after))
  | _ => None
  end.

(** The grid label, the activity and the institution that lines 42-47
    read from the directory, when each of their steps succeeds. *)
Definition cmip6_directory (fm : dict) (filepath : string)
    : option (string * string * string) :=
  match fm !! "source_id", fm !! "variable_id" with
  | Some (VStr source_id), Some (VStr variable_id) =>
      let above := cmip6_above (cmip6_parent filepath) source_id in
      g ← cmip6_below (cmip6_parent filepath) variable_id ≫= head ;
      a ← above !! 1%nat ;
      i ← above !! 0%nat ;
      Some (g, a, i)
  | _, _ => None
  end.

(** The text line 53 reads as a float: the first segment of the member
    id, without its first character. *)
Definition cmip6_year_text (member_id : string) : string :=
  py.drop1 (default "" (head (py.split_go "-" 0 member_id))).

(** What the matcher bound for a path under the old convention. *)
Definition cmip5_bound (reverse_filename_format : string → list string → gmap string string)
    (filepath : string) : dict :=
  VStr <$> reverse_filename_format (py.basename filepath) cmip5_templates.

(** The directory levels above the experiment's name in the directory of
    a path (lines 93-94), nearest first; none unless the name occurs
    exactly once there. *)
Definition cmip5_levels (fm : dict) (filepath : string) : list string :=
  match fm !! "experiment" with
  | Some (VStr experiment) =>
      match py.split (py.dirname filepath) experiment with
      | Ok [part1; _] => reverse (py.split_go "/" 0 (py.strip "/" part1))
      | _ => []
      end
  | _ => []
  end.

(** A path of the old convention. *)
Definition ncar_path : string :=
  "/CMIP5/output1/NCAR/CCSM4/rcp85/mon/atmos/Amon/r1i1p1/v20120409/tas/tas_Amon_CCSM4_rcp85_r1i1p1_200601-210012.nc".

(** The same file two levels below the root, and in a directory that
    names the experiment twice. *)
Definition shallow_path : string :=
  "/NCAR/CCSM4/rcp85/tas_Amon_CCSM4_rcp85_r1i1p1_200601-210012.nc".
Definition repeated_path : string :=
  "/CMIP5/output1/NCAR/CCSM4/rcp85/mon/rcp85/tas_Amon_CCSM4_rcp85_r1i1p1_200601-210012.nc".

(** Two publications of a dataset, one under a date-coded version and one
    under a one-digit version. *)
Definition dated : Row := sample_row 0 "CCSM4" year_1960 "v20180701" "/d/v20180701/tas.nc".
Definition numbered : Row := sample_row 1 "CCSM4" year_1960 "v3" "/d/v3/tas.nc".

Definition mixed_frame : DataFrame :=
  {| columns := sample_columns; rows := [dated; numbered] |}.

(** The sample catalog without its version column. *)
Definition unversioned_frame : DataFrame :=
  {| columns := ["source_id"; "dcpp_init_year"; "path"]; rows := rows sample_frame |}.

(* ================================================================== *)
(** * Properties of the built-ins *)
(* ================================================================== *)

Example split_segments :
  py.split "a/b//c" "/" = Ok ["a"; "b"; ""; "c"]
  ∧ py.split "x/tas/gn/tas/y" "/tas/" = Ok ["x"; "gn"; "y"]
  ∧ py.split "" "/" = Ok [""]
  ∧ py.split "aaa" "aa" = Ok [""; "a"]
  ∧ py.split "abc" "" = Raise ValueError.
Proof. split_and!; reflexivity. Qed.

Example basename_dirname :
  py.basename "/a/b/c.nc" = "c.nc" ∧ py.dirname "/a/b/c.nc" = "/a/b"
  ∧ py.basename "c.nc" = "c.nc" ∧ py.dirname "c.nc" = ""
  ∧ py.basename "/a/b/" = "" ∧ py.dirname "/a/b/" = "/a/b"
  ∧ py.dirname "/c.nc" = "/" ∧ py.dirname "//a//b" = "//a".
Proof. split_and!; reflexivity. Qed.

Example strip_slashes : py.strip "/" "//a/b/" = "a/b" ∧ py.strip "/" "///" = "".
Proof. split_and!; reflexivity. Qed.

Example getitem_negative :
  py.getitem ["a"; "b"; "c"] (-2) = Ok "b"
  ∧ py.getitem ["a"] (-2) = Raise IndexError
  ∧ py.getitem ["a"; "b"] 1 = Ok "b"
  ∧ py.getitem ["a"; "b"] 2 = Raise IndexError.
Proof. split_and!; reflexivity. Qed.

Example float_values :
  py.float "1960" = Ok (py.float_of_Z 1960)
  ∧ py.float "1960" = Ok (S754_finite false 8620171161763840 (-42))
  ∧ py.float "0.1" = Ok (S754_finite false 7205759403792794 (-56))
  ∧ py.float " -1_0.5e1 " = Ok (S754_finite true 7388718138654720 (-46))
  ∧ py.float "nan" = Ok S754_nan
  ∧ py.float "-Inf" = Ok (S754_infinity true)
  ∧ py.float "1e400" = Ok (S754_infinity false)
  ∧ py.float "" = Raise ValueError
  ∧ py.float "ub" = Raise ValueError
  ∧ py.float "1_" = Raise ValueError
  ∧ py.float "1e" = Raise ValueError.
Proof. split_and!; vm_compute; reflexivity. Qed.

Example matcher_templates :
  core.parse_template "{variable}_{mip_table}.nc"
  = [core.Field "variable"; core.Literal "_"; core.Field "mip_table"; core.Literal ".nc"]
  ∧ core.match_template "{a}_{b}.nc" "tas_Amon.nc" = Some [("a", "tas"); ("b", "Amon")]
  ∧ core.match_template "{a}_{b}.nc" "tas_Amon_x.nc" = None
  ∧ core.match_template "{a}_{b}.nc" "tas.nc" = None.
Proof. split_and!; reflexivity. Qed.

Example extractor_first_match :
  core.extract_attr_with_regex "/a/day/v20180701/v3/f.nc" version_regex None = Some "v20180701"
  ∧ core.extract_attr_with_regex "/a/day/mon/f.nc" freq_regex (Some "/") = Some "day"
  ∧ core.extract_attr_with_regex "/a/b/f.nc" version_regex None = None.
Proof. split_and!; reflexivity. Qed.

Example glob_patterns :
  assembler.fnmatch "/d/files/x.nc" "*/files/*" = true
  ∧ assembler.fnmatch "/d/latest/x.nc" "*/files/*" = false
  ∧ assembler.fnmatch "files/x.nc" "*/files/*" = false.
Proof. split_and!; reflexivity. Qed.

Lemma split_go_nonempty sep skip s : py.split_go sep skip s ≠ [].
Proof.
  revert skip. induction s as [|c t IH]; intros skip; simpl; [done|].
  destruct skip; [|apply IH].
  specialize (IH 0%nat). repeat case_match; congruence.
Qed.

(** [l[0]] and [l[-1]] are the head and the last element. *)
Lemma getitem_first {A} (l : list A) :
  py.getitem l 0 = match head l with Some a => Ok a | None => Raise IndexError end.
Proof. by destruct l. Qed.

Lemma getitem_last {A} (l : list A) :
  py.getitem l (-1) = match last l with Some a => Ok a | None => Raise IndexError end.
Proof.
  unfold py.getitem. rewrite last_lookup.
  destruct l as [|x l]; [done|].
  assert (Hn : Z.of_nat (length (x :: l)) = (Z.of_nat (length l) + 1)%Z) by (simpl length; lia).
  rewrite Hn.
  change (-1 <? 0)%Z with true. cbv iota.
  destruct (Z.ltb_spec (Z.of_nat (length l) + 1 + -1) 0); [lia|].
  replace (Z.to_nat (Z.of_nat (length l) + 1 + -1)) with (pred (length (x :: l)))
    by (simpl; lia).
  done.
Qed.

Lemma getitem_last_ok {A} (l : list A) :
  l ≠ [] → ∃ a, last l = Some a ∧ py.getitem l (-1) = Ok a.
Proof.
  intros Hl. rewrite getitem_last.
  destruct (last l) as [a|] eqn:Ha; [eauto|].
  by apply last_None in Ha.
Qed.

Lemma getitem_first_ok {A} (l : list A) :
  l ≠ [] → ∃ a, head l = Some a ∧ py.getitem l 0 = Ok a.
Proof. destruct l; [done|]. intros _. eexists. split; reflexivity. Qed.

(** A split at a separator that is not empty returns, and its result has
    a first and a last segment. *)
Lemma split_ok s sep :
  py.is_empty sep = false → py.split s sep = Ok (py.split_go sep 0 s).
Proof. unfold py.split. by intros ->. Qed.

(** ** The pattern search of the extractor *)

Lemma append_cons (x : ascii) (a b : string) : String x a +:+ b = String x (a +:+ b).
Proof. reflexivity. Qed.

Lemma append_assoc (a b c : string) : (a +:+ b) +:+ c = a +:+ (b +:+ c).
Proof. induction a as [|x a IH]; [done|]. rewrite !append_cons. by f_equal. Qed.

Lemma length_append (a b : string) :
  String.length (a +:+ b) = (String.length a + String.length b)%nat.
Proof. induction a as [|x a IH]; [done|]. rewrite append_cons. simpl. by f_equal. Qed.

Lemma prefix_sdrop (l s : string) :
  String.prefix l s = true → s = l +:+ core.sdrop (String.length l) s.
Proof.
  revert s. induction l as [|a l IH]; intros s; simpl; [done|].
  destruct s as [|b s]; [done|]. simpl. destruct (ascii_dec a b) as [->|]; [|done].
  intros H. rewrite append_cons. by rewrite <- IH.
Qed.

Lemma stake_append (w rest : string) : core.stake (String.length w) (w +:+ rest) = w.
Proof.
  induction w as [|x w IH]; [by destruct rest|]. rewrite append_cons. simpl. by f_equal.
Qed.

(** What the matcher returns is a match: the text it consumed is one the
    pattern stands for. *)
Lemma rmatch_sound (r : core.regex) (s rest : string) :
  In rest (core.rmatch r s) → ∃ w, core.matches r w ∧ s = w +:+ rest.
Proof.
  revert s rest. induction r as [l| |r1 IH1 r2 IH2|r1 IH1 r2 IH2|n r IH];
    intros s rest; simpl.
  - destruct (String.prefix l s) eqn:Hp; [|done]. intros [<-|[]].
    exists l. split; [constructor|]. by apply prefix_sdrop.
  - destruct s as [|c t]; [done|]. destruct (py.is_digit c) eqn:Hc; [|done].
    intros [<-|[]]. exists (String c ""). split; [by constructor|done].
  - intros (mid & Hmid & Hrest)%in_flat_map.
    destruct (IH1 _ _ Hmid) as (w1 & Hw1 & ->).
    destruct (IH2 _ _ Hrest) as (w2 & Hw2 & ->).
    exists (w1 +:+ w2). split; [by constructor|]. by rewrite append_assoc.
  - intros [H|H]%in_app_or.
    + destruct (IH1 _ _ H) as (w & Hw & ->). exists w. split; [by constructor|done].
    + destruct (IH2 _ _ H) as (w & Hw & ->). exists w.
      split; [by apply core.matches_alt_r|done].
  - revert rest. induction n as [|n IHn]; intros rest; simpl.
    + intros [<-|[]]. exists "". split; [constructor|done].
    + intros (mid & Hmid & Hrest)%in_flat_map.
      destruct (IHn _ Hmid) as (w1 & Hw1 & ->).
      destruct (IH _ _ Hrest) as (w2 & Hw2 & ->).
      exists (w1 +:+ w2). split; [by constructor|]. by rewrite append_assoc.
Qed.

Lemma search_unfold (r : core.regex) (s : string) :
  core.search r s =
  match core.rmatch r s with
  | rest :: _ => Some (core.stake (String.length s - String.length rest) s)
  | [] => match s with String _ t => core.search r t | EmptyString => None end
  end.
Proof. by destruct s. Qed.

(** The search returns a part of the text that the pattern stands for. *)
Lemma search_sound (r : core.regex) (s t : string) :
  core.search r s = Some t → core.matches r t ∧ ∃ pre post, s = pre +:+ t +:+ post.
Proof.
  induction s as [|c s IH]; rewrite search_unfold;
    destruct (core.rmatch r _) as [|rest l] eqn:Hm; try done.
  - intros [= <-].
    destruct (rmatch_sound r "" rest) as (w & Hw & Heq); [rewrite Hm; by left|].
    destruct w; [|discriminate Heq].
    change ("" +:+ rest) with rest in Heq. subst rest. simpl. split; [done|].
    by exists "", "".
  - intros H. destruct (IH H) as (Ht & pre & post & ->). split; [done|].
    by exists (String c pre), post.
  - intros [= <-].
    destruct (rmatch_sound r (String c s) rest) as (w & Hw & Heq); [rewrite Hm; by left|].
    assert (Hlen : S (String.length s) = (String.length w + String.length rest)%nat)
      by (rewrite <- length_append, <- Heq; done).
    rewrite Heq, Hlen, Nat.add_sub, stake_append.
    split; [done|]. by exists "", rest.
Qed.

Lemma digits_append (a b : string) :
  forallb py.is_digit (list_ascii_of_string a) = true →
  forallb py.is_digit (list_ascii_of_string b) = true →
  forallb py.is_digit (list_ascii_of_string (a +:+ b)) = true.
Proof.
  intros Ha Hb. induction a as [|x a IH]; [done|].
  rewrite append_cons. simpl in *. apply andb_true_iff in Ha as [-> Ha]. by apply IH.
Qed.

Lemma matches_digits (n : nat) (w : string) :
  core.matches (core.Rep n core.Digit) w →
  forallb py.is_digit (list_ascii_of_string w) = true ∧ String.length w = n.
Proof.
  revert w. induction n as [|n IH]; intros w Hw.
  - by inversion Hw.
  - inversion Hw as [| | | | | |? ? w1 w2 Hrep Hd]; subst.
    inversion Hd as [|c Hc| | | | |]; subst.
    apply IH in Hrep as [Hds Hl]. rewrite length_append. simpl. split; [|lia].
    apply digits_append; [done|]. simpl. by rewrite Hc.
Qed.

(** The texts [version_regex] stands for are the version tokens. *)
Lemma version_regex_tokens (t : string) :
  core.matches version_regex t → version_token t.
Proof.
  unfold version_regex. intros Ht.
  inversion Ht as [| | |? ? ? H8|? ? ? H1| |]; subst.
  - inversion H8 as [| |? ? ? ? Hv Hds| | | |]; subst. inversion Hv; subst.
    inversion Hds as [| |? ? ? ? H4 Hds'| | | |]; subst.
    inversion Hds' as [| |? ? ? ? H2 H2'| | | |]; subst.
    apply matches_digits in H4 as [Hd4 Hl4].
    apply matches_digits in H2 as [Hd2 Hl2].
    apply matches_digits in H2' as [Hd2' Hl2'].
    eexists. split; [reflexivity|]. split.
    + auto using digits_append.
    + left. rewrite !length_append. lia.
  - inversion H1 as [| |? ? ? ? Hv Hds| | | |]; subst. inversion Hv; subst.
    apply matches_digits in Hds as [Hd Hl]. eexists. split; [reflexivity|]. auto.
Qed.

(** What the extractor of the specification answers for [version_regex] is
    a version token found in the text. *)
Lemma extractor_version_token (text t : string) :
  core.extract_attr_with_regex text version_regex None = Some t →
  version_token t ∧ ∃ pre post, text = pre +:+ t +:+ post.
Proof.
  unfold core.extract_attr_with_regex.
  destruct (core.search version_regex text) as [m|] eqn:Hs; [|done].
  intros [= <-]. apply search_sound in Hs as [Hm Hsub].
  split; [by apply version_regex_tokens|done].
Qed.

(** What the built-ins raise. *)
Lemma getitem_raises {A} (l : list A) i e : py.getitem l i = Raise e → e = IndexError.
Proof. unfold py.getitem. repeat case_match; congruence. Qed.

Lemma split_raises s sep e : py.split s sep = Raise e → e = ValueError.
Proof. unfold py.split. case_match; congruence. Qed.

Lemma float_raises s e : py.float s = Raise e → e = ValueError.
Proof. unfold py.float. repeat case_match; congruence. Qed.

Lemma unpack2_raises {A} (l : list A) e : unpack2 l = Raise e → e = ValueError.
Proof. unfold unpack2. repeat case_match; congruence. Qed.

Ltac raised_class :=
  match goal with
  | H : py.getitem _ _ = Raise _ |- _ => apply getitem_raises in H
  | H : py.split _ _ = Raise _ |- _ => apply split_raises in H
  | H : py.float _ = Raise _ |- _ => apply float_raises in H
  | H : unpack2 _ = Raise _ |- _ => apply unpack2_raises in H
  end.

(** Indexing from either end, by position. *)
Lemma getitem_from_end {A} (l : list A) (k : nat) :
  py.getitem l (- Z.of_nat (S k))
  = match reverse l !! k with Some a => Ok a | None => Raise IndexError end.
Proof.
  unfold py.getitem. cbv zeta.
  replace (- Z.of_nat (S k) <? 0)%Z with true by (symmetry; apply Z.ltb_lt; lia).
  destruct (decide (k < length l)%nat) as [Hlt|Hge].
  - rewrite reverse_lookup by done.
    replace (Z.of_nat (length l) + - Z.of_nat (S k) <? 0)%Z with false
      by (symmetry; apply Z.ltb_ge; lia).
    by replace (Z.to_nat (Z.of_nat (length l) + - Z.of_nat (S k)))
      with (length l - S k)%nat by lia.
  - rewrite (lookup_ge_None_2 (reverse l) k) by (rewrite length_reverse; lia).
    replace (Z.of_nat (length l) + - Z.of_nat (S k) <? 0)%Z with true
      by (symmetry; apply Z.ltb_lt; lia).
    done.
Qed.

Lemma getitem_from_start {A} (l : list A) (k : nat) :
  py.getitem l (Z.of_nat k)
  = match l !! k with Some a => Ok a | None => Raise IndexError end.
Proof.
  unfold py.getitem. cbv zeta.
  assert (Hk : (Z.of_nat k <? 0)%Z = false) by (apply Z.ltb_ge; lia).
  by rewrite !Hk, Nat2Z.id.
Qed.

Lemma split_inv s sep l : py.split s sep = Ok l → l = py.split_go sep 0 s.
Proof. unfold py.split. case_match; congruence. Qed.

Lemma split_slash s : py.split s "/" = Ok (py.split_go "/" 0 s).
Proof. reflexivity. Qed.

Lemma split_between s name :
  py.split s ("/" +:+ name +:+ "/") = Ok (py.split_go ("/" +:+ name +:+ "/") 0 s).
Proof. reflexivity. Qed.

(* ================================================================== *)
(** * Properties of the parsers *)
(* ================================================================== *)

(** Unfolds a [try] block into its steps, and splits on the outcome of
    each step in turn. *)
Ltac run_block :=
  unfold bind, lift, ret, setitem, getitem_str in *; cbn beta iota in *.

Ltac step_block :=
  repeat match goal with
  | H : context [match ?x with _ => _ end] |- _ =>
      lazymatch x with
      | context [match _ with _ => _ end] => fail
      | _ => destruct x eqn:?; simplify_eq; cbn beta iota zeta delta [fst snd] in *
      end
  | |- context [match ?x with _ => _ end] =>
      lazymatch x with
      | context [match _ with _ => _ end] => fail
      | _ => destruct x eqn:?; simplify_eq; cbn beta iota zeta delta [fst snd] in *
      end
  end.

Section ParserFacts.

Variable reverse_filename_format : string → list string → gmap string string.
Variable extract_attr_with_regex : string → core.regex → option string → option string.
Variable float : string → result spec_float.

Local Abbreviation cmip6_parser :=
  (cmip6_parser reverse_filename_format extract_attr_with_regex float).
Local Abbreviation cmip5_parser := (cmip5_parser reverse_filename_format extract_attr_with_regex).
Local Abbreviation cmip6_try := (cmip6_try extract_attr_with_regex float).

Local Abbreviation cmip6_bound := (cmip6_bound reverse_filename_format).
Local Abbreviation cmip6_completes :=
  (cmip6_completes reverse_filename_format extract_attr_with_regex float).
Local Abbreviation version_of := (version_of extract_attr_with_regex).
Local Abbreviation carries_path_version := (carries_path_version extract_attr_with_regex).

(** ** The old-convention parser *)

Lemma cmip5_try_frame filepath (d : dict) k :
  k ≠ "institute" → k ≠ "product_id" →
  (cmip5_try filepath d).2 !! k = d !! k.
Proof.
  intros H1 H2. unfold cmip5_try. run_block. step_block.
  all: rewrite ?lookup_insert_ne by done; done.
Qed.

Lemma cmip5_parser_path_version filepath :
  carries_path_version filepath filepath (cmip5_parser filepath).
Proof.
  unfold carries_path_version, cmip5_parser.
  rewrite !cmip5_try_frame by done. by simplify_map_eq.
Qed.

(** ** The new-convention parser *)

(** When the block runs to its end, the mapping is what the matcher
    bound, extended by the five directory and version fields and by the
    two fields of the member post-processing. *)
Lemma cmip6_try_completes filepath (fm : dict) :
  (cmip6_try filepath fm).1 = Ok tt →
  ∃ g a i m year m',
    directory_fields fm filepath g a i ∧
    fm !! "member_id" = Some (VStr m) ∧
    (if py.startswith m "s"
     then ∃ parts prefix parts',
            py.split m "-" = Ok parts ∧ py.getitem parts 0 = Ok prefix ∧
            float (py.drop1 prefix) = Ok year ∧
            py.split m "-" = Ok parts' ∧ py.getitem parts' (-1) = Ok m'
     else year = py.nan ∧ m' = m) ∧
    (cmip6_try filepath fm).2 =
      <["member_id" := VStr m']> (<["dcpp_init_year" := VFloat year]>
      (<["path" := VStr filepath]>
      (<["version" := VStr (version_of (cmip6_parent filepath))]>
      (<["institution_id" := VStr i]> (<["activity_id" := VStr a]>
      (<["grid_label" := VStr g]> fm)))))).
Proof.
  unfold cmip6_try. run_block. intros H. step_block; try done.
  all: rewrite !lookup_insert_ne in * by done; simplify_eq.
  all: eexists _, _, _, _, _, _.
  all: split; [unfold directory_fields, cmip6_parent; eauto 20|].
  all: split; [done|].
  all: match goal with Hb : py.startswith _ _ = _ |- _ => rewrite Hb end.
  - split; [eauto 10|done].
  - split; [done|].
    rewrite (insert_id _ "member_id"); [done|].
    by rewrite !lookup_insert_ne by done.
Qed.

(** When a step raises, the assignments made before it stay: none, the
    grid label alone, or the five fields up to [path]. *)
Lemma cmip6_try_raises filepath (fm : dict) e :
  (cmip6_try filepath fm).1 = Raise e →
  (cmip6_try filepath fm).2 = fm
  ∨ (∃ g, (cmip6_try filepath fm).2 = <["grid_label" := VStr g]> fm)
  ∨ (∃ g a i,
      (cmip6_try filepath fm).2 =
        <["path" := VStr filepath]>
        (<["version" := VStr (version_of (cmip6_parent filepath))]>
        (<["institution_id" := VStr i]> (<["activity_id" := VStr a]>
        (<["grid_label" := VStr g]> fm))))).
Proof.
  unfold cmip6_try. run_block. intros H. step_block; try done.
  all: try (left; reflexivity).
  all: try (right; left; eexists; reflexivity).
  all: try (right; right; eexists _, _, _; reflexivity).
  all: rewrite ?lookup_insert_ne in * by done; simplify_eq.
  all: try (unfold py.split in *; simpl in *; simplify_eq).
  all: try match goal with
       | H : py.getitem (py.split_go ?sep ?k ?s) (-1) = Raise _ |- _ =>
           destruct (getitem_last_ok (py.split_go sep k s)
                       (split_go_nonempty sep k s)) as (? & _ & ?); congruence
       end.
Qed.

(** The fields the blocks read as text are text: they come from the
    matcher and no assignment of the block replaces them by a float. *)
Lemma cmip6_try_reads_text filepath :
  (∀ s e, float s = Raise e → e = ValueError) →
  (cmip6_try filepath (cmip6_bound filepath)).1 ≠ Raise AttributeError.
Proof.
  intros Hfloat.
  unfold cmip6_bound, cmip6_try. run_block. step_block; try done.
  all: rewrite ?lookup_insert_ne in * by done.
  all: repeat match goal with
       | H : (VStr <$> _) !! _ = Some _ |- _ =>
           rewrite lookup_fmap in H; apply fmap_Some in H as (? & _ & ?)
       end; simplify_eq.
  all: try match goal with H : float _ = Raise _ |- _ => apply Hfloat in H end.
  all: try raised_class; congruence.
Qed.

Lemma cmip5_try_reads_text filepath (fm : gmap string string) (f r v p : value) :
  (cmip5_try filepath
     (<["path" := p]> (<["version" := v]> (<["modeling_realm" := r]>
      (<["frequency" := f]> (VStr <$> fm)))))).1 ≠ Raise AttributeError.
Proof.
  unfold cmip5_try. run_block. step_block; try done.
  all: rewrite ?lookup_insert_ne in * by done.
  all: repeat match goal with
       | H : (VStr <$> _) !! _ = Some _ |- _ =>
           rewrite lookup_fmap in H; apply fmap_Some in H as (? & _ & ?)
       end; simplify_eq.
  all: raised_class; congruence.
Qed.

Lemma cmip6_parser_unfold filepath :
  cmip6_parser filepath = (cmip6_try filepath (cmip6_bound filepath)).2.
Proof. reflexivity. Qed.

Lemma cmip6_version_recorded filepath :
  cmip6_completes filepath →
  cmip6_parser filepath !! "version" = Some (VStr (version_of (cmip6_parent filepath))).
Proof.
  intros Hok. rewrite cmip6_parser_unfold.
  destruct (cmip6_try_completes _ _ Hok) as (g & a & i & m & year & m' & _ & _ & _ & ->).
  by simplify_map_eq.
Qed.

(** The directory steps of the block succeed exactly when the levels they
    index exist. *)
Lemma directory_fields_levels (fm : dict) filepath g a i :
  directory_fields fm filepath g a i ↔
  ∃ source_id variable_id,
    fm !! "source_id" = Some (VStr source_id)
    ∧ fm !! "variable_id" = Some (VStr variable_id)
    ∧ cmip6_above (cmip6_parent filepath) source_id !! 1%nat = Some a
    ∧ cmip6_above (cmip6_parent filepath) source_id !! 0%nat = Some i
    ∧ cmip6_below (cmip6_parent filepath) variable_id ≫= head = Some g.
Proof.
  unfold directory_fields, cmip6_above, cmip6_below. split.
  - intros (sid & vid & ps & before & part_1 & below & after & segments
            & Hs & Hps & Hb & Hp1 & Ha & Hi & Hv & Hbl & Haf & Hsg & Hg).
    exists sid, vid. split; [done|]. split; [done|].
    apply split_inv in Hps, Hp1, Hbl, Hsg. subst ps part_1 below segments.
    rewrite getitem_first in Hb.
    destruct (head (py.split_go _ 0 (cmip6_parent filepath))) as [b|] eqn:Hhd; [|done].
    simplify_eq/=.
    change (-2)%Z with (- Z.of_nat 2)%Z in Ha. change (-1)%Z with (- Z.of_nat 1)%Z in Hi.
    rewrite getitem_from_end in Ha, Hi.
    change 1%Z with (Z.of_nat 1) in Haf. rewrite getitem_from_start in Haf.
    rewrite getitem_first in Hg.
    repeat case_match; simplify_eq/=; done.
  - intros (sid & vid & Hs & Hv & Ha & Hi & Hg).
    destruct (py.split_go ("/" +:+ vid +:+ "/") 0 (cmip6_parent filepath))
      as [|x [|after rest]] eqn:Hbl; [done..|].
    simpl in Hg.
    destruct (getitem_first_ok (py.split_go ("/" +:+ sid +:+ "/") 0 (cmip6_parent filepath))
                (split_go_nonempty _ _ _)) as (before & Hhd & Hget).
    rewrite Hhd in Ha, Hi. simpl in Ha, Hi.
    exists sid, vid, (py.split_go ("/" +:+ sid +:+ "/") 0 (cmip6_parent filepath)),
      before, (py.split_go "/" 0 (py.strip "/" before)),
      (x :: after :: rest), after, (py.split_go "/" 0 (py.strip "/" after)).
    split_and!; try done.
    + change (-2)%Z with (- Z.of_nat 2)%Z. by rewrite getitem_from_end, Ha.
    + change (-1)%Z with (- Z.of_nat 1)%Z. by rewrite getitem_from_end, Hi.
    + rewrite split_between. by rewrite Hbl.
    + rewrite getitem_first. by rewrite Hg.
Qed.

Lemma cmip6_directory_spec (fm : dict) filepath g a i :
  cmip6_directory fm filepath = Some (g, a, i) ↔ directory_fields fm filepath g a i.
Proof.
  rewrite directory_fields_levels. unfold cmip6_directory. split.
  - intros Hd. repeat case_match; try done. simplify_option_eq.
    eexists _, _. split_and!; try done.
    match goal with H : cmip6_below _ _ = Some _ |- _ => by rewrite H end.
  - intros (sid & vid & -> & -> & Ha & Hi & Hg). by rewrite Hg, Ha, Hi.
Qed.

(** The mapping once the directory steps have succeeded: the five fields
    up to [path] are assigned, and the member step adds its two fields,
    or nothing when it raises. *)
Lemma cmip6_try_member (fm : dict) filepath g a i :
  cmip6_directory fm filepath = Some (g, a, i) →
  let assigned : dict :=
    <["path" := VStr filepath]>
    (<["version" := VStr (version_of (cmip6_parent filepath))]>
    (<["institution_id" := VStr i]> (<["activity_id" := VStr a]>
    (<["grid_label" := VStr g]> fm)))) in
  (cmip6_try filepath fm).2 =
    match fm !! "member_id" with
    | Some (VStr m) =>
        if py.startswith m "s" then
          match float (cmip6_year_text m) with
          | Ok year =>
              <["member_id" := VStr (default "" (last (py.split_go "-" 0 m)))]>
              (<["dcpp_init_year" := VFloat year]> assigned)
          | Raise _ => assigned
          end
        else <["dcpp_init_year" := NaN]> assigned
    | _ => assigned
    end.
Proof.
  intros (sid & vid & ps & before & part_1 & below & after & segments
          & Hs & Hps & Hb & Hp1 & Ha & Hi & Hv & Hbl & Haf & Hsg & Hg)%cmip6_directory_spec.
  unfold cmip6_parent in *. unfold cmip6_try, version_of. run_block.
  rewrite Hs, Hps, Hb, Hp1, Hv, Hbl, Haf, Hsg, Hg. cbn beta iota.
  rewrite Ha. cbn beta iota. rewrite Hi. cbn beta iota.
  rewrite !lookup_insert_ne by done.
  destruct (fm !! "member_id") as [[m| |]|] eqn:Hm; try done.
  destruct (py.startswith m "s") eqn:Hsw; [|done].
  change (py.split m "-") with (Ok (py.split_go "-" 0 m)). cbn beta iota.
  rewrite getitem_first. unfold cmip6_year_text.
  destruct (head (py.split_go "-" 0 m)) as [first|] eqn:Hhd.
  2:{ destruct (py.split_go "-" 0 m) eqn:Hsp; [|done].
      by apply split_go_nonempty in Hsp. }
  cbn beta iota. simpl default.
  destruct (float (py.drop1 first)) as [year|]; [|done]. cbn beta iota.
  rewrite !lookup_insert_ne by done. rewrite Hm.
  change (py.split m "-") with (Ok (py.split_go "-" 0 m)). cbn beta iota.
  rewrite getitem_last.
  destruct (last (py.split_go "-" 0 m)) as [suffix|] eqn:Hlast; [done|].
  destruct (getitem_last_ok (py.split_go "-" 0 m) (split_go_nonempty _ _ _))
    as (suffix & Hsome & _). congruence.
Qed.

(** The mapping when a directory step raises: as the matcher left it, or
    with the grid label alone. *)
Lemma cmip6_try_no_directory (fm : dict) filepath :
  cmip6_directory fm filepath = None →
  (cmip6_try filepath fm).2 = fm
  ∨ ∃ g, (cmip6_try filepath fm).2 = <["grid_label" := VStr g]> fm.
Proof.
  intros Hnone.
  assert (Hno : ∀ g a i, ¬ directory_fields fm filepath g a i).
  { intros g a i Hd%cmip6_directory_spec. congruence. }
  unfold cmip6_try. run_block. step_block.
  all: try (by left). all: try (by right; eexists).
  all: try match goal with
       | H2 : py.getitem ?l (-2) = Ok _, H1 : py.getitem ?l (-1) = Raise _ |- _ =>
           exfalso; destruct l as [|x l']; [done|];
           destruct (getitem_last_ok (x :: l')) as (? & _ & ?); [done|congruence]
       end.
  all: exfalso; eapply Hno; unfold directory_fields, cmip6_parent; eauto 20.
Qed.

(** C1 (amended). The mapping of [cmip5_parser] always holds [path], equal
    to the input, and [version], the extractor's answer over the whole
    path or ['v0']. The mapping of [cmip6_parser] holds [path], equal to
    the input, and [version], the extractor's answer over the parent
    directory or ['v0'], whenever the directory steps of its [try] block
    (lines 42-47) succeed, also when the member step after them raises;
    when a directory step raises, the block assigns neither, and they
    are as the matcher left them: absent, unless it bound them. *)
Theorem parsers_carry_path_version filepath :
  carries_path_version filepath filepath (cmip5_parser filepath)
  ∧ match cmip6_directory (cmip6_bound filepath) filepath with
    | Some _ =>
        carries_path_version filepath (cmip6_parent filepath) (cmip6_parser filepath)
    | None =>
        cmip6_parser filepath !! "path" = cmip6_bound filepath !! "path"
        ∧ cmip6_parser filepath !! "version" = cmip6_bound filepath !! "version"
    end.
Proof.
  split; [apply cmip5_parser_path_version|].
  rewrite cmip6_parser_unfold.
  destruct (cmip6_directory _ filepath) as [[[g a] i]|] eqn:Hd.
  - rewrite (cmip6_try_member _ _ _ _ _ Hd). unfold carries_path_version.
    repeat case_match; split; by simplify_map_eq.
  - destruct (cmip6_try_no_directory _ _ Hd) as [->|[g ->]]; [done|].
    by rewrite !lookup_insert_ne by done.
Qed.

(** C3 (amended). Whenever the directory steps of the [try] block of
    [cmip6_parser] (lines 42-47) succeed, also when the member step after
    them raises, [version] is what the extractor finds for
    [v\d{4}\d{2}\d{2}|v\d{1}] in the parent directory of the path, with
    its surrounding slashes stripped, and ['v0'] when it finds nothing;
    when a directory step raises, the block assigns no version. *)
Theorem cmip6_parser_version filepath :
  let found :=
    extract_attr_with_regex (py.strip "/" (py.dirname filepath)) version_regex None in
  match cmip6_directory (cmip6_bound filepath) filepath with
  | Some _ =>
      cmip6_parser filepath !! "version" = Some (VStr (or_default found "v0"))
      ∧ (found = None → cmip6_parser filepath !! "version" = Some (VStr "v0"))
      ∧ (∀ token, found = Some token → token ≠ "" →
           cmip6_parser filepath !! "version" = Some (VStr token))
  | None => cmip6_parser filepath !! "version" = cmip6_bound filepath !! "version"
  end.
Proof.
  intros found. rewrite cmip6_parser_unfold.
  destruct (cmip6_directory _ filepath) as [[[g a] i]|] eqn:Hd.
  - assert (Hv : (cmip6_try filepath (cmip6_bound filepath)).2 !! "version"
                 = Some (VStr (or_default found "v0"))).
    { rewrite (cmip6_try_member _ _ _ _ _ Hd).
      repeat case_match; by simplify_map_eq. }
    rewrite Hv. split; [done|]. split.
    + by intros ->.
    + intros token -> Hne. simpl. by destruct token.
  - destruct (cmip6_try_no_directory _ _ Hd) as [->|[g ->]]; [done|].
    by rewrite lookup_insert_ne by done.
Qed.

(** C5. When a step of the [try] block of [cmip6_parser] raises, the
    parser still returns a mapping (the exception stays inside): every
    field the matcher bound is in it; the block's assignments made before
    the failure are in it, and they are none, [grid_label] alone, or the
    five fields up to [path]; every other field is as the matcher left
    it, absent unless the matcher bound it. *)
Theorem cmip6_parser_partial filepath e :
  (cmip6_try filepath (cmip6_bound filepath)).1 = Raise e →
  (∀ k, is_Some (cmip6_bound filepath !! k) → is_Some (cmip6_parser filepath !! k))
  ∧ (cmip6_parser filepath = cmip6_bound filepath
     ∨ (∃ g, cmip6_parser filepath = <["grid_label" := VStr g]> (cmip6_bound filepath))
     ∨ (∃ g a i,
          cmip6_parser filepath =
            <["path" := VStr filepath]>
            (<["version" := VStr (version_of (cmip6_parent filepath))]>
            (<["institution_id" := VStr i]> (<["activity_id" := VStr a]>
            (<["grid_label" := VStr g]> (cmip6_bound filepath)))))))
  ∧ (∀ k, k ∉ ["grid_label"; "activity_id"; "institution_id"; "version"; "path"] →
       cmip6_parser filepath !! k = cmip6_bound filepath !! k).
Proof.
  intros Hraise. rewrite cmip6_parser_unfold.
  pose proof (cmip6_try_raises _ _ _ Hraise) as Hshape.
  split; [|split; [exact Hshape|]].
  - intros k [v Hk].
    destruct Hshape as [-> | [(g & ->) | (g & a & i & ->)]]; [by eexists| |].
    all: repeat (rewrite lookup_insert; case_decide; [by eexists|]); by eexists.
  - intros k Hk. rewrite !not_elem_of_cons in Hk.
    destruct Hk as (? & ? & ? & ? & ? & _).
    destruct Hshape as [-> | [(g & ->) | (g & a & i & ->)]]; [done| |].
    all: by rewrite !lookup_insert_ne by done.
Qed.

(** C7 (amended). For a member id [m] from the file name. When the
    directory steps of the [try] block (lines 42-47) succeed and [m]
    begins with [s], [m] is split at [-]: if [float] accepts the text of
    the first segment after its first character, that float becomes
    [dcpp_init_year] and [member_id] becomes the last segment; if [float]
    raises, [member_id] stays [m] and no [dcpp_init_year] is assigned.
    When they succeed and [m] does not begin with [s], [dcpp_init_year]
    is NaN and [member_id] stays [m]. When a directory step raises,
    [member_id] stays [m] and no [dcpp_init_year] is assigned. *)
Theorem cmip6_member_id_split filepath m :
  reverse_filename_format (py.basename filepath) cmip6_templates !! "member_id" = Some m →
  match cmip6_directory (cmip6_bound filepath) filepath with
  | Some _ =>
      if py.startswith m "s" then
        ∃ prefix suffix,
          head (py.split_go "-" 0 m) = Some prefix
          ∧ last (py.split_go "-" 0 m) = Some suffix
          ∧ match float (py.drop1 prefix) with
            | Ok year =>
                cmip6_parser filepath !! "dcpp_init_year" = Some (VFloat year)
                ∧ cmip6_parser filepath !! "member_id" = Some (VStr suffix)
            | Raise _ =>
                cmip6_parser filepath !! "dcpp_init_year"
                = cmip6_bound filepath !! "dcpp_init_year"
                ∧ cmip6_parser filepath !! "member_id" = Some (VStr m)
            end
      else
        cmip6_parser filepath !! "dcpp_init_year" = Some NaN
        ∧ cmip6_parser filepath !! "member_id" = Some (VStr m)
  | None =>
      cmip6_parser filepath !! "dcpp_init_year" = cmip6_bound filepath !! "dcpp_init_year"
      ∧ cmip6_parser filepath !! "member_id" = Some (VStr m)
  end.
Proof.
  intros Hm.
  assert (Hbound : cmip6_bound filepath !! "member_id" = Some (VStr m)).
  { unfold cmip6_bound. by rewrite lookup_fmap, Hm. }
  rewrite cmip6_parser_unfold.
  destruct (cmip6_directory _ filepath) as [[[g a] i]|] eqn:Hd.
  - rewrite (cmip6_try_member _ _ _ _ _ Hd), Hbound.
    destruct (py.startswith m "s").
    + destruct (getitem_first_ok (py.split_go "-" 0 m) (split_go_nonempty _ _ _))
        as (prefix & Hhd & _).
      destruct (getitem_last_ok (py.split_go "-" 0 m) (split_go_nonempty _ _ _))
        as (suffix & Hlast & _).
      exists prefix, suffix. split; [done|]. split; [done|].
      unfold cmip6_year_text. rewrite Hhd, Hlast. simpl default.
      destruct (float (py.drop1 prefix)) as [year|].
      * split; by simplify_map_eq.
      * split; [by rewrite !lookup_insert_ne by done|].
        by rewrite !lookup_insert_ne by done.
    + split; [by simplify_map_eq|].
      by rewrite !lookup_insert_ne by done.
  - destruct (cmip6_try_no_directory _ _ Hd) as [->|[g ->]]; [done|].
    by rewrite !lookup_insert_ne by done.
Qed.

(** The directory decides the grid label, the activity and the
    institution, whatever the filename says. *)
Lemma cmip6_directory_derived filepath :
  cmip6_completes filepath →
  ∃ g a i,
    directory_fields (cmip6_bound filepath) filepath g a i
    ∧ cmip6_parser filepath !! "grid_label" = Some (VStr g)
    ∧ cmip6_parser filepath !! "activity_id" = Some (VStr a)
    ∧ cmip6_parser filepath !! "institution_id" = Some (VStr i).
Proof.
  intros Hok. rewrite cmip6_parser_unfold.
  destruct (cmip6_try_completes _ _ Hok) as (g & a & i & m & year & m' & Hd & _ & _ & ->).
  exists g, a, i. split; [done|]. repeat split; by simplify_map_eq.
Qed.

End ParserFacts.

(** ** The parsers on the sample paths *)

Local Abbreviation matcher := core.reverse_filename_format.
Local Abbreviation extractor := core.extract_attr_with_regex.

(** With the extractor of the specification the version [cmip6_parser]
    records is ['v0'] or a version token found in the parent directory. *)
Lemma or_default_token (text : string) :
  or_default (extractor text version_regex None) "v0" = "v0"
  ∨ version_token (or_default (extractor text version_regex None) "v0")
    ∧ ∃ pre post,
        text = pre +:+ or_default (extractor text version_regex None) "v0" +:+ post.
Proof.
  destruct (extractor text version_regex None) as [t|] eqn:Ht; [|by left].
  simpl. destruct (py.is_empty t); [by left|right].
  by apply extractor_version_token.
Qed.

Lemma cmip6_version_is_token filepath :
  cmip6_completes matcher extractor py.float filepath →
  ∃ v, cmip6 filepath !! "version" = Some (VStr v)
       ∧ (v = "v0"
          ∨ version_token v ∧ ∃ pre post, cmip6_parent filepath = pre +:+ v +:+ post).
Proof.
  intros Hok. exists (version_of extractor (cmip6_parent filepath)).
  split; [|apply or_default_token].
  apply (cmip6_version_recorded matcher extractor py.float filepath Hok).
Qed.

(** C6. On the example path of the specification [cmip6_parser] returns
    the eleven fields listed there and the path, twelve entries in all;
    the grid label is the one of the directory, also where the filename
    names another. *)
Theorem cmip6_parser_example :
  cmip6 noaa_path !! "activity_id" = Some (VStr "ScenarioMIP")
  ∧ cmip6 noaa_path !! "institution_id" = Some (VStr "NOAA")
  ∧ cmip6 noaa_path !! "source_id" = Some (VStr "GFDL-CM4")
  ∧ cmip6 noaa_path !! "experiment_id" = Some (VStr "ssp585")
  ∧ cmip6 noaa_path !! "member_id" = Some (VStr "r1i1p1f1")
  ∧ cmip6 noaa_path !! "table_id" = Some (VStr "Amon")
  ∧ cmip6 noaa_path !! "variable_id" = Some (VStr "tas")
  ∧ cmip6 noaa_path !! "grid_label" = Some (VStr "gn")
  ∧ cmip6 noaa_path !! "version" = Some (VStr "v20180701")
  ∧ cmip6 noaa_path !! "time_range" = Some (VStr "201501-210012")
  ∧ cmip6 noaa_path !! "dcpp_init_year" = Some NaN
  ∧ cmip6 noaa_path !! "path" = Some (VStr noaa_path)
  ∧ size (cmip6 noaa_path) = 12%nat
  ∧ matcher (py.basename regridded_path) cmip6_templates !! "grid_label" = Some "gn"
  ∧ cmip6 regridded_path !! "grid_label" = Some (VStr "gr1").
Proof. split_and!; vm_compute; reflexivity. Qed.

(** Evaluates the directory steps on a sample path. *)
Ltac directory_of H :=
  match type of H with
  | context [cmip6_directory ?fm ?p] =>
      let d := eval vm_compute in (cmip6_directory fm p) in
      replace (cmip6_directory fm p) with d in H by (vm_compute; reflexivity)
  end.

(** Paths [parsers_carry_path_version] applies to: the example path; a
    path whose member step raises after the directory steps; and the flat
    directory, where a directory step raises. *)
Lemma parsers_carry_path_version_noaa :
  carries_path_version extractor noaa_path noaa_path (cmip5 noaa_path)
  ∧ carries_path_version extractor noaa_path (cmip6_parent noaa_path) (cmip6 noaa_path)
  ∧ carries_path_version extractor sub_path (cmip6_parent sub_path) (cmip6 sub_path)
  ∧ cmip6 flat_dcpp_path !! "path" = None
  ∧ cmip6 flat_dcpp_path !! "version" = None.
Proof.
  destruct (parsers_carry_path_version matcher extractor py.float noaa_path) as [H5 Hnoaa].
  destruct (parsers_carry_path_version matcher extractor py.float sub_path) as [_ Hsub].
  destruct (parsers_carry_path_version matcher extractor py.float flat_dcpp_path) as [_ Hflat].
  directory_of Hnoaa. directory_of Hsub. directory_of Hflat.
  destruct Hflat as [Hp Hv].
  split_and!; [exact H5|exact Hnoaa|exact Hsub| |].
  - etrans; [exact Hp|]. vm_compute; reflexivity.
  - etrans; [exact Hv|]. vm_compute; reflexivity.
Defined.

(** C1 fails as stated: a conforming file in a flat directory gets the
    seven fields of its name, and neither [path] nor [version]. *)
Lemma cmip6_parser_no_path :
  cmip6 flat_dcpp_path !! "path" = None
  ∧ cmip6 flat_dcpp_path !! "version" = None
  ∧ size (cmip6 flat_dcpp_path) = 7%nat.
Proof. split_and!; vm_compute; reflexivity. Qed.

(** Paths [cmip6_parser_version] applies to: the example path, a path
    with no token in its directory, and a path whose member step raises
    after the version is recorded. *)
Lemma cmip6_parser_version_noaa :
  cmip6 noaa_path !! "version" = Some (VStr "v20180701")
  ∧ cmip6 unversioned_path !! "version" = Some (VStr "v0")
  ∧ cmip6 sub_path !! "version" = Some (VStr "v20190101")
  ∧ cmip6 sub_path !! "dcpp_init_year" = None.
Proof.
  pose proof (cmip6_parser_version matcher extractor py.float noaa_path) as Hnoaa.
  pose proof (cmip6_parser_version matcher extractor py.float unversioned_path) as Hunv.
  pose proof (cmip6_parser_version matcher extractor py.float sub_path) as Hsub.
  cbv zeta in Hnoaa, Hunv, Hsub.
  directory_of Hnoaa. directory_of Hunv. directory_of Hsub.
  destruct Hnoaa as (Hv1 & _ & _). destruct Hunv as (_ & Hv2 & _).
  destruct Hsub as (Hv3 & _ & _).
  split_and!.
  - etrans; [exact Hv1|]. vm_compute; reflexivity.
  - apply Hv2. vm_compute; reflexivity.
  - etrans; [exact Hv3|]. vm_compute; reflexivity.
  - vm_compute; reflexivity.
Defined.

(** C3 fails as stated. The search does not cover the whole path: a token
    in the filename only is found by a search of the path, and the parser
    records ['v0']. And where no token is found the version need not be
    ['v0']: in a flat directory no version is recorded at all. *)
Lemma cmip6_parser_version_not_from_path :
  extractor unversioned_path version_regex None = Some "v2"
  ∧ cmip6 unversioned_path !! "version" = Some (VStr "v0")
  ∧ extractor flat_dcpp_path version_regex None = None
  ∧ cmip6 flat_dcpp_path !! "version" = None.
Proof. split_and!; vm_compute; reflexivity. Qed.

(** A path [cmip6_parser_partial] applies to: the flat directory stops
    the block at its first directory step. *)
Lemma cmip6_parser_partial_flat :
  (cmip6_try extractor py.float flat_dcpp_path (cmip6_bound matcher flat_dcpp_path)).1 = Raise IndexError
  ∧ is_Some (cmip6 flat_dcpp_path !! "variable_id")
  ∧ cmip6 flat_dcpp_path !! "member_id" = Some (VStr "s1960-r2i1p1f1")
  ∧ cmip6 flat_dcpp_path !! "dcpp_init_year" = None.
Proof.
  assert (Hraise : (cmip6_try extractor py.float flat_dcpp_path (cmip6_bound matcher flat_dcpp_path)).1
                   = Raise IndexError) by (vm_compute; reflexivity).
  destruct (cmip6_parser_partial matcher extractor py.float flat_dcpp_path IndexError Hraise)
    as (Hkeep & Hshape & Hrest).
  assert (Hother : ∀ k : string,
            bool_decide (k ∈ ["grid_label"; "activity_id"; "institution_id"; "version"; "path"]) = false →
            cmip6 flat_dcpp_path !! k = cmip6_bound matcher flat_dcpp_path !! k).
  { intros k Hk. apply Hrest. by apply bool_decide_eq_false in Hk. }
  split_and!.
  - exact Hraise.
  - apply Hkeep. vm_compute. eexists; reflexivity.
  - rewrite Hother by reflexivity. vm_compute; reflexivity.
  - rewrite Hother by reflexivity. vm_compute; reflexivity.
Defined.

(** Paths [cmip6_member_id_split] applies to. The example of the
    specification: [s1960-r2i1p1f1] gives the year 1960.0 and the member
    [r2i1p1f1]; a member id without [s]; one whose text after the [s] is
    no number; and the flat directory. *)
Lemma cmip6_member_id_split_dcpp :
  cmip6 dcpp_path !! "dcpp_init_year" = Some (VFloat (py.float_of_Z 1960))
  ∧ cmip6 dcpp_path !! "member_id" = Some (VStr "r2i1p1f1")
  ∧ cmip6 noaa_path !! "dcpp_init_year" = Some NaN
  ∧ cmip6 noaa_path !! "member_id" = Some (VStr "r1i1p1f1")
  ∧ cmip6 sub_path !! "dcpp_init_year" = None
  ∧ cmip6 sub_path !! "member_id" = Some (VStr "sub-r2i1p1f1")
  ∧ cmip6 flat_dcpp_path !! "dcpp_init_year" = None
  ∧ cmip6 flat_dcpp_path !! "member_id" = Some (VStr "s1960-r2i1p1f1").
Proof.
  assert (H1 := cmip6_member_id_split matcher extractor py.float dcpp_path "s1960-r2i1p1f1").
  assert (H2 := cmip6_member_id_split matcher extractor py.float noaa_path "r1i1p1f1").
  assert (H3 := cmip6_member_id_split matcher extractor py.float sub_path "sub-r2i1p1f1").
  assert (H4 := cmip6_member_id_split matcher extractor py.float flat_dcpp_path "s1960-r2i1p1f1").
  directory_of H1. directory_of H2. directory_of H3. directory_of H4.
  change (py.startswith "s1960-r2i1p1f1" "s") with true in H1.
  change (py.startswith "r1i1p1f1" "s") with false in H2.
  change (py.startswith "sub-r2i1p1f1" "s") with true in H3.
  cbv beta iota in H1, H2, H3, H4.
  destruct H1 as (prefix & suffix & Hp & Hs & Hy); [vm_compute; reflexivity|].
  destruct H2 as [Hd2 Hm2]; [vm_compute; reflexivity|].
  destruct H3 as (prefix3 & suffix3 & Hp3 & _ & Hy3); [vm_compute; reflexivity|].
  destruct H4 as [Hd4 Hm4]; [vm_compute; reflexivity|].
  assert (prefix = "s1960") as -> by (vm_compute in Hp; congruence).
  assert (suffix = "r2i1p1f1") as -> by (vm_compute in Hs; congruence).
  assert (prefix3 = "sub") as -> by (vm_compute in Hp3; congruence).
  assert (Hf : py.float (py.drop1 "s1960") = Ok (py.float_of_Z 1960))
    by (vm_compute; reflexivity).
  assert (Hf3 : py.float (py.drop1 "sub") = Raise ValueError) by (vm_compute; reflexivity).
  rewrite Hf in Hy. rewrite Hf3 in Hy3.
  destruct Hy as [Hd1 Hm1]. destruct Hy3 as [Hd3 Hm3].
  split_and!;
    [exact Hd1|exact Hm1|exact Hd2|exact Hm2|exact Hd3|exact Hm3|exact Hd4|exact Hm4].
Defined.

(** C7 fails as stated: a member id that begins with [s] is left as it is,
    and no year is recorded, when the file lies in a flat directory, or
    when the text after the [s] is not a number. *)
Lemma cmip6_member_id_not_split :
  matcher (py.basename flat_dcpp_path) cmip6_templates !! "member_id" = Some "s1960-r2i1p1f1"
  ∧ cmip6 flat_dcpp_path !! "dcpp_init_year" = None
  ∧ cmip6 flat_dcpp_path !! "member_id" = Some (VStr "s1960-r2i1p1f1")
  ∧ matcher (py.basename sub_path) cmip6_templates !! "member_id" = Some "sub-r2i1p1f1"
  ∧ cmip6 sub_path !! "dcpp_init_year" = None
  ∧ cmip6 sub_path !! "member_id" = Some (VStr "sub-r2i1p1f1").
Proof. split_and!; vm_compute; reflexivity. Qed.

(* ================================================================== *)
(** * Properties of the catalog tables *)
(* ================================================================== *)

(** ** Values *)

Lemma SFeqb_canon (x y : spec_float) :
  x ≠ S754_nan → y ≠ S754_nan →
  SFeqb x y = true ↔ canon (VFloat x) = canon (VFloat y).
Proof.
  intros Hx Hy. unfold SFeqb, SFcompare.
  destruct x as [sx|sx| |sx mx ex], y as [sy|sy| |sy my ey]; simpl; try done.
  all: try (destruct sx, sy; simpl; split; (done || congruence)).
  all: try (destruct sx; split; (done || congruence)).
  all: try (destruct sy; split; (done || congruence)).
  destruct sx, sy; try (split; (done || congruence)).
  all: destruct (Z.compare_spec ex ey) as [->| |]; try (split; [done|intros; simplify_eq; lia]).
  all: change (Pos.compare_cont Eq mx my) with (Pos.compare mx my).
  all: destruct (Pos.compare_spec mx my) as [->| |]; simpl;
       split; try done; intros; simplify_eq; lia.
Qed.

(** Python's [==] on values that are not missing is equality of their
    representatives. *)
Lemma value_eqb_canon (v w : value) :
  isna v = false → isna w = false →
  value_eqb v w = true ↔ canon v = canon w.
Proof.
  intros Hv Hw. destruct v as [a|x|], w as [b|y|]; try done.
  - simpl. rewrite String.eqb_eq. split; congruence.
  - simpl. split; [done|]. by destruct y.
  - simpl. split; [done|]. by destruct x.
  - apply SFeqb_canon; [by destruct x|by destruct y].
Qed.

Lemma isna_canon (v : value) : isna (canon v) = isna v.
Proof. by destruct v as [|[]|]. Qed.

Lemma has_key_group_key keys (r x : Row) :
  group_key keys x = group_key keys r → has_key keys x = has_key keys r.
Proof.
  unfold group_key, has_key. induction keys as [|c keys IH]; [done|].
  simpl. intros [= Hc Hrest]. rewrite (IH Hrest). f_equal. f_equal.
  by rewrite <- (isna_canon (cell x c)), Hc, isna_canon.
Qed.

(** ** Lists *)

Lemma elem_of_map_inj {A B} (f : A → B) (l : list A) (x y : A) :
  NoDup (map f l) → x ∈ l → y ∈ l → f x = f y → x = y.
Proof.
  induction l as [|a l IH]; [by intros _ ?%elem_of_nil|].
  simpl. rewrite NoDup_cons. intros [Ha Hl] Hx Hy Hf.
  apply elem_of_cons in Hx as [->|Hx]; apply elem_of_cons in Hy as [->|Hy]; auto.
  - destruct Ha. rewrite Hf. apply list_elem_of_fmap. eauto.
  - destruct Ha. rewrite <- Hf. apply list_elem_of_fmap. eauto.
Qed.

Lemma filter_none {A} (P : A → Prop) `{!∀ x, Decision (P x)} (l : list A) :
  (∀ x, x ∈ l → ¬ P x) → filter P l = [].
Proof.
  induction l as [|b l IH]; [done|]. intros Hall.
  rewrite filter_cons_False by (apply Hall; left).
  apply IH. intros x Hx. apply Hall. by right.
Qed.

Lemma filter_all {A} (P : A → Prop) `{!∀ x, Decision (P x)} (l : list A) :
  (∀ x, x ∈ l → P x) → filter P l = l.
Proof.
  induction l as [|b l IH]; [done|]. intros Hall.
  rewrite filter_cons_True by (apply Hall; left).
  f_equal. apply IH. intros x Hx. apply Hall. by right.
Qed.

(** Filtering a list without repetitions by a property only [a] has
    leaves [a] alone. *)
Lemma filter_only {A} (P : A → Prop) `{!∀ x, Decision (P x)} (l : list A) (a : A) :
  NoDup l → a ∈ l → (∀ x, x ∈ l → P x ↔ x = a) → filter P l = [a].
Proof.
  induction l as [|b l IH]; [by intros _ ?%elem_of_nil|].
  rewrite NoDup_cons. intros [Hb Hl] Ha HP.
  apply elem_of_cons in Ha as [->|Ha].
  - rewrite filter_cons_True by (apply HP; [left|done]).
    f_equal. apply filter_none. intros x Hx HPx.
    apply HP in HPx; [|by right]. by subst.
  - rewrite filter_cons_False.
    + apply IH; [done..|]. intros x Hx. apply HP. by right.
    + intros HPb. apply HP in HPb; [|by left]. by subst.
Qed.

Lemma traverse_ok {A B} (f : A → result B) (l : list A) (bs : list B) :
  traverse f l = Ok bs → Forall2 (λ a b, f a = Ok b) l bs.
Proof.
  revert bs. induction l as [|a l IH]; intros bs; simpl.
  - intros [= <-]. constructor.
  - destruct (f a) as [b|] eqn:Hb; [|done]. simpl.
    destruct (traverse f l) as [bs'|]; [|done]. simpl.
    intros [= <-]. constructor; [done|]. by apply IH.
Qed.

Lemma traverse_total {A B} (f : A → result B) (l : list A) :
  Forall (λ a, is_ok (f a) = true) l → is_ok (traverse f l) = true.
Proof.
  induction 1 as [|a l Ha _ IH]; [done|]. simpl.
  destruct (f a); [|done]. simpl. by destruct (traverse f l).
Qed.

Lemma filter_ext_elem {A} (P Q : A → Prop) `{!∀ x, Decision (P x)} `{!∀ x, Decision (Q x)}
    (l : list A) :
  (∀ x, x ∈ l → P x ↔ Q x) → filter P l = filter Q l.
Proof.
  induction l as [|a l IH]; [done|]. intros Hext.
  rewrite !filter_cons. rewrite IH by (intros x Hx; apply Hext; by right).
  destruct (decide (P a)) as [HP|HP], (decide (Q a)) as [HQ|HQ]; try done.
  - destruct HQ. apply Hext; [left|done].
  - destruct HP. apply Hext; [left|done].
Qed.

Lemma filter_comm {A} (P Q : A → Prop) `{!∀ x, Decision (P x)} `{!∀ x, Decision (Q x)}
    (l : list A) :
  filter P (filter Q l) = filter Q (filter P l).
Proof. rewrite !list_filter_filter. apply list_filter_iff. tauto. Qed.

Lemma elem_of_concat {A} (x : A) (ls : list (list A)) :
  x ∈ concat ls ↔ ∃ l, l ∈ ls ∧ x ∈ l.
Proof.
  induction ls as [|l ls IH]; simpl.
  - split; [by intros ?%elem_of_nil|]. by intros (? & ?%elem_of_nil & _).
  - rewrite elem_of_app, IH. split.
    + intros [?|(l' & ? & ?)]; [exists l; split; [left|done]|exists l'; split; [by right|done]].
    + intros (l' & [->|?]%elem_of_cons & ?); [by left|right; eauto].
Qed.

(** ** Grouping *)

(** The groups of [groupby] are the logical datasets of the rows that
    have a complete key. *)
Lemma groupby_groups (df : DataFrame) (keys : list string) (groups : list (list Row)) :
  groupby df keys = Ok groups →
  keys ≠ [] ∧
  ∀ g, g ∈ groups ↔
       ∃ r, r ∈ rows df ∧ has_key keys r = true
            ∧ g = filter (λ x, group_key keys x = group_key keys r) (rows df).
Proof.
  unfold groupby. destruct keys as [|c keys]; [done|]. intros [= <-].
  split; [done|]. intros g. set (ks := c :: keys).
  rewrite list_elem_of_fmap. setoid_rewrite elem_of_remove_dups.
  setoid_rewrite list_elem_of_fmap. setoid_rewrite list_elem_of_filter.
  assert (Heq : ∀ r, has_key ks r = true →
            filter (λ x, group_key ks x = group_key ks r)
                   (filter (λ x, has_key ks x = true) (rows df))
            = filter (λ x, group_key ks x = group_key ks r) (rows df)).
  { intros r Hr. rewrite list_filter_filter. apply list_filter_iff.
    intros x. split; [by intros [? _]|]. intros Hx. split; [done|].
    by rewrite (has_key_group_key _ _ _ Hx). }
  split.
  - intros (k & -> & r & -> & Hr & Hin). exists r. by rewrite Heq.
  - intros (r & Hin & Hr & ->). exists (group_key ks r). rewrite Heq by done. eauto.
Qed.

Lemma group_of_spec (df : DataFrame) (r x : Row) :
  x ∈ group_of df r ↔
  x ∈ rows df ∧ group_key (grouping_columns (columns df)) x
                = group_key (grouping_columns (columns df)) r.
Proof. unfold group_of. rewrite list_elem_of_filter. tauto. Qed.

Lemma group_of_same (df : DataFrame) (r x : Row) :
  x ∈ group_of df r → group_of df x = group_of df r.
Proof.
  intros [_ Hk]%group_of_spec. unfold group_of. apply list_filter_iff.
  intros y. simpl. by rewrite Hk.
Qed.

Lemma group_of_self (df : DataFrame) (r : Row) : r ∈ rows df → r ∈ group_of df r.
Proof. intros. by apply group_of_spec. Qed.

Section SelectorFacts.

Variable sort_values : string → bool → list Row → list Row.

(** What every sort gives: the same rows, in the order asked for. The
    order is only relied on for columns of text and missing values. *)
Hypothesis sort_values_perm :
  ∀ col ascending rs, sort_values col ascending rs ≡ₚ rs.
Hypothesis sort_values_sorted :
  ∀ col ascending rs,
    textual col rs → StronglySorted (row_before col ascending) (sort_values col ascending rs).

Local Abbreviation _pick_latest_version := (_pick_latest_version sort_values).
Local Abbreviation _pick_latest_v := (_pick_latest_v sort_values).
Local Abbreviation sort_rows := (sort_rows sort_values).

(** The version ranking of a group, best first. *)
Local Abbreviation ranked := (sort_values "version" false).

Lemma pick_latest_v_labels cols g labels :
  _pick_latest_v cols g = Ok labels →
  "version" ∈ cols ∧
  if (1 <? nunique (versions g))%nat
  then labels = map index (tail (ranked g))
  else labels = [].
Proof.
  unfold _pick_latest_v, sort_rows. case_bool_decide; [|done].
  intros Hv. split; [done|]. destruct (1 <? nunique (versions g))%nat; [|by simplify_eq].
  destruct (comparable _); simpl in Hv; by simplify_eq.
Qed.

Lemma pick_latest_version_rows df df' :
  _pick_latest_version df = Ok df' →
  ∃ groups idx,
    groupby df (grouping_columns (columns df)) = Ok groups
    ∧ Forall2 (λ g labels, _pick_latest_v (columns df) g = Ok labels) groups idx
    ∧ columns df' = columns df
    ∧ rows df' = filter (λ r, index r ∉ concat idx) (rows df).
Proof.
  unfold _pick_latest_version, rbind, drop.
  destruct (groupby _ _) as [groups|] eqn:Hg; [|done].
  destruct (traverse _ _) as [idx|] eqn:Ht; [|done].
  case_match; [|done]. intros [= <-]. exists groups, idx.
  split; [done|]. split; [by apply traverse_ok|]. done.
Qed.

(** The labels collected for removal are those of the rows ranked below
    the first in a group with more than one version. *)
Lemma removed_labels df groups idx (r : Row) :
  NoDup (map index (rows df)) →
  groupby df (grouping_columns (columns df)) = Ok groups →
  Forall2 (λ g labels, _pick_latest_v (columns df) g = Ok labels) groups idx →
  r ∈ rows df →
  index r ∈ concat idx ↔
    has_key (grouping_columns (columns df)) r = true
    ∧ (1 < nunique (versions (group_of df r)))%nat
    ∧ r ∈ tail (ranked (group_of df r)).
Proof.
  intros Hnd Hgroups Hidx Hr.
  destruct (groupby_groups _ _ _ Hgroups) as [_ Hg].
  split.
  - intros (labels & Hlab & Hin)%elem_of_concat.
    apply list_elem_of_lookup in Hlab as [n Hn].
    destruct (Forall2_lookup_r _ _ _ _ _ Hidx Hn) as (g & Hgn & Hpick).
    assert (Hgin : g ∈ groups) by (apply list_elem_of_lookup; eauto).
    apply Hg in Hgin as (r0 & Hr0 & Hkey0 & Hgeq).
    apply pick_latest_v_labels in Hpick as [_ Hpick].
    destruct (1 <? nunique (versions g))%nat eqn:Hnu;
      [|subst; by apply elem_of_nil in Hin].
    subst labels. apply list_elem_of_fmap in Hin as (y & Hy & Hytail).
    assert (Hyg : y ∈ g).
    { rewrite <- (sort_values_perm "version" false g).
      destruct (ranked g); [by apply elem_of_nil in Hytail|]. by right. }
    assert (y = r) as ->.
    { apply (elem_of_map_inj index (rows df)); [done| |done..].
      rewrite Hgeq in Hyg. by apply list_elem_of_filter in Hyg as [_ ?]. }
    assert (Hsame : group_of df r = g).
    { rewrite Hgeq. change (filter _ (rows df)) with (group_of df r0).
      apply group_of_same. unfold group_of. by rewrite <- Hgeq. }
    rewrite Hsame. split_and!; [|by apply Nat.ltb_lt|done].
    rewrite Hgeq in Hyg. apply list_elem_of_filter in Hyg as [Hk _].
    by rewrite (has_key_group_key _ _ _ Hk).
  - intros (Hkey & Hnu & Hin).
    assert (Hgin : group_of df r ∈ groups) by (apply Hg; eauto).
    apply list_elem_of_lookup in Hgin as [n Hn].
    destruct (Forall2_lookup_l _ _ _ _ _ Hidx Hn) as (labels & Hln & Hpick).
    apply pick_latest_v_labels in Hpick as [_ Hpick].
    apply Nat.ltb_lt in Hnu. rewrite Hnu in Hpick. subst labels.
    apply elem_of_concat. eexists. split; [by eapply list_elem_of_lookup_2|].
    apply list_elem_of_fmap. eauto.
Qed.

(** A row is removed exactly when it is ranked below the first row of its
    group and the group has more than one version. *)
Lemma pick_latest_version_survives df df' (r : Row) :
  NoDup (map index (rows df)) →
  _pick_latest_version df = Ok df' →
  r ∈ rows df →
  r ∈ rows df' ↔
    ¬ (has_key (grouping_columns (columns df)) r = true
       ∧ (1 < nunique (versions (group_of df r)))%nat
       ∧ r ∈ tail (ranked (group_of df r))).
Proof.
  intros Hnd (groups & idx & Hg & Hidx & _ & ->)%pick_latest_version_rows Hr.
  rewrite list_elem_of_filter, (removed_labels df groups idx r) by done. tauto.
Qed.

Lemma pick_latest_version_columns df df' :
  _pick_latest_version df = Ok df' → columns df' = columns df.
Proof. by intros (groups & idx & _ & _ & ? & _)%pick_latest_version_rows. Qed.

Lemma pick_latest_version_subset df df' (r : Row) :
  _pick_latest_version df = Ok df' → r ∈ rows df' → r ∈ rows df.
Proof.
  intros (groups & idx & _ & _ & _ & ->)%pick_latest_version_rows.
  by intros [_ ?]%list_elem_of_filter.
Qed.

(** The group of a row after the selection: the rows of its group that
    survive. *)
Lemma group_of_selected df df' (r : Row) :
  NoDup (map index (rows df)) →
  _pick_latest_version df = Ok df' →
  group_of df' r = filter (λ x, x ∈ rows df') (group_of df r).
Proof.
  intros Hnd Hpick. unfold group_of.
  rewrite (pick_latest_version_columns _ _ Hpick).
  set (same := λ x, group_key _ x = group_key _ r).
  destruct (pick_latest_version_rows _ _ Hpick) as (groups & idx & _ & _ & _ & Hrows).
  rewrite Hrows at 1. rewrite filter_comm.
  apply filter_ext_elem. intros x [_ Hx]%list_elem_of_filter.
  rewrite Hrows, list_elem_of_filter. tauto.
Qed.

Lemma rows_NoDup df : NoDup (map index (rows df)) → NoDup (rows df).
Proof. apply (NoDup_fmap_1 index). Qed.

Lemma ranked_head df (r : Row) :
  r ∈ rows df → ∃ top below, ranked (group_of df r) = top :: below.
Proof.
  intros Hr%group_of_self. rewrite <- (sort_values_perm "version" false) in Hr.
  destruct (ranked (group_of df r)) as [|top below]; [by apply elem_of_nil in Hr|eauto].
Qed.

(** What the selection leaves of a group: its first-ranked row alone when
    it has more than one version, and all of it otherwise. *)
Lemma pick_latest_version_group df df' (r : Row) :
  NoDup (map index (rows df)) →
  _pick_latest_version df = Ok df' →
  r ∈ rows df →
  has_key (grouping_columns (columns df)) r = true →
  if (1 <? nunique (versions (group_of df r)))%nat
  then ∃ top below,
         ranked (group_of df r) = top :: below
         ∧ group_of df' r = [top]
         ∧ ∀ x, x ∈ below → x ∉ rows df'
  else group_of df' r = group_of df r.
Proof.
  intros Hnd Hpick Hr Hkey. rewrite (group_of_selected _ _ _ Hnd Hpick).
  assert (Hin : ∀ x, x ∈ group_of df r →
            x ∈ rows df' ↔ ¬ ((1 < nunique (versions (group_of df r)))%nat
                              ∧ x ∈ tail (ranked (group_of df r)))).
  { intros x Hx. pose proof Hx as [Hxr Hxk]%group_of_spec.
    rewrite (pick_latest_version_survives df df' x Hnd Hpick Hxr).
    rewrite (group_of_same _ _ _ Hx), (has_key_group_key _ _ _ Hxk), Hkey. tauto. }
  destruct (1 <? nunique (versions (group_of df r)))%nat eqn:Hnu.
  - apply Nat.ltb_lt in Hnu.
    destruct (ranked_head df r Hr) as (top & below & Hrank).
    assert (Hperm : top :: below ≡ₚ group_of df r)
      by (rewrite <- Hrank; apply sort_values_perm).
    assert (Hndg : NoDup (group_of df r))
      by (apply NoDup_filter, rows_NoDup, Hnd).
    assert (Hndr : NoDup (top :: below)) by by rewrite Hperm.
    apply NoDup_cons in Hndr as [Htop _].
    exists top, below. split; [done|]. split.
    + apply filter_only; [done|rewrite <- Hperm; left|].
      intros x Hx. rewrite (Hin x Hx), Hrank. simpl.
      rewrite <- Hperm in Hx. apply elem_of_cons in Hx as [->|Hx]; [|].
      * split; [done|]. intros _ [_ ?]. done.
      * split; [intros Hno; destruct Hno; done|]. intros ->. done.
    + intros x Hx Hx'.
      assert (Hxg : x ∈ group_of df r) by (rewrite <- Hperm; by right).
      apply (Hin x Hxg) in Hx'. apply Hx'. rewrite Hrank. done.
  - apply Nat.ltb_ge in Hnu. apply filter_all. intros x Hx.
    apply (Hin x Hx). intros [? _]. lia.
Qed.

(** ** When the selection returns *)

Lemma textual_comparable (rs : list Row) :
  textual "version" rs → comparable (versions rs) = true.
Proof.
  intros Ht. unfold comparable. apply orb_true_iff. left.
  apply forallb_forall. intros v Hv. apply list_elem_of_In in Hv.
  apply list_elem_of_filter in Hv as [Hna Hv].
  apply list_elem_of_fmap in Hv as (x & -> & Hx).
  unfold textual in Ht. rewrite Forall_forall in Ht. specialize (Ht x Hx).
  destruct (cell x "version") as [|f|]; [done| |done].
  rewrite Ht in Hna; done.
Qed.

Lemma textual_subset col (rs rs' : list Row) :
  rs' ⊆ rs → textual col rs → textual col rs'.
Proof.
  unfold textual. rewrite !Forall_forall. intros Hsub Ht x Hx. apply Ht, Hsub, Hx.
Qed.

Lemma pick_latest_version_total df :
  grouping_columns (columns df) ≠ [] →
  "version" ∈ columns df →
  textual "version" (rows df) →
  is_ok (_pick_latest_version df) = true.
Proof.
  intros Hgrp Hver Htext. unfold _pick_latest_version.
  destruct (groupby df _) as [groups|] eqn:Hg.
  2:{ unfold groupby in Hg. by destruct (grouping_columns _). }
  destruct (groupby_groups _ _ _ Hg) as [_ Hgroups]. simpl.
  assert (Hsub : ∀ g, g ∈ groups → g ⊆ rows df).
  { intros g (r0 & _ & _ & ->)%Hgroups. apply list_subseteq_filter. }
  assert (Hall : Forall (λ g, is_ok (_pick_latest_v (columns df) g) = true) groups).
  { apply Forall_forall. intros g Hgin. unfold _pick_latest_v, sort_rows.
    rewrite bool_decide_eq_true_2 by done.
    destruct (1 <? _)%nat; [|done].
    change (map _ g) with (versions g).
    rewrite (textual_comparable g); [done|].
    apply (textual_subset _ (rows df)); [by apply Hsub|done]. }
  destruct (traverse _ groups) as [idx|] eqn:Ht.
  2:{ apply traverse_total in Hall. by rewrite Ht in Hall. }
  simpl. unfold drop. apply traverse_ok in Ht.
  rewrite (proj2 (forallb_forall _ _)); [done|].
  intros l Hl. apply bool_decide_eq_true. apply list_elem_of_In in Hl.
  apply elem_of_concat in Hl as (labels & Hlab & Hl).
  apply list_elem_of_lookup in Hlab as [n Hn].
  destruct (Forall2_lookup_r _ _ _ _ _ Ht Hn) as (g & Hgn & Hpick).
  apply pick_latest_v_labels in Hpick as [_ Hpick].
  destruct (1 <? _)%nat; [|subst; by apply elem_of_nil in Hl].
  subst. apply list_elem_of_fmap in Hl as (y & -> & Hy).
  apply list_elem_of_fmap_2. apply (Hsub g); [by eapply list_elem_of_lookup_2|].
  rewrite <- (sort_values_perm "version" false g).
  destruct (ranked g); [by apply elem_of_nil in Hy|by right].
Qed.

(** ** The claims on the version selector *)

Lemma nunique_present (rs : list Row) :
  (0 < nunique (versions rs))%nat → ∃ x, x ∈ rs ∧ isna (cell x "version") = false.
Proof.
  unfold nunique, versions. intros Hn.
  destruct (filter (λ v, isna v = false) (map (λ r, cell r "version") rs))
    as [|v vs] eqn:Hf; [simpl in Hn; lia|].
  assert (Hv : v ∈ filter (λ v, isna v = false) (map (λ r, cell r "version") rs))
    by (rewrite Hf; left).
  apply list_elem_of_filter in Hv as [Hna Hv].
  apply list_elem_of_fmap in Hv as (x & -> & Hx). eauto.
Qed.

Lemma value_leb_refl_text (v : value) :
  isna v = false → (is_float v = true → isna v = true) → value_leb v v = true.
Proof.
  destruct v as [s| |]; [|intros Hna Hf; rewrite Hf in Hna; done|done].
  intros _ _. simpl. by destruct (String.leb_total s s).
Qed.

(** The first-ranked row of a group of text versions carries a version,
    and none of the group is greater. *)
Lemma ranked_top_greatest (g : list Row) top below :
  textual "version" g →
  (1 < nunique (versions g))%nat →
  ranked g = top :: below →
  isna (cell top "version") = false
  ∧ ∀ x, x ∈ g → isna (cell x "version") = false →
         value_leb (cell x "version") (cell top "version") = true.
Proof.
  intros Htext Hnu Hrank.
  pose proof (sort_values_sorted "version" false g Htext) as Hsorted.
  rewrite Hrank in Hsorted. apply StronglySorted_inv in Hsorted as [_ Hbelow].
  rewrite Forall_forall in Hbelow.
  assert (Hperm : top :: below ≡ₚ g) by (rewrite <- Hrank; apply sort_values_perm).
  assert (Htop : isna (cell top "version") = false).
  { destruct (nunique_present g) as (x & Hx & Hna); [lia|].
    rewrite <- Hperm in Hx. apply elem_of_cons in Hx as [->|Hx]; [done|].
    specialize (Hbelow x Hx). unfold row_before in Hbelow. rewrite Hna in Hbelow.
    by destruct (isna (cell top "version")). }
  split; [done|]. intros x Hx Hna.
  pose proof Hx as Hxg. rewrite <- Hperm in Hx.
  apply elem_of_cons in Hx as [->|Hx].
  - apply value_leb_refl_text; [done|].
    unfold textual in Htext. rewrite Forall_forall in Htext. by apply Htext.
  - specialize (Hbelow x Hx). unfold row_before in Hbelow.
    by rewrite Htop, Hna in Hbelow.
Qed.

(** C2 (amended). With unique index labels and a version column of text
    and missing values: after [_pick_latest_version], a group of rows
    that agree on all columns but [path] and [version], none of them
    missing, holds exactly one row if it had more than one distinct
    version, and that row carries the greatest version of the group; a
    group with at most one distinct version keeps all its rows. *)
Theorem pick_latest_version_invariant df df' (r : Row) :
  NoDup (map index (rows df)) →
  textual "version" (rows df) →
  _pick_latest_version df = Ok df' →
  r ∈ rows df →
  has_key (grouping_columns (columns df)) r = true →
  if (1 <? nunique (versions (group_of df r)))%nat
  then ∃ top,
         group_of df' r = [top]
         ∧ length (group_of df' r) = 1%nat
         ∧ top ∈ group_of df r
         ∧ isna (cell top "version") = false
         ∧ ∀ x, x ∈ group_of df r → isna (cell x "version") = false →
                value_leb (cell x "version") (cell top "version") = true
  else group_of df' r = group_of df r.
Proof.
  intros Hnd Htext Hpick Hr Hkey.
  pose proof (pick_latest_version_group df df' r Hnd Hpick Hr Hkey) as Hgroup.
  destruct (1 <? nunique (versions (group_of df r)))%nat eqn:Hnu; [|done].
  destruct Hgroup as (top & below & Hrank & Hsurv & _).
  apply Nat.ltb_lt in Hnu.
  assert (Htg : textual "version" (group_of df r)).
  { apply (textual_subset _ (rows df)); [apply list_subseteq_filter|done]. }
  destruct (ranked_top_greatest _ _ _ Htg Hnu Hrank) as [Htop Hmax].
  exists top. split_and!; [done|by rewrite Hsurv| |done|done].
  rewrite <- (sort_values_perm "version" false), Hrank. left.
Qed.

(** X11. With unique index labels: from a group of the [groupby] partition
    (rows with no missing grouping value that agree on all columns but
    [path] and [version]) with more than one distinct version,
    [_pick_latest_version] removes every row but the first in descending
    version order; a group with a single distinct version keeps all its
    rows. *)
Lemma pick_latest_version_removes_all_but_top df df' (r : Row) :
  NoDup (map index (rows df)) →
  _pick_latest_version df = Ok df' →
  r ∈ rows df →
  has_key (grouping_columns (columns df)) r = true →
  if (1 <? nunique (versions (group_of df r)))%nat
  then ∃ top below,
         sort_values "version" false (group_of df r) = top :: below
         ∧ (∀ x, x ∈ group_of df r → x ∈ rows df' ↔ x = top)
         ∧ group_of df' r = [top]
  else (∀ x, x ∈ group_of df r → x ∈ rows df')
       ∧ group_of df' r = group_of df r.
Proof.
  intros Hnd Hpick Hr Hkey.
  pose proof (pick_latest_version_group df df' r Hnd Hpick Hr Hkey) as Hgroup.
  pose proof (group_of_selected df df' r Hnd Hpick) as Hsel.
  destruct (1 <? nunique (versions (group_of df r)))%nat.
  - destruct Hgroup as (top & below & Hrank & Hsurv & Hbelow).
    exists top, below. split_and!; [done| |done].
    intros x Hx. rewrite Hsel in Hsurv.
    assert (Hiff : x ∈ filter (λ y, y ∈ rows df') (group_of df r) ↔ x = top)
      by (rewrite Hsurv; apply list_elem_of_singleton).
    rewrite list_elem_of_filter in Hiff. tauto.
  - split; [|done]. intros x Hx. rewrite Hsel in Hgroup.
    rewrite <- Hgroup in Hx. by apply list_elem_of_filter in Hx as [? _].
Qed.

Lemma missing_cell_no_key cols (r : Row) c :
  c ∈ cols → c ∉ ["path"; "version"] → isna (cell r c) = true →
  has_key (grouping_columns cols) r = false.
Proof.
  intros Hc Hpv Hna. unfold has_key. apply not_true_iff_false.
  rewrite forallb_forall. intros Hall.
  specialize (Hall c). rewrite Hna in Hall. simpl in Hall.
  assert (Hin : In c (grouping_columns cols)).
  { apply list_elem_of_In, list_elem_of_filter. split; [done|].
    by apply elem_of_remove_dups. }
  specialize (Hall Hin). done.
Qed.

(** C10. With unique index labels: a row whose cell in some grouping
    column (a column other than [path] and [version]) is missing belongs
    to no group and is in the frame [_pick_latest_version] returns,
    whatever other rows there are; and on a frame with a version column
    of text and missing values the call returns. *)
Theorem pick_latest_version_keeps_incomplete df (r : Row) c :
  NoDup (map index (rows df)) →
  r ∈ rows df →
  c ∈ columns df → c ∉ ["path"; "version"] →
  isna (cell r c) = true →
  (∀ groups, groupby df (grouping_columns (columns df)) = Ok groups →
             ∀ g, g ∈ groups → r ∉ g)
  ∧ (∀ df', _pick_latest_version df = Ok df' → r ∈ rows df')
  ∧ ("version" ∈ columns df → textual "version" (rows df) →
     ∃ df', _pick_latest_version df = Ok df' ∧ r ∈ rows df').
Proof.
  intros Hnd Hr Hc Hpv Hna.
  pose proof (missing_cell_no_key _ r c Hc Hpv Hna) as Hkey.
  assert (Hkeep : ∀ df', _pick_latest_version df = Ok df' → r ∈ rows df').
  { intros df' Hpick. apply (pick_latest_version_survives df df' r Hnd Hpick Hr).
    intros [Hk _]. congruence. }
  split_and!; [|done|].
  - intros groups Hg g Hgin Hrg.
    destruct (groupby_groups _ _ _ Hg) as [_ Hgroups].
    apply Hgroups in Hgin as (r0 & _ & Hk0 & ->).
    apply list_elem_of_filter in Hrg as [Hk _].
    rewrite (has_key_group_key _ _ _ Hk) in Hkey. congruence.
  - intros Hver Htext.
    assert (Hgrp : grouping_columns (columns df) ≠ []).
    { intros Hnil. assert (Hin : c ∈ grouping_columns (columns df)).
      { apply list_elem_of_filter. split; [done|]. by apply elem_of_remove_dups. }
      rewrite Hnil in Hin. by apply elem_of_nil in Hin. }
    pose proof (pick_latest_version_total df Hgrp Hver Htext) as Hok.
    destruct (_pick_latest_version df) as [df'|] eqn:Hpick; [|done].
    exists df'. split; [done|]. by apply Hkeep.
Qed.

End SelectorFacts.

(* ================================================================== *)
(** * The stable sort is a sort *)
(* ================================================================== *)

Lemma string_leb_trans (a b c : string) :
  String.leb a b = true → String.leb b c = true → String.leb a c = true.
Proof.
  unfold String.leb.
  destruct (String.compare a b) eqn:Hab; [| |done];
    destruct (String.compare b c) eqn:Hbc; try done; intros _ _.
  - apply String.compare_eq_iff in Hab, Hbc. subst.
    pose proof (proj2 (OrderedTypeEx.String_as_OT.cmp_eq c c) eq_refl) as Hcc.
    unfold OrderedTypeEx.String_as_OT.cmp in Hcc. by rewrite Hcc.
  - apply String.compare_eq_iff in Hab. subst. by rewrite Hbc.
  - apply String.compare_eq_iff in Hbc. subst. by rewrite Hab.
  - apply OrderedTypeEx.String_as_OT.cmp_lt in Hab, Hbc.
    pose proof (OrderedTypeEx.String_as_OT.lt_trans _ _ _ Hab Hbc) as Hac.
    apply OrderedTypeEx.String_as_OT.cmp_lt in Hac.
    unfold OrderedTypeEx.String_as_OT.cmp in Hac. by rewrite Hac.
Qed.

Section InsertionSort.

Context {A : Type} (le : A → A → bool) (P : A → Prop).
Hypothesis le_total : ∀ x y, P x → P y → le x y = true ∨ le y x = true.
Hypothesis le_trans : ∀ x y z, P x → P y → P z → le x y = true → le y z = true → le x z = true.

Lemma insert_by_perm (x : A) (l : list A) : insert_by le x l ≡ₚ x :: l.
Proof.
  induction l as [|y l IH]; simpl; [done|].
  destruct (le x y); [done|]. rewrite IH. apply Permutation_swap.
Qed.

Lemma isort_perm (l : list A) : isort le l ≡ₚ l.
Proof.
  induction l as [|x l IH]; simpl; [done|].
  by rewrite insert_by_perm, IH.
Qed.

Lemma insert_by_sorted (x : A) (l : list A) :
  P x → Forall P l →
  StronglySorted (λ a b, le a b = true) l →
  StronglySorted (λ a b, le a b = true) (insert_by le x l).
Proof.
  intros Hx. induction l as [|y l IH]; simpl; intros HP Hs.
  - repeat constructor.
  - apply Forall_cons in HP as [Hy HP].
    apply StronglySorted_inv in Hs as [Hs Hyl].
    destruct (le x y) eqn:Hxy.
    + constructor; [by constructor|]. constructor; [done|].
      rewrite Forall_forall in Hyl, HP |- *. intros z Hz.
      apply (le_trans x y z); auto.
    + constructor; [by apply IH|].
      rewrite (insert_by_perm x l). constructor; [|done].
      destruct (le_total x y Hx Hy); [congruence|done].
Qed.

Lemma isort_sorted (l : list A) :
  Forall P l → StronglySorted (λ a b, le a b = true) (isort le l).
Proof.
  induction 1 as [|x l Hx Hl IH]; simpl; [constructor|].
  apply insert_by_sorted; [done| |done].
  by rewrite isort_perm.
Qed.

End InsertionSort.

Lemma StronglySorted_rev {A} (R : relation A) (l : list A) :
  StronglySorted R l → StronglySorted (flip R) (rev l).
Proof.
  induction 1 as [|x l Hs IH Hx]; simpl; [constructor|].
  apply StronglySorted_app_2; [|done|repeat constructor].
  intros x1 x2 Hx1 ->%list_elem_of_singleton. unfold flip.
  rewrite Forall_forall in Hx. apply Hx.
  apply list_elem_of_In. apply in_rev. by apply list_elem_of_In.
Qed.

Lemma StronglySorted_impl {A} (R R' : relation A) (P : A → Prop) (l : list A) :
  (∀ x y, P x → P y → R x y → R' x y) →
  Forall P l → StronglySorted R l → StronglySorted R' l.
Proof.
  intros Himp HP. induction 1 as [|x l Hs IH Hx]; [constructor|].
  apply Forall_cons in HP as [Hpx HP]. constructor; [by apply IH|].
  rewrite Forall_forall in Hx, HP |- *. intros y Hy. apply Himp; auto.
Qed.

Lemma nargsort_perm col ascending (rs : list Row) : nargsort col ascending rs ≡ₚ rs.
Proof.
  unfold nargsort.
  rewrite <- (filter_app_complement (λ r, isna (cell r col) = false) rs) at 4.
  apply Permutation_app.
  - destruct ascending; [apply isort_perm|].
    rewrite <- Permutation_rev, isort_perm, <- Permutation_rev. done.
  - apply reflexive_eq. apply list_filter_iff. intros x. simpl.
    by destruct (isna (cell x col)).
Qed.

Lemma missing_sorted col ascending (rs : list Row) :
  StronglySorted (row_before col ascending) (filter (λ r, isna (cell r col) = true) rs).
Proof.
  induction rs as [|r rs IH]; [constructor|].
  rewrite filter_cons. case_decide; [|done].
  constructor; [done|].
  apply Forall_forall. intros y [Hy _]%list_elem_of_filter.
  unfold row_before. rewrite Hy. by destruct (isna (cell r col)).
Qed.

Lemma nargsort_sorted col ascending (rs : list Row) :
  textual col rs → StronglySorted (row_before col ascending) (nargsort col ascending rs).
Proof.
  intros Htext. unfold nargsort.
  set (le := λ a b : Row, value_leb (cell a col) (cell b col)).
  set (non_nans := filter (λ r, isna (cell r col) = false) rs).
  set (nans := filter (λ r, isna (cell r col) = true) rs).
  set (P := λ r : Row, is_text (cell r col) = true).
  assert (HP : Forall P non_nans).
  { apply Forall_forall. intros x [Hna Hx]%list_elem_of_filter.
    unfold textual in Htext. rewrite Forall_forall in Htext. specialize (Htext x Hx).
    unfold P. destruct (cell x col) as [|f|]; [done| |done].
    rewrite Htext in Hna; done. }
  assert (Htot : ∀ x y, P x → P y → le x y = true ∨ le y x = true).
  { unfold P, le. intros x y. destruct (cell x col), (cell y col); try done.
    intros _ _. apply String.leb_total. }
  assert (Htr : ∀ x y z, P x → P y → P z → le x y = true → le y z = true → le x z = true).
  { unfold P, le. intros x y z.
    destruct (cell x col), (cell y col), (cell z col); try done.
    intros _ _ _. apply string_leb_trans. }
  assert (Hpna : ∀ x, P x → isna (cell x col) = false).
  { unfold P. intros x. by destruct (cell x col). }
  apply StronglySorted_app_2.
  - intros x y _ [Hy _]%list_elem_of_filter. unfold row_before. rewrite Hy.
    by destruct (isna (cell x col)).
  - destruct ascending.
    + apply (StronglySorted_impl (λ a b, le a b = true) _ P).
      * intros x y Hx Hy Hle. unfold row_before. by rewrite (Hpna x Hx), (Hpna y Hy).
      * by rewrite isort_perm.
      * by apply (isort_sorted le P).
        
    + apply (StronglySorted_impl (flip (λ a b, le a b = true)) _ P).
      * intros x y Hx Hy Hle. unfold row_before. by rewrite (Hpna x Hx), (Hpna y Hy).
      * by rewrite <- Permutation_rev, isort_perm, <- Permutation_rev.
      * apply StronglySorted_rev. apply (isort_sorted le P); [done|done|].
        by rewrite <- Permutation_rev.
  - apply missing_sorted.
Qed.

(* ================================================================== *)
(** * Properties of [build_cmip] and [cli] *)
(* ================================================================== *)

(** The vocabulary filter keeps exactly the rows whose cell is one of the
    permitted texts, and returns whenever the frame has the column. *)
Lemma select_isin_rows df column values df' :
  select_isin df column values = Ok df' →
  columns df' = columns df
  ∧ ∀ r, r ∈ rows df' ↔ r ∈ rows df ∧ isin (cell r column) values = true.
Proof.
  unfold select_isin. case_bool_decide; [|done]. intros [= <-]. split; [done|].
  intros r. simpl. rewrite list_elem_of_filter. tauto.
Qed.

Lemma select_isin_total df column values :
  column ∈ columns df → is_ok (select_isin df column values) = true.
Proof. intros Hc. unfold select_isin. by rewrite bool_decide_eq_true_2. Qed.

Lemma isin_member (v : value) (values : list string) :
  isin v values = true ↔ ∃ a, v = VStr a ∧ a ∈ values.
Proof.
  destruct v as [s| |]; simpl.
  - rewrite bool_decide_eq_true. split; [eauto|]. by intros (a & [= ->] & ?).
  - split; [done|]. by intros (a & ? & _).
  - split; [done|]. by intros (a & ? & _).
Qed.

Lemma pretty_6 : pretty 6%Z = "6".
Proof. reflexivity. Qed.

Lemma pretty_5 : pretty 5%Z = "5".
Proof. reflexivity. Qed.

Section BuildFacts.

Variable sort_values : string → bool → list Row → list Row.
Hypothesis sort_values_perm :
  ∀ col ascending rs, sort_values col ascending rs ≡ₚ rs.

Variable reverse_filename_format : string → list string → gmap string string.
Variable extract_attr_with_regex : string → core.regex → option string → option string.
Variable float : string → result spec_float.
Variable get_asset_list : string → Z → result (list string).
Variable fetch_activity_ids : string → result (list string).
Variable Builder : list string → list string → list string → (string → dict) → result DataFrame.
Variable to_csv : string → DataFrame → result unit.

Local Abbreviation build_cmip :=
  (build_cmip sort_values reverse_filename_format extract_attr_with_regex float
     get_asset_list fetch_activity_ids Builder).
Local Abbreviation cli :=
  (cli sort_values reverse_filename_format extract_attr_with_regex float
     get_asset_list fetch_activity_ids Builder to_csv).
Local Abbreviation _pick_latest_version := (_pick_latest_version sort_values).
Local Abbreviation sort_by_path := (sort_by_path sort_values).

Lemma sort_by_path_rows df df' :
  sort_by_path df = Ok df' → rows df' ≡ₚ rows df.
Proof.
  unfold sort_by_path, sort_rows. case_bool_decide; [|done].
  destruct (comparable _); [|done]. simpl. intros [= <-]. simpl.
  apply sort_values_perm.
Qed.

(** Every run of [build_cmip] starts with the traversal. *)
Lemma build_cmip_walks root_path cmip_version depth cols exclude_patterns pick tr :
  ∃ later,
    (build_cmip root_path cmip_version depth cols exclude_patterns pick tr).2
    = tr ++ Walk root_path depth :: later.
Proof.
  unfold build_cmip, emit. run_block.
  step_block; try (by exists []); try (by eexists; rewrite <- app_assoc).
Qed.

(** The steps a successful run for the new convention went through. *)
Lemma build_cmip_6_steps root_path depth cols exclude_patterns pick tr df tr' :
  build_cmip root_path 6 depth cols exclude_patterns pick tr = (Ok df, tr') →
  ∃ df0 activity_ids df1 df2,
    fetch_activity_ids cmip6_activity_id_url = Ok activity_ids
    ∧ select_isin df0 "activity_id" activity_ids = Ok df1
    ∧ (df2 = df1 ∨ _pick_latest_version df1 = Ok df2)
    ∧ sort_by_path df2 = Ok df.
Proof.
  unfold build_cmip, emit. rewrite pretty_6.
  change (String.eqb "6" "6") with true. run_block. intros Hrun.
  step_block; try done.
  all: eexists _, _, _, _; split_and!; eauto.
Qed.

(** C8. The vocabulary filter of [build_cmip] never raises over a frame
    that has the column, and keeps exactly the rows whose [activity_id]
    is in the permitted set; so for the new convention every row of the
    catalog [build_cmip] returns has an [activity_id] from the set the
    vocabulary document lists, and a row with any other value, text or
    missing, is not in it. *)
Theorem build_cmip_vocabulary
    root_path depth cols exclude_patterns pick tr df tr' :
  build_cmip root_path 6 depth cols exclude_patterns pick tr = (Ok df, tr') →
  ∃ activity_ids,
    fetch_activity_ids cmip6_activity_id_url = Ok activity_ids
    ∧ (∀ r, r ∈ rows df → ∃ a, cell r "activity_id" = VStr a ∧ a ∈ activity_ids)
    ∧ (∀ r, isin (cell r "activity_id") activity_ids = false → r ∉ rows df)
    ∧ (∀ df0, "activity_id" ∈ columns df0 →
         ∃ df1, select_isin df0 "activity_id" activity_ids = Ok df1
                ∧ ∀ r, r ∈ rows df1 ↔
                       r ∈ rows df0 ∧ isin (cell r "activity_id") activity_ids = true).
Proof.
  intros (df0 & ids & df1 & df2 & Hfetch & Hsel & Hpick & Hsort)%build_cmip_6_steps.
  exists ids. split; [done|].
  apply select_isin_rows in Hsel as [_ Hsel].
  apply sort_by_path_rows in Hsort.
  assert (Hin : ∀ r, r ∈ rows df → isin (cell r "activity_id") ids = true).
  { intros r Hr. rewrite Hsort in Hr. apply Hsel.
    destruct Hpick as [->|Hpick]; [done|].
    by apply (pick_latest_version_subset sort_values df1 df2). }
  split_and!.
  - intros r Hr. by apply isin_member, Hin.
  - intros r Hout Hr. apply Hin in Hr. congruence.
  - intros df0' Hc. pose proof (select_isin_total df0' _ ids Hc) as Hok.
    destruct (select_isin df0' "activity_id" ids) as [df1'|] eqn:Hs; [|done].
    exists df1'. split; [done|]. by apply select_isin_rows in Hs as [_ ?].
Qed.

(** C9. With a convention other than 5 and 6, or none, or without an
    output path, [cli] raises [ValueError] at once: nothing has happened
    outside the process, no traversal and no catalog written. *)
Theorem cli_rejects_invalid_configuration
    root_path depth pick (cmip_version : option Z) (csv_filepath : option string) tr :
  cmip_version ∉ [Some 5%Z; Some 6%Z] ∨ csv_filepath = None →
  cli root_path depth pick cmip_version csv_filepath tr = (Raise ValueError, tr).
Proof.
  intros Hbad. unfold cli, lift.
  destruct cmip_version as [v|]; [|done].
  case_bool_decide as Hv; [|done].
  destruct csv_filepath as [csv|]; [|done].
  destruct Hbad as [Hbad|]; [|done]. destruct Hbad.
  apply elem_of_cons in Hv as [->|Hv]; [left|].
  apply elem_of_cons in Hv as [->|Hv]; [right; left|].
  by apply elem_of_nil in Hv.
Qed.

(** A valid configuration does reach the traversal. *)
Lemma cli_valid_walks root_path depth pick v csv tr :
  v ∈ [5; 6]%Z →
  ∃ later,
    (cli root_path depth pick (Some v) (Some csv) tr).2 = tr ++ Walk root_path depth :: later.
Proof.
  intros Hv. unfold cli. rewrite bool_decide_eq_true_2 by done.
  unfold bind at 1.
  destruct (build_cmip_walks root_path v depth None default_exclude_patterns pick tr)
    as [later Hlater].
  destruct (build_cmip _ _ _ _ _ _ tr) as [[df|e] tr1]; simpl in *; subst.
  - unfold emit. simpl. eexists. by rewrite <- app_assoc.
  - by eexists.
Qed.

(** Called by itself with another convention, [build_cmip] raises
    [KeyError] only after the traversal. *)
Lemma build_cmip_unsupported root_path (v : Z) depth exclude_patterns pick tr filelist :
  v ∉ [5; 6]%Z →
  get_asset_list root_path depth = Ok filelist →
  build_cmip root_path v depth None exclude_patterns pick tr
  = (Raise KeyError, tr ++ [Walk root_path depth]).
Proof.
  intros Hv Hfiles. unfold build_cmip, emit. run_block. rewrite Hfiles.
  assert (Hnone : cmip_columns !! pretty v = None).
  { unfold cmip_columns.
    rewrite lookup_insert_ne, lookup_singleton_ne; [done| |].
    - intros Heq. rewrite <- pretty_5 in Heq. apply (inj pretty) in Heq.
      apply Hv. subst. left.
    - intros Heq. rewrite <- pretty_6 in Heq. apply (inj pretty) in Heq.
      apply Hv. subst. right; left. }
  unfold lookup_key. by rewrite Hnone.
Qed.

End BuildFacts.

(* ================================================================== *)
(** * The version selector and the run on the samples *)
(* ================================================================== *)

Lemma sample_pick : pick_latest_version sample_frame = Ok sample_selected.
Proof. vm_compute. reflexivity. Qed.

Lemma sample_labels_unique : NoDup (map index (rows sample_frame)).
Proof. apply (bool_decide_unpack _). vm_compute. exact I. Qed.

Lemma sample_versions_textual : textual "version" (rows sample_frame).
Proof. unfold textual. apply (bool_decide_unpack _). vm_compute. exact I. Qed.

(** The sample for [pick_latest_version_invariant]: of the two versions of
    the hindcast the later one is left; the two files of one version both
    stay. *)
Lemma pick_latest_version_invariant_sample :
  (∃ top, group_of sample_selected hindcast_old = [top]
          ∧ cell top "version" = VStr "v20190101")
  ∧ group_of sample_selected chunk_1 = group_of sample_frame chunk_1.
Proof.
  pose proof (pick_latest_version_invariant nargsort nargsort_perm nargsort_sorted
                sample_frame sample_selected) as Hinv.
  split.
  - specialize (Hinv hindcast_old sample_labels_unique sample_versions_textual sample_pick).
    assert (Hn : (1 <? nunique (versions (group_of sample_frame hindcast_old)))%nat = true)
      by (vm_compute; reflexivity).
    rewrite Hn in Hinv.
    destruct Hinv as (top & Hg & _ & _ & _ & Hmax);
      [apply (bool_decide_unpack _); vm_compute; exact I|vm_compute; reflexivity|].
    exists top. split; [exact Hg|].
    assert (Hnew : hindcast_new ∈ group_of sample_selected hindcast_old)
      by (apply (bool_decide_unpack _); vm_compute; exact I).
    rewrite Hg in Hnew. apply list_elem_of_singleton in Hnew. subst top.
    vm_compute. reflexivity.
  - specialize (Hinv chunk_1 sample_labels_unique sample_versions_textual sample_pick).
    assert (Hn : (1 <? nunique (versions (group_of sample_frame chunk_1)))%nat = false)
      by (vm_compute; reflexivity).
    rewrite Hn in Hinv. apply Hinv.
    + apply (bool_decide_unpack _). vm_compute. exact I.
    + vm_compute. reflexivity.
Defined.

(** C2 fails as stated: two rows that agree on all columns but [path],
    of one version, are both left, where [min(1, 2)] is one. *)
Lemma pick_latest_version_keeps_same_version :
  pick_latest_version sample_frame = Ok sample_selected
  ∧ group_of sample_frame chunk_1 = [chunk_1; chunk_2]
  ∧ group_of sample_selected chunk_1 = [chunk_1; chunk_2]
  ∧ length (group_of sample_selected chunk_1) = 2%nat
  ∧ Nat.min 1 (length (group_of sample_frame chunk_1)) = 1%nat.
Proof. split_and!; vm_compute; reflexivity. Qed.

(** C4 fails on the code. The two versions of a dataset without an
    initialisation year agree on every column but [path] and [version]
    and have two distinct versions; [_pick_latest_version] removes
    neither. The same happens in a run of [build_cmip] with
    [pick_latest_version] on: both publications of the example file of
    the specification are in the catalog. *)
Lemma pick_latest_version_misses_missing_year :
  pick_latest_version sample_frame = Ok sample_selected
  ∧ group_of sample_frame scenario_old = [scenario_old; scenario_new]
  ∧ nunique (versions (group_of sample_frame scenario_old)) = 2%nat
  ∧ group_of sample_selected scenario_old = [scenario_old; scenario_new]
  ∧ cmip6 noaa_path !! "dcpp_init_year" = Some NaN
  ∧ result_versions
      (run_build_cmip [noaa_path; noaa_path_2019] sample_vocabulary
         "..." 6 4 None default_exclude_patterns true [])
    = Ok [VStr "v20180701"; VStr "v20190101"].
Proof. split_and!; vm_compute; reflexivity. Qed.

(** The sample for [pick_latest_version_keeps_incomplete]: the two rows
    without an initialisation year differ in [path] and [version] only,
    and both are left. *)
Lemma pick_latest_version_keeps_incomplete_sample :
  group_key (grouping_columns sample_columns) scenario_old
  = group_key (grouping_columns sample_columns) scenario_new
  ∧ scenario_old ∈ rows sample_selected
  ∧ scenario_new ∈ rows sample_selected.
Proof.
  assert (Hold := pick_latest_version_keeps_incomplete nargsort nargsort_perm
                    sample_frame scenario_old "dcpp_init_year").
  assert (Hnew := pick_latest_version_keeps_incomplete nargsort nargsort_perm
                    sample_frame scenario_new "dcpp_init_year").
  destruct Hold as (_ & Hold & _);
    [exact sample_labels_unique
    |apply (bool_decide_unpack _); vm_compute; exact I
    |apply (bool_decide_unpack _); vm_compute; exact I
    |apply (bool_decide_unpack _); vm_compute; exact I
    |reflexivity|].
  destruct Hnew as (_ & Hnew & _);
    [exact sample_labels_unique
    |apply (bool_decide_unpack _); vm_compute; exact I
    |apply (bool_decide_unpack _); vm_compute; exact I
    |apply (bool_decide_unpack _); vm_compute; exact I
    |reflexivity|].
  split_and!; [vm_compute; reflexivity|apply Hold, sample_pick|apply Hnew, sample_pick].
Defined.

(** The sample for [build_cmip_vocabulary]: of four assets, the two under
    a listed activity make the catalog. *)
Lemma build_cmip_vocabulary_sample :
  match (run_build_cmip sample_assets sample_vocabulary
           "..." 6 4 None default_exclude_patterns false []).1 with
  | Ok df =>
      length (rows df) = 2%nat
      ∧ ∀ r, r ∈ rows df → ∃ a, cell r "activity_id" = VStr a ∧ a ∈ sample_vocabulary
  | Raise _ => False
  end.
Proof.
  assert (Hlen : rbind (run_build_cmip sample_assets sample_vocabulary
                          "..." 6 4 None default_exclude_patterns false []).1
                       (λ df, Ok (length (rows df))) = Ok 2%nat)
    by (vm_compute; reflexivity).
  destruct (run_build_cmip sample_assets sample_vocabulary
              "..." 6 4 None default_exclude_patterns false []) as [[df|e] tr'] eqn:Hrun;
    simpl in Hlen |- *; [|discriminate].
  split; [congruence|].
  destruct (build_cmip_vocabulary nargsort nargsort_perm
              core.reverse_filename_format core.extract_attr_with_regex py.float
              (λ _ _, Ok sample_assets) (λ _, Ok sample_vocabulary) assembler.Builder
              "..." 4 None default_exclude_patterns false [] df tr' Hrun)
    as (ids & Hids & Hin & _).
  injection Hids as <-. exact Hin.
Defined.

(** The sample for [cli_rejects_invalid_configuration]: phase 7, no phase,
    and no output path. *)
Lemma cli_rejects_invalid_configuration_sample :
  run_cli sample_assets sample_vocabulary "..." 4 false (Some 7%Z) (Some "cmip7.csv.gz") []
  = (Raise ValueError, [])
  ∧ run_cli sample_assets sample_vocabulary "..." 4 false None (Some "cmip.csv.gz") []
    = (Raise ValueError, [])
  ∧ run_cli sample_assets sample_vocabulary "..." 4 false (Some 6%Z) None []
    = (Raise ValueError, []).
Proof.
  split_and!; apply cli_rejects_invalid_configuration.
  - left. apply (bool_decide_unpack _). vm_compute. exact I.
  - left. apply (bool_decide_unpack _). vm_compute. exact I.
  - right. reflexivity.
Defined.
(* ================================================================== *)
(** * Further properties of the parsers *)
(* ================================================================== *)

Section ParserMore.

Variable reverse_filename_format : string → list string → gmap string string.
Variable extract_attr_with_regex : string → core.regex → option string → option string.
Variable float : string → result spec_float.

Local Abbreviation cmip6_parser :=
  (cmip6_parser reverse_filename_format extract_attr_with_regex float).
Local Abbreviation cmip5_parser := (cmip5_parser reverse_filename_format extract_attr_with_regex).
Local Abbreviation cmip6_try := (cmip6_try extract_attr_with_regex float).
Local Abbreviation cmip6_bound := (cmip6_bound reverse_filename_format).
Local Abbreviation cmip5_bound := (cmip5_bound reverse_filename_format).
Local Abbreviation cmip6_completes :=
  (cmip6_completes reverse_filename_format extract_attr_with_regex float).
Local Abbreviation version_of := (version_of extract_attr_with_regex).

(** The block runs to its end once its directory steps succeed and the
    member id, if it begins with [s], holds a number. *)
Lemma cmip6_try_runs (fm : dict) filepath g a i m :
  directory_fields fm filepath g a i →
  fm !! "member_id" = Some (VStr m) →
  (py.startswith m "s" = true → is_ok (float (cmip6_year_text m)) = true) →
  (cmip6_try filepath fm).1 = Ok tt.
Proof.
  intros (sid & vid & ps & before & part_1 & below & after & segments
          & Hs & Hps & Hb & Hp1 & Ha & Hi & Hv & Hbl & Haf & Hsg & Hg) Hm Hyear.
  unfold cmip6_parent in *.
  unfold cmip6_try. run_block.
  rewrite Hs, Hps, Hb, Hp1, Hv, Hbl, Haf, Hsg, Hg. cbn beta iota.
  rewrite Ha. cbn beta iota. rewrite Hi. cbn beta iota.
  rewrite !lookup_insert_ne by done. rewrite Hm.
  destruct (py.startswith m "s") eqn:Hsw; [|done].
  specialize (Hyear eq_refl). unfold cmip6_year_text in Hyear.
  change (py.split m "-") with (Ok (py.split_go "-" 0 m)). cbn beta iota.
  rewrite getitem_first.
  destruct (head (py.split_go "-" 0 m)) as [first|] eqn:Hhd.
  2:{ destruct (py.split_go "-" 0 m) eqn:Hsp; [|done].
      by apply split_go_nonempty in Hsp. }
  simpl in Hyear. cbn beta iota.
  destruct (float (py.drop1 first)) as [year|]; [|done]. cbn beta iota.
  rewrite lookup_insert_ne by done. rewrite !lookup_insert_ne by done. rewrite Hm.
  change (py.split m "-") with (Ok (py.split_go "-" 0 m)). cbn beta iota.
  destruct (getitem_last_ok (py.split_go "-" 0 m) (split_go_nonempty _ _ _))
    as (suffix & _ & Hlast).
  by rewrite Hlast.
Qed.

(** X1. The block of [cmip6_parser] runs to its end exactly when the matcher
    bound [source_id], [variable_id] and [member_id], the parent directory
    has two levels before its first [/source_id/] (in all, when it has
    none) and holds a [/variable_id/], and, if the member id begins with
    [s], [float] accepts the text of its first segment after that
    character. *)
Theorem cmip6_completes_iff filepath :
  cmip6_completes filepath ↔
  ∃ source_id variable_id member_id,
    cmip6_bound filepath !! "source_id" = Some (VStr source_id)
    ∧ cmip6_bound filepath !! "variable_id" = Some (VStr variable_id)
    ∧ cmip6_bound filepath !! "member_id" = Some (VStr member_id)
    ∧ (2 ≤ length (cmip6_above (cmip6_parent filepath) source_id))%nat
    ∧ is_Some (cmip6_below (cmip6_parent filepath) variable_id)
    ∧ (py.startswith member_id "s" = true →
       is_ok (float (cmip6_year_text member_id)) = true).
Proof.
  split.
  - intros Hok.
    destruct (cmip6_try_completes _ _ _ _ Hok)
      as (g & a & i & m & year & m' & Hd & Hm & Hbranch & _).
    apply directory_fields_levels in Hd as (sid & vid & Hs & Hv & Ha & Hi & Hg).
    exists sid, vid, m. split_and!; try done.
    + apply lookup_lt_Some in Ha. lia.
    + destruct (cmip6_below _ _); [by eexists|done].
    + intros Hsw. rewrite Hsw in Hbranch.
      destruct Hbranch as (parts & prefix & parts' & Hsp & Hp & Hy & _).
      apply split_inv in Hsp. subst parts. rewrite getitem_first in Hp.
      unfold cmip6_year_text. destruct (head _); [|done]. simplify_eq/=.
      by rewrite Hy.
  - intros (sid & vid & m & Hs & Hv & Hm & Hlen & [segments Hbelow] & Hyear).
    destruct (cmip6_above (cmip6_parent filepath) sid) as [|i [|a rest]] eqn:Habove;
      [simpl in Hlen; lia..|].
    assert (Hseg : ∃ g, head segments = Some g).
    { unfold cmip6_below in Hbelow. repeat case_match; simplify_eq.
      destruct (py.split_go "/" 0 (py.strip "/" _)) eqn:Hsp; [|by eexists].
      by apply split_go_nonempty in Hsp. }
    destruct Hseg as [g Hg].
    apply (cmip6_try_runs _ filepath g a i m); [|done|done].
    apply directory_fields_levels. exists sid, vid.
    rewrite Habove, Hbelow. by split_and!.
Qed.

(** X2. When the block runs to its end, [institution_id] is the last
    directory level before the first [/source_id/] of the parent
    directory, [activity_id] the level before that, and [grid_label] the
    first level after the first [/variable_id/], whatever grid label the
    file name carries. *)
Theorem cmip6_directory_levels filepath :
  cmip6_completes filepath →
  ∃ source_id variable_id,
    cmip6_bound filepath !! "source_id" = Some (VStr source_id)
    ∧ cmip6_bound filepath !! "variable_id" = Some (VStr variable_id)
    ∧ cmip6_parser filepath !! "institution_id"
      = VStr <$> cmip6_above (cmip6_parent filepath) source_id !! 0%nat
    ∧ cmip6_parser filepath !! "activity_id"
      = VStr <$> cmip6_above (cmip6_parent filepath) source_id !! 1%nat
    ∧ cmip6_parser filepath !! "grid_label"
      = VStr <$> (cmip6_below (cmip6_parent filepath) variable_id ≫= head).
Proof.
  intros Hok. rewrite cmip6_parser_unfold.
  destruct (cmip6_try_completes _ _ _ _ Hok)
    as (g & a & i & m & year & m' & Hd & _ & _ & ->).
  apply directory_fields_levels in Hd as (sid & vid & Hs & Hv & Ha & Hi & Hg).
  exists sid, vid. rewrite Ha, Hi, Hg. split_and!; try done; by simplify_map_eq.
Qed.

(** The last state of the mapping: as the matcher left it, with the grid
    label, with the five fields up to [path], or with all seven. *)
Lemma cmip6_parser_shapes filepath :
  let fm := cmip6_bound filepath in
  (¬ cmip6_completes filepath ∧ cmip6_parser filepath = fm)
  ∨ (∃ g, ¬ cmip6_completes filepath ∧ cmip6_parser filepath = <["grid_label" := VStr g]> fm)
  ∨ (∃ g a i v,
      ¬ cmip6_completes filepath ∧
      cmip6_parser filepath =
        <["path" := VStr filepath]> (<["version" := VStr v]>
        (<["institution_id" := VStr i]> (<["activity_id" := VStr a]>
        (<["grid_label" := VStr g]> fm)))))
  ∨ (∃ g a i v y m,
      cmip6_completes filepath ∧
      cmip6_parser filepath =
        <["member_id" := VStr m]> (<["dcpp_init_year" := VFloat y]>
        (<["path" := VStr filepath]> (<["version" := VStr v]>
        (<["institution_id" := VStr i]> (<["activity_id" := VStr a]>
        (<["grid_label" := VStr g]> fm))))))).
Proof.
  intros fm. rewrite cmip6_parser_unfold. unfold cmip6_completes. fold fm.
  destruct (cmip6_try filepath fm).1 as [[]|e] eqn:Hrun.
  - destruct (cmip6_try_completes _ _ _ _ Hrun)
      as (g & a & i & m & year & m' & _ & _ & _ & ->).
    right; right; right. eexists _, _, _, _, _, _. by split.
  - destruct (cmip6_try_raises _ _ _ _ _ Hrun) as [->|[(g & ->)|(g & a & i & ->)]].
    + by left.
    + right; left. by eexists.
    + right; right; left. by eexists _, _, _, _.
Qed.

(** X3. [cmip6_parser] removes no field the matcher bound, and leaves every
    field but the seven its block assigns as the matcher bound it. *)
Theorem cmip6_parser_frame filepath k :
  k ∉ ["grid_label"; "activity_id"; "institution_id"; "version"; "path";
       "dcpp_init_year"; "member_id"] →
  cmip6_parser filepath !! k = cmip6_bound filepath !! k
  ∧ ∀ k', is_Some (cmip6_bound filepath !! k') → is_Some (cmip6_parser filepath !! k').
Proof.
  intros Hk. rewrite !not_elem_of_cons in Hk.
  destruct Hk as (? & ? & ? & ? & ? & ? & ? & _).
  destruct (cmip6_parser_shapes filepath)
    as [[_ ->]|[(g & _ & ->)|[(g & a & i & v & _ & ->)|(g & a & i & v & y & m & _ & ->)]]].
  all: split; [by rewrite ?lookup_insert_ne by done|].
  all: intros k' Hk'; repeat (rewrite lookup_insert; case_decide; [by eexists|]); done.
Qed.

(** X4. Where the matcher binds none of them, [activity_id], [institution_id],
    [version] and [path] are in the mapping together or not at all, and
    [dcpp_init_year] is in it exactly when the block ran to its end. *)
Theorem cmip6_parser_fields_together filepath :
  (∀ k, k ∈ ["activity_id"; "institution_id"; "version"; "path"; "dcpp_init_year"] →
        cmip6_bound filepath !! k = None) →
  (∀ k, k ∈ ["activity_id"; "institution_id"; "version"] →
        is_Some (cmip6_parser filepath !! k) ↔ is_Some (cmip6_parser filepath !! "path"))
  ∧ (is_Some (cmip6_parser filepath !! "path") → is_Some (cmip6_parser filepath !! "grid_label"))
  ∧ (is_Some (cmip6_parser filepath !! "dcpp_init_year") ↔ cmip6_completes filepath)
  ∧ (cmip6_completes filepath → is_Some (cmip6_parser filepath !! "path")).
Proof.
  intros Hnone.
  assert (Ha := Hnone "activity_id"). assert (Hi := Hnone "institution_id").
  assert (Hv := Hnone "version"). assert (Hp := Hnone "path").
  assert (Hd := Hnone "dcpp_init_year").
  rewrite !elem_of_cons in Ha, Hi, Hv, Hp, Hd.
  specialize (Ha ltac:(tauto)). specialize (Hi ltac:(tauto)).
  specialize (Hv ltac:(tauto)). specialize (Hp ltac:(tauto)).
  specialize (Hd ltac:(tauto)). clear Hnone.
  destruct (cmip6_parser_shapes filepath)
    as [[Hnot ->]|[(g & Hnot & ->)|[(g & a & i & v & Hnot & ->)
                                   |(g & a & i & v & y & m & Hok & ->)]]].
  all: split_and!.
  all: try (intros k Hk; rewrite !elem_of_cons in Hk;
            destruct Hk as [->|[->|[->|Hk]]]; [| | |by apply elem_of_nil in Hk]).
  all: repeat (rewrite lookup_insert_eq || rewrite lookup_insert_ne by done).
  all: rewrite ?Ha, ?Hi, ?Hv, ?Hp, ?Hd, ?is_Some_alt; tauto.
Qed.


(** ** The old-convention parser *)

(** What the block of [cmip5_parser] does to a mapping. *)
Lemma cmip5_try_levels filepath (d : dict) :
  (cmip5_try filepath d).2 !! "institute"
  = match cmip5_levels d filepath !! 1%nat with
    | Some s => Some (VStr s)
    | None => d !! "institute"
    end
  ∧ (cmip5_try filepath d).2 !! "product_id"
    = match cmip5_levels d filepath !! 2%nat with
      | Some s => Some (VStr s)
      | None => d !! "product_id"
      end.
Proof.
  unfold cmip5_try, cmip5_levels. run_block.
  destruct (d !! "experiment") as [[e| |]|]; try done.
  destruct (py.split (py.dirname filepath) e) as [[|p1 [|p2 [|p3 ps]]]|]; try done.
  change (unpack2 [p1; p2]) with (Ok (p1, p2)).
  cbn beta iota zeta. rewrite split_slash. cbn beta iota zeta.
  change (-2)%Z with (- Z.of_nat 2)%Z. change (-3)%Z with (- Z.of_nat 3)%Z.
  rewrite !getitem_from_end.
  set (levels := reverse (py.split_go "/" 0 (py.strip "/" p1))).
  destruct (levels !! 1%nat) as [institute|] eqn:H1; cbn beta iota zeta.
  - destruct (levels !! 2%nat) as [product_id|] eqn:H2; cbn beta iota zeta.
    + cbn [snd]. by rewrite lookup_insert_ne, !lookup_insert_eq by done.
    + cbn [snd]. by rewrite lookup_insert_eq, lookup_insert_ne by done.
  - apply lookup_ge_None in H1.
    by rewrite (lookup_ge_None_2 levels 2) by lia.
Qed.

(** X5. [cmip5_parser] always records [frequency] and [modeling_realm], as the
    extractor finds them in the path or else [None], and leaves every
    field of the matcher but the six it assigns as the matcher bound it. *)
Theorem cmip5_parser_fields filepath k :
  k ∉ ["frequency"; "modeling_realm"; "version"; "path"; "institute"; "product_id"] →
  cmip5_parser filepath !! "frequency"
  = Some (of_option (extract_attr_with_regex filepath freq_regex (Some "/")))
  ∧ cmip5_parser filepath !! "modeling_realm"
    = Some (of_option (extract_attr_with_regex filepath realm_regex None))
  ∧ cmip5_parser filepath !! k = cmip5_bound filepath !! k.
Proof.
  intros Hk. rewrite !not_elem_of_cons in Hk.
  destruct Hk as (? & ? & ? & ? & ? & ? & _).
  unfold cmip5_parser. rewrite !cmip5_try_frame by done.
  split_and!.
  - by rewrite !lookup_insert_ne, lookup_insert_eq by done.
  - by rewrite !lookup_insert_ne, lookup_insert_eq by done.
  - by rewrite !lookup_insert_ne by done.
Qed.

(** X6. [cmip5_parser] takes [institute] and [product_id] from the directory
    levels above the experiment's name, the second and the third counted
    from it, when the directory names the experiment exactly once and has
    that many levels there; else the fields are as the matcher left
    them. *)
Theorem cmip5_parser_levels filepath :
  cmip5_parser filepath !! "institute"
  = match cmip5_levels (cmip5_bound filepath) filepath !! 1%nat with
    | Some s => Some (VStr s)
    | None => cmip5_bound filepath !! "institute"
    end
  ∧ cmip5_parser filepath !! "product_id"
    = match cmip5_levels (cmip5_bound filepath) filepath !! 2%nat with
      | Some s => Some (VStr s)
      | None => cmip5_bound filepath !! "product_id"
      end.
Proof.
  unfold cmip5_parser.
  match goal with
  | |- context [cmip5_try filepath ?d] =>
      destruct (cmip5_try_levels filepath d) as [-> ->];
      assert (Hlev : cmip5_levels d filepath = cmip5_levels (cmip5_bound filepath) filepath)
        by (unfold cmip5_levels; by rewrite !lookup_insert_ne by done);
      rewrite Hlev
  end.
  by rewrite !lookup_insert_ne by done.
Qed.

End ParserMore.

(* ================================================================== *)
(** * Further properties of the version selector *)
(* ================================================================== *)

Lemma traverse_all_nil {A B} (f : A → result (list B)) (l : list A) :
  (∀ a, a ∈ l → f a = Ok []) →
  ∃ bs, traverse f l = Ok bs ∧ concat bs = [].
Proof.
  induction l as [|a l IH]; intros Hall; [by exists []|].
  destruct IH as (bs & Hbs & Hnil); [intros x Hx; apply Hall; by right|].
  exists ([] :: bs). simpl. rewrite (Hall a) by left. simpl. by rewrite Hbs.
Qed.

Lemma traverse_raises {A B} (f : A → result B) (l : list A) e :
  l ≠ [] → (∀ a, a ∈ l → f a = Raise e) → traverse f l = Raise e.
Proof.
  destruct l as [|a l]; [done|]. intros _ Hall. simpl. by rewrite (Hall a) by left.
Qed.

Lemma nunique_singleton (v : value) : (nunique [v] ≤ 1)%nat.
Proof.
  unfold nunique. rewrite filter_cons, filter_nil.
  case_decide; simpl; lia.
Qed.

Lemma length_two {A} (l : list A) x y : x ∈ l → y ∈ l → x ≠ y → (2 ≤ length l)%nat.
Proof.
  destruct l as [|p [|q l]]; simpl; [by intros ?%elem_of_nil| |lia].
  intros ->%list_elem_of_singleton ->%list_elem_of_singleton. done.
Qed.

Lemma nunique_two_texts (g : list Row) (a b : Row) va vb :
  a ∈ g → b ∈ g →
  cell a "version" = VStr va → cell b "version" = VStr vb → va ≠ vb →
  (1 < nunique (versions g))%nat.
Proof.
  intros Ha Hb Hva Hvb Hne. unfold nunique, versions.
  apply (length_two _ (VStr va) (VStr vb)); [| |congruence].
  - apply elem_of_remove_dups, list_elem_of_fmap. exists (VStr va). split; [done|].
    apply list_elem_of_filter. split; [done|].
    apply list_elem_of_fmap. by exists a.
  - apply elem_of_remove_dups, list_elem_of_fmap. exists (VStr vb). split; [done|].
    apply list_elem_of_filter. split; [done|].
    apply list_elem_of_fmap. by exists b.
Qed.

Lemma string_ltb_not_leb (a b : string) : String.ltb a b = true → String.leb b a = false.
Proof.
  unfold String.ltb, String.leb. rewrite (String.compare_antisym a b).
  by destruct (String.compare b a).
Qed.

Section SelectorMore.

Variable sort_values : string → bool → list Row → list Row.
Hypothesis sort_values_perm :
  ∀ col ascending rs, sort_values col ascending rs ≡ₚ rs.
Hypothesis sort_values_sorted :
  ∀ col ascending rs,
    textual col rs → StronglySorted (row_before col ascending) (sort_values col ascending rs).

Local Abbreviation _pick_latest_version := (_pick_latest_version sort_values).
Local Abbreviation _pick_latest_v := (_pick_latest_v sort_values).

(** X7. [_pick_latest_version] only removes rows: the frame it returns has the
    columns of its argument, and its rows are rows of the argument, in
    their order and as they were. *)
Theorem pick_latest_version_sublist df df' :
  _pick_latest_version df = Ok df' →
  columns df' = columns df
  ∧ rows df' `sublist_of` rows df
  ∧ (length (rows df') ≤ length (rows df))%nat.
Proof.
  intros (groups & idx & _ & _ & Hc & ->)%pick_latest_version_rows.
  split; [done|]. split; [apply sublist_filter|]. apply length_filter.
Qed.

(** A frame none of whose groups has more than one version is returned as
    it is. *)
Lemma pick_latest_version_noop df :
  grouping_columns (columns df) ≠ [] →
  (∀ r, r ∈ rows df → has_key (grouping_columns (columns df)) r = true →
        "version" ∈ columns df ∧ (nunique (versions (group_of df r)) ≤ 1)%nat) →
  _pick_latest_version df = Ok df.
Proof.
  intros Hgrp Hone. unfold _pick_latest_version.
  destruct (groupby df _) as [groups|] eqn:Hg.
  2:{ unfold groupby in Hg. by destruct (grouping_columns _). }
  destruct (groupby_groups _ _ _ Hg) as [_ Hgroups]. simpl.
  destruct (traverse_all_nil (_pick_latest_v (columns df)) groups) as (idx & -> & Hnil).
  { intros g (r & Hr & Hkey & ->)%Hgroups.
    destruct (Hone r Hr Hkey) as [Hver Hnu].
    unfold _pick_latest_v. rewrite bool_decide_eq_true_2 by done.
    change (filter _ (rows df)) with (group_of df r).
    by replace (1 <? nunique (versions (group_of df r)))%nat with false
      by (symmetry; apply Nat.ltb_ge; lia). }
  simpl. rewrite Hnil. unfold drop. simpl.
  rewrite filter_all by (intros ? _; apply not_elem_of_nil).
  by destruct df.
Qed.

(** X8. Selecting the latest versions of an already selected frame changes
    nothing. *)
Theorem pick_latest_version_idempotent df df' :
  NoDup (map index (rows df)) →
  _pick_latest_version df = Ok df' →
  _pick_latest_version df' = Ok df'.
Proof.
  intros Hnd Hpick.
  destruct (pick_latest_version_rows _ _ _ Hpick) as (groups & idx & Hg & Hidx & Hc & Hrows).
  destruct (groupby_groups _ _ _ Hg) as [Hgrp Hgroups].
  apply pick_latest_version_noop; rewrite Hc; [done|].
  intros r Hr Hkey.
  assert (Hr0 : r ∈ rows df) by by eapply pick_latest_version_subset.
  split.
  - assert (Hgin : group_of df r ∈ groups) by (apply Hgroups; eauto).
    apply list_elem_of_lookup in Hgin as [n Hn].
    destruct (Forall2_lookup_l _ _ _ _ _ Hidx Hn) as (labels & _ & Hlab).
    by apply pick_latest_v_labels in Hlab as [? _].
  - pose proof (pick_latest_version_group _ sort_values_perm df df' r Hnd Hpick Hr0 Hkey)
      as Hgroup.
    destruct (1 <? nunique (versions (group_of df r)))%nat eqn:Hnu.
    + destruct Hgroup as (top & below & _ & -> & _). apply nunique_singleton.
    + rewrite Hgroup. by apply Nat.ltb_ge.
Qed.

(** X9. Versions are ranked as text: a row with a complete key is removed as
    soon as a row of its group carries a version that is greater in the
    order of strings. *)
Theorem pick_latest_version_text_order df df' (a b : Row) va vb :
  NoDup (map index (rows df)) →
  textual "version" (rows df) →
  _pick_latest_version df = Ok df' →
  a ∈ rows df →
  has_key (grouping_columns (columns df)) a = true →
  b ∈ group_of df a →
  cell a "version" = VStr va → cell b "version" = VStr vb →
  String.ltb va vb = true →
  a ∉ rows df'.
Proof.
  intros Hnd Htext Hpick Ha Hkey Hb Hva Hvb Hlt Ha'.
  assert (Hne : va ≠ vb).
  { intros ->. apply string_ltb_not_leb in Hlt as Hle.
    unfold String.ltb in Hlt. unfold String.leb in Hle.
    destruct (String.compare vb vb); done. }
  assert (Hnu : (1 < nunique (versions (group_of df a)))%nat).
  { apply (nunique_two_texts _ a b va vb); try done. by apply group_of_self. }
  pose proof (pick_latest_version_group _ sort_values_perm df df' a Hnd Hpick Ha Hkey)
    as Hgroup.
  apply Nat.ltb_lt in Hnu as Hnu'. rewrite Hnu' in Hgroup.
  destruct Hgroup as (top & below & Hrank & Hsurv & _).
  assert (Htg : textual "version" (group_of df a)).
  { apply (textual_subset _ (rows df)); [apply list_subseteq_filter|done]. }
  destruct (ranked_top_greatest _ sort_values_perm sort_values_sorted _ _ _ Htg Hnu Hrank)
    as [_ Hmax].
  assert (a = top) as <-.
  { apply list_elem_of_singleton. rewrite <- Hsurv.
    rewrite (group_of_selected _ df df' a Hnd Hpick).
    apply list_elem_of_filter. split; [done|]. by apply group_of_self. }
  specialize (Hmax b Hb). rewrite Hva, Hvb in Hmax. simpl in Hmax.
  specialize (Hmax eq_refl). apply string_ltb_not_leb in Hlt. congruence.
Qed.

(** X10. On a frame without a [version] column the selection raises
    [AttributeError] as soon as one row has a complete key, and returns
    the frame as it is when none has. *)
Theorem pick_latest_version_needs_version df :
  "version" ∉ columns df →
  grouping_columns (columns df) ≠ [] →
  _pick_latest_version df
  = if existsb (has_key (grouping_columns (columns df))) (rows df)
    then Raise AttributeError else Ok df.
Proof.
  intros Hver Hgrp.
  destruct (existsb _ (rows df)) eqn:Hex.
  - apply existsb_exists in Hex as (r & Hr%list_elem_of_In & Hkey).
    unfold _pick_latest_version.
    destruct (groupby df _) as [groups|] eqn:Hg.
    2:{ unfold groupby in Hg. by destruct (grouping_columns _). }
    destruct (groupby_groups _ _ _ Hg) as [_ Hgroups]. simpl.
    rewrite (traverse_raises _ groups AttributeError); [done| |].
    + intros ->. eapply not_elem_of_nil. apply Hgroups. eauto.
    + intros g _. unfold _pick_latest_v. by rewrite bool_decide_eq_false_2.
  - apply pick_latest_version_noop; [done|]. intros r Hr Hkey.
    apply not_true_iff_false in Hex. destruct Hex.
    apply existsb_exists. exists r. split; [by apply list_elem_of_In|done].
Qed.

End SelectorMore.

(* ================================================================== *)
(** * Further properties of [build_cmip] and [cli] *)
(* ================================================================== *)

Lemma pretty_6_inv (v : Z) : pretty v = "6" → v = 6%Z.
Proof. rewrite <- pretty_6. apply (inj pretty). Qed.

Lemma textual_perm col (rs rs' : list Row) : rs ≡ₚ rs' → textual col rs → textual col rs'.
Proof. unfold textual. by intros ->. Qed.

Section BuildMore.

Variable sort_values : string → bool → list Row → list Row.
Hypothesis sort_values_perm :
  ∀ col ascending rs, sort_values col ascending rs ≡ₚ rs.
Hypothesis sort_values_sorted :
  ∀ col ascending rs,
    textual col rs → StronglySorted (row_before col ascending) (sort_values col ascending rs).

Variable reverse_filename_format : string → list string → gmap string string.
Variable extract_attr_with_regex : string → core.regex → option string → option string.
Variable float : string → result spec_float.
Variable get_asset_list : string → Z → result (list string).
Variable fetch_activity_ids : string → result (list string).
Variable Builder : list string → list string → list string → (string → dict) → result DataFrame.
Variable to_csv : string → DataFrame → result unit.

Local Abbreviation build_cmip :=
  (build_cmip sort_values reverse_filename_format extract_attr_with_regex float
     get_asset_list fetch_activity_ids Builder).
Local Abbreviation cli :=
  (cli sort_values reverse_filename_format extract_attr_with_regex float
     get_asset_list fetch_activity_ids Builder to_csv).
Local Abbreviation parsers :=
  (parsers reverse_filename_format extract_attr_with_regex float).
Local Abbreviation _pick_latest_version := (_pick_latest_version sort_values).
Local Abbreviation sort_by_path := (sort_by_path sort_values).

Lemma parsers_lookup :
  parsers !! "6" = Some (cmip6_parser reverse_filename_format extract_attr_with_regex float)
  ∧ parsers !! "5" = Some (cmip5_parser reverse_filename_format extract_attr_with_regex).
Proof. unfold parsers. split; by simplify_map_eq. Qed.

(** The steps a successful run went through, and what it did outside. *)
Lemma build_cmip_steps root_path v depth cols exclude_patterns pick tr df tr' :
  build_cmip root_path v depth cols exclude_patterns pick tr = (Ok df, tr') →
  ∃ filelist cols' parser df0 df1 df2,
    get_asset_list root_path depth = Ok filelist
    ∧ match cols with
      | Some c => cols' = c
      | None => cmip_columns !! pretty v = Some cols'
      end
    ∧ parsers !! pretty v = Some parser
    ∧ Builder cols' exclude_patterns filelist parser = Ok df0
    ∧ (if String.eqb (pretty v) "6"
       then ∃ activity_ids,
              fetch_activity_ids cmip6_activity_id_url = Ok activity_ids
              ∧ select_isin df0 "activity_id" activity_ids = Ok df1
              ∧ tr' = tr ++ [Walk root_path depth; HttpGet cmip6_activity_id_url]
       else df1 = df0 ∧ tr' = tr ++ [Walk root_path depth])
    ∧ (if pick then _pick_latest_version df1 = Ok df2 else df2 = df1)
    ∧ sort_by_path df2 = Ok df.
Proof.
  unfold build_cmip, emit, lookup_key. run_block. intros Hrun.
  destruct (get_asset_list root_path depth) as [filelist|] eqn:Hfiles; [|done].
  cbn beta iota zeta in Hrun.
  assert (∃ cols', match cols with
                   | Some c => cols' = c
                   | None => cmip_columns !! pretty v = Some cols'
                   end
                   ∧ (match cols with
                      | Some c => (Ok c, tr ++ [Walk root_path depth])
                      | None => match cmip_columns !! pretty v with
                                | Some a => (Ok a, tr ++ [Walk root_path depth])
                                | None => (Raise KeyError, tr ++ [Walk root_path depth])
                                end
                      end) = (Ok cols', tr ++ [Walk root_path depth])) as (cols' & Hcols & Heq).
  { destruct cols as [c|]; [by exists c|].
    destruct (cmip_columns !! pretty v) as [c|]; [by exists c|done]. }
  exists filelist, cols'.
  destruct cols as [c|]; [subst cols'|rewrite Hcols in Hrun]; cbn beta iota zeta in Hrun.
  all: destruct (parsers !! pretty v) as [parser|] eqn:Hparser; [|done];
       cbn beta iota zeta in Hrun.
  all: destruct (Builder _ exclude_patterns filelist parser) as [df0|] eqn:Hbuild; [|done];
       cbn beta iota zeta in Hrun.
  all: destruct (String.eqb (pretty v) "6"); cbn beta iota zeta in Hrun.
  all: try (destruct (fetch_activity_ids _) as [ids|] eqn:Hfetch; [|done];
            cbn beta iota zeta in Hrun;
            destruct (select_isin df0 _ ids) as [df1|] eqn:Hsel; [|done];
            cbn beta iota zeta in Hrun).
  all: destruct pick; cbn beta iota zeta in Hrun.
  all: try (destruct (_pick_latest_version _) as [df2|] eqn:Hpick; [|done];
            cbn beta iota zeta in Hrun).
  all: match type of Hrun with
       | (sort_by_path ?d, _) = _ => destruct (sort_by_path d) eqn:Hsort; [|done]
       end.
  all: simplify_eq.
  all: eexists _, _, _, _; split_and!; try done; try reflexivity.
  all: try (eexists; split_and!; try done; by rewrite <- app_assoc).
Qed.


Lemma eqb_pretty_6 (v : Z) : String.eqb (pretty v) "6" = bool_decide (v = 6%Z).
Proof.
  case_bool_decide as Hv; [by subst|].
  apply not_true_iff_false. intros Heq%String.eqb_eq%pretty_6_inv. done.
Qed.

(** What any run of [build_cmip] does outside: the traversal, and for the
    new convention, once the frame is assembled, the request for the
    vocabulary. *)
Lemma build_cmip_events root_path v depth cols exclude_patterns pick tr :
  (build_cmip root_path v depth cols exclude_patterns pick tr).2
  = tr ++ [Walk root_path depth]
  ∨ (v = 6%Z
     ∧ (build_cmip root_path v depth cols exclude_patterns pick tr).2
       = tr ++ [Walk root_path depth; HttpGet cmip6_activity_id_url]).
Proof.
  unfold build_cmip, emit, lookup_key. run_block. rewrite eqb_pretty_6.
  step_block; try (by left).
  all: right; rewrite <- app_assoc.
  all: match goal with H : bool_decide _ = true |- _ => apply bool_decide_eq_true in H end.
  all: done.
Qed.

(** X13. With a convention other than 5 and 6, whatever columns are passed,
    [build_cmip] raises [KeyError], after the traversal. *)
Theorem build_cmip_unknown_convention
    root_path (v : Z) depth cols exclude_patterns pick tr filelist :
  v ∉ [5; 6]%Z →
  get_asset_list root_path depth = Ok filelist →
  build_cmip root_path v depth cols exclude_patterns pick tr
  = (Raise KeyError, tr ++ [Walk root_path depth]).
Proof.
  intros Hv Hfiles.
  assert (H5 : pretty v ≠ "5").
  { intros Heq. rewrite <- pretty_5 in Heq. apply (inj pretty) in Heq.
    apply Hv. subst. left. }
  assert (H6 : pretty v ≠ "6").
  { intros Heq%pretty_6_inv. apply Hv. subst. right; left. }
  unfold build_cmip, emit, lookup_key. run_block. rewrite Hfiles.
  cbn beta iota zeta.
  assert (Hc : cmip_columns !! pretty v = None).
  { unfold cmip_columns. by rewrite lookup_insert_ne, lookup_singleton_ne. }
  assert (Hp : parsers !! pretty v = None).
  { unfold parsers. by rewrite lookup_insert_ne, lookup_singleton_ne. }
  destruct cols as [c|]; [|by rewrite Hc].
  cbn beta iota zeta. by rewrite Hp.
Qed.

(** X14. The catalog [build_cmip] returns is sorted by path, ascending, the
    rows without a path last. *)
Theorem build_cmip_sorted root_path v depth cols exclude_patterns pick tr df tr' :
  build_cmip root_path v depth cols exclude_patterns pick tr = (Ok df, tr') →
  textual "path" (rows df) →
  StronglySorted (row_before "path" true) (rows df).
Proof.
  intros (filelist & cols' & parser & df0 & df1 & df2 & _ & _ & _ & _ & _ & _ & Hsort)
           %build_cmip_steps Htext.
  pose proof (sort_by_path_rows _ sort_values_perm _ _ Hsort) as Hperm.
  unfold sort_by_path, sort_rows in Hsort.
  case_bool_decide; [|done]. destruct (comparable _); [|done].
  simpl in Hsort. injection Hsort as <-. simpl in *.
  apply sort_values_sorted. by apply (textual_perm _ _ _ Hperm).
Qed.

(** X15. Without the version selection the catalog holds the rows of the
    assembled frame, each once, in another order: all of them for the old
    convention, and those with an [activity_id] of the vocabulary for the
    new one. *)
Theorem build_cmip_catalog root_path v depth cols exclude_patterns tr df tr' :
  build_cmip root_path v depth cols exclude_patterns false tr = (Ok df, tr') →
  ∃ filelist cols' parser df0,
    get_asset_list root_path depth = Ok filelist
    ∧ match cols with
      | Some c => cols' = c
      | None => cmip_columns !! pretty v = Some cols'
      end
    ∧ parsers !! pretty v = Some parser
    ∧ Builder cols' exclude_patterns filelist parser = Ok df0
    ∧ columns df = columns df0
    ∧ if bool_decide (v = 6%Z)
      then ∃ activity_ids,
             fetch_activity_ids cmip6_activity_id_url = Ok activity_ids
             ∧ rows df ≡ₚ filter (λ r, isin (cell r "activity_id") activity_ids = true)
                                 (rows df0)
      else rows df ≡ₚ rows df0.
Proof.
  intros (filelist & cols' & parser & df0 & df1 & df2 & Hfiles & Hcols' & Hparser & Hbuild
          & Hfilter & -> & Hsort)%build_cmip_steps.
  exists filelist, cols', parser, df0.
  pose proof (sort_by_path_rows _ sort_values_perm _ _ Hsort) as Hperm.
  assert (Hcols : columns df = columns df1).
  { unfold sort_by_path, sort_rows in Hsort.
    case_bool_decide; [|done]. destruct (comparable _); [|done].
    simpl in Hsort. by injection Hsort as <-. }
  rewrite eqb_pretty_6 in Hfilter. split_and!; try done.
  - destruct (bool_decide (v = 6%Z)).
    + destruct Hfilter as (ids & _ & Hsel & _).
      apply select_isin_rows in Hsel as [Hc _]. congruence.
    + destruct Hfilter as [-> _]. done.
  - destruct (bool_decide (v = 6%Z)).
    + destruct Hfilter as (ids & Hfetch & Hsel & _). exists ids. split; [done|].
      rewrite Hperm. unfold select_isin in Hsel.
      case_bool_decide; [|done]. by injection Hsel as <-.
    + destruct Hfilter as [-> _]. done.
Qed.

(** X16. The version selection only takes rows out of the catalog: a run with
    it returns a frame of the same columns whose rows are all in the frame
    a run without it returns. *)
Theorem build_cmip_selection
    root_path v depth cols exclude_patterns tr df_all tr1 df_latest tr2 :
  build_cmip root_path v depth cols exclude_patterns false tr = (Ok df_all, tr1) →
  build_cmip root_path v depth cols exclude_patterns true tr = (Ok df_latest, tr2) →
  columns df_latest = columns df_all
  ∧ (∀ r, r ∈ rows df_latest → r ∈ rows df_all)
  ∧ (length (rows df_latest) ≤ length (rows df_all))%nat.
Proof.
  intros (filelist & cols1 & parser & df0 & df1 & df2 & Hfiles & Hcols & Hparser & Hbuild
          & Hfilter & -> & Hsort)%build_cmip_steps.
  intros (filelist' & cols2 & parser' & df0' & df1' & df2' & Hfiles' & Hcols' & Hparser'
          & Hbuild' & Hfilter' & Hpick & Hsort')%build_cmip_steps.
  assert (filelist' = filelist) as -> by congruence.
  assert (cols2 = cols1) as -> by (destruct cols; congruence).
  assert (parser' = parser) as -> by congruence.
  assert (df0' = df0) as -> by congruence.
  assert (df1' = df1 ∧ tr2 = tr1) as [-> ->].
  { destruct (String.eqb (pretty v) "6").
    - destruct Hfilter as (ids & Hids & Hsel & ->).
      destruct Hfilter' as (ids' & Hids' & Hsel' & ->).
      assert (ids' = ids) as -> by congruence. split; congruence.
    - destruct Hfilter as [-> ->]. by destruct Hfilter' as [-> ->]. }
  pose proof (sort_by_path_rows _ sort_values_perm _ _ Hsort) as Hperm.
  pose proof (sort_by_path_rows _ sort_values_perm _ _ Hsort') as Hperm'.
  destruct (pick_latest_version_rows _ _ _ Hpick) as (groups & idx & _ & _ & Hc & Hrows).
  assert (Hcs : ∀ d d', sort_by_path d = Ok d' → columns d' = columns d).
  { intros d d'. unfold sort_by_path, sort_rows.
    case_bool_decide; [|done]. destruct (comparable _); [|done].
    simpl. by intros [= <-]. }
  split_and!; [| |rewrite Hperm, Hperm', Hrows; apply length_filter].
  - rewrite (Hcs _ _ Hsort), (Hcs _ _ Hsort'). done.
  - intros r. rewrite Hperm, Hperm', Hrows. by intros [_ ?]%list_elem_of_filter.
Qed.

(** X17. For the new convention the assembled frame must have an
    [activity_id] column: without it the run ends with [AttributeError],
    after the traversal and the request for the vocabulary. *)
Theorem build_cmip_needs_activity_id
    root_path depth cols exclude_patterns pick tr filelist df0 activity_ids :
  get_asset_list root_path depth = Ok filelist →
  Builder cols exclude_patterns filelist
    (cmip6_parser reverse_filename_format extract_attr_with_regex float) = Ok df0 →
  fetch_activity_ids cmip6_activity_id_url = Ok activity_ids →
  "activity_id" ∉ columns df0 →
  build_cmip root_path 6 depth (Some cols) exclude_patterns pick tr
  = (Raise AttributeError, tr ++ [Walk root_path depth; HttpGet cmip6_activity_id_url]).
Proof.
  intros Hfiles Hbuild Hfetch Hact.
  unfold build_cmip, emit, lookup_key. run_block. rewrite Hfiles.
  cbn beta iota zeta. rewrite pretty_6, (proj1 parsers_lookup).
  cbn beta iota zeta. rewrite Hbuild. cbn beta iota zeta.
  change (String.eqb "6" "6") with true.
  cbn beta iota zeta. rewrite Hfetch. cbn beta iota zeta.
  unfold select_isin. rewrite bool_decide_eq_false_2 by done. cbn beta iota zeta.
  by rewrite <- app_assoc.
Qed.

(** X18. The frame to sort must have a [path] column: for the old convention,
    without the version selection, an assembled frame without it ends the
    run with [KeyError]. *)
Theorem build_cmip_needs_path
    root_path depth cols exclude_patterns tr filelist df0 :
  get_asset_list root_path depth = Ok filelist →
  Builder cols exclude_patterns filelist
    (cmip5_parser reverse_filename_format extract_attr_with_regex) = Ok df0 →
  "path" ∉ columns df0 →
  build_cmip root_path 5 depth (Some cols) exclude_patterns false tr
  = (Raise KeyError, tr ++ [Walk root_path depth]).
Proof.
  intros Hfiles Hbuild Hpath.
  unfold build_cmip, emit, lookup_key. run_block. rewrite Hfiles.
  cbn beta iota zeta. rewrite pretty_5, (proj2 parsers_lookup).
  cbn beta iota zeta. rewrite Hbuild. cbn beta iota zeta.
  change (String.eqb "5" "6") with false. cbn beta iota zeta.
  unfold sort_by_path. by rewrite bool_decide_eq_false_2 by done.
Qed.

(** X19. [cli] calls [df.to_csv] only once [build_cmip] has returned a
    frame: then it calls it once, as its last call, with that frame and
    the path given, for the default columns and exclusion patterns, and
    ends as that call ends. When the configuration is refused or
    [build_cmip] raises, [cli] raises without a call of [df.to_csv]. *)
Theorem cli_writes_catalog root_path depth pick cmip_version csv_filepath tr r tr' :
  cli root_path depth pick cmip_version csv_filepath tr = (r, tr') →
  ((∃ e, r = Raise e) ∧ ∀ p d, ToCsv p d ∈ tr' → ToCsv p d ∈ tr)
  ∨ ∃ v csv df tr1,
      cmip_version = Some v ∧ v ∈ [5; 6]%Z ∧ csv_filepath = Some csv
      ∧ build_cmip root_path v depth None default_exclude_patterns pick tr = (Ok df, tr1)
      ∧ (∀ p d, ToCsv p d ∈ tr1 → ToCsv p d ∈ tr)
      ∧ tr' = tr1 ++ [ToCsv csv df]
      ∧ r = to_csv csv df.
Proof.
  assert (Hquiet : ∀ v p d,
            ToCsv p d ∈ (build_cmip root_path v depth None default_exclude_patterns pick tr).2 →
            ToCsv p d ∈ tr).
  { intros v p d.
    destruct (build_cmip_events root_path v depth None default_exclude_patterns pick tr)
      as [->|[_ ->]]; intros [?|Hin]%elem_of_app; try done.
    all: repeat (apply elem_of_cons in Hin as [?|Hin]; [done|]).
    all: by apply elem_of_nil in Hin. }
  unfold cli, lift.
  destruct cmip_version as [v|]; [|intros [= <- <-]; left; eauto].
  case_bool_decide as Hv; [|intros [= <- <-]; left; eauto].
  destruct csv_filepath as [csv|]; [|intros [= <- <-]; left; eauto].
  unfold bind, emit. specialize (Hquiet v).
  destruct (build_cmip root_path v depth None default_exclude_patterns pick tr)
    as [[df|e] tr1] eqn:Hbuild; simpl in Hquiet; intros [= <- <-].
  - right. exists v, csv, df, tr1. by split_and!.
  - left. eauto.
Qed.

End BuildMore.

(* ================================================================== *)
(** * The further properties on the samples *)
(* ================================================================== *)

Example cmip5_parser_samples :
  cmip5 ncar_path !! "institute" = Some (VStr "NCAR")
  ∧ cmip5 ncar_path !! "product_id" = Some (VStr "output1")
  ∧ cmip5 ncar_path !! "frequency" = Some (VStr "mon")
  ∧ cmip5 ncar_path !! "modeling_realm" = Some (VStr "atmos")
  ∧ cmip5 ncar_path !! "version" = Some (VStr "v20120409")
  ∧ cmip5 shallow_path !! "institute" = Some (VStr "NCAR")
  ∧ cmip5 shallow_path !! "product_id" = None
  ∧ cmip5 shallow_path !! "frequency" = Some VNone
  ∧ cmip5 repeated_path !! "institute" = None
  ∧ cmip5 repeated_path !! "product_id" = None.
Proof. split_and!; vm_compute; reflexivity. Qed.

Example cmip6_levels_samples :
  cmip6_above (cmip6_parent noaa_path) "GFDL-CM4" = ["NOAA"; "ScenarioMIP"; "CMIP6"; "..."]
  ∧ cmip6_below (cmip6_parent regridded_path) "tas" = Some ["gr1"; "v20180701"]
  ∧ cmip6_above (cmip6_parent flat_dcpp_path) "CNRM-CM6-1" = ["scratch"]
  ∧ cmip6_below (cmip6_parent flat_dcpp_path) "pr" = None
  ∧ cmip6_year_text "s1960-r2i1p1f1" = "1960"
  ∧ cmip6_year_text "sub-r2i1p1f1" = "ub".
Proof. split_and!; vm_compute; reflexivity. Qed.

(** The sample for [cmip6_directory_levels]: the directory names the grid
    [gr1] where the file name says [gn]. *)
Lemma cmip6_directory_levels_regridded :
  cmip6 regridded_path !! "institution_id" = Some (VStr "NOAA")
  ∧ cmip6 regridded_path !! "activity_id" = Some (VStr "ScenarioMIP")
  ∧ cmip6 regridded_path !! "grid_label" = Some (VStr "gr1").
Proof.
  destruct (cmip6_directory_levels matcher extractor py.float regridded_path)
    as (sid & vid & Hs & Hv & Hi & Ha & Hg); [vm_compute; reflexivity|].
  assert (sid = "GFDL-CM4") as -> by (vm_compute in Hs; congruence).
  assert (vid = "tas") as -> by (vm_compute in Hv; congruence).
  split_and!; [etrans; [exact Hi|]|etrans; [exact Ha|]|etrans; [exact Hg|]];
    vm_compute; reflexivity.
Defined.

(** The sample for [cmip6_parser_frame]: the table of the example path. *)
Lemma cmip6_parser_frame_noaa :
  cmip6 noaa_path !! "table_id" = Some (VStr "Amon")
  ∧ is_Some (cmip6 flat_dcpp_path !! "experiment_id").
Proof.
  destruct (cmip6_parser_frame matcher extractor py.float noaa_path "table_id") as [Hk _];
    [apply (bool_decide_unpack _); vm_compute; exact I|].
  destruct (cmip6_parser_frame matcher extractor py.float flat_dcpp_path "table_id") as [_ Hkeep];
    [apply (bool_decide_unpack _); vm_compute; exact I|].
  split.
  - etrans; [exact Hk|]. vm_compute; reflexivity.
  - apply Hkeep. vm_compute. eexists; reflexivity.
Defined.

Ltac each_member Hk :=
  repeat (apply elem_of_cons in Hk as [->|Hk]; [vm_compute; reflexivity|]);
  by apply elem_of_nil in Hk.

(** The sample for [cmip6_parser_fields_together]: in the flat directory
    the block stops before the activity, and the example path has its
    year field as its block ran to the end. *)
Lemma cmip6_parser_fields_together_flat :
  (is_Some (cmip6 flat_dcpp_path !! "activity_id")
   ↔ is_Some (cmip6 flat_dcpp_path !! "path"))
  ∧ is_Some (cmip6 noaa_path !! "dcpp_init_year").
Proof.
  destruct (cmip6_parser_fields_together matcher extractor py.float flat_dcpp_path)
    as (Hflat & _); [intros k Hk; each_member Hk|].
  destruct (cmip6_parser_fields_together matcher extractor py.float noaa_path)
    as (_ & _ & Hyear & _); [intros k Hk; each_member Hk|].
  split.
  - apply Hflat. left.
  - apply Hyear. vm_compute. reflexivity.
Defined.

(** The sample for [cmip5_parser_fields]. *)
Lemma cmip5_parser_fields_ncar :
  cmip5 ncar_path !! "frequency" = Some (VStr "mon")
  ∧ cmip5 ncar_path !! "modeling_realm" = Some (VStr "atmos")
  ∧ cmip5 ncar_path !! "model" = Some (VStr "CCSM4").
Proof.
  destruct (cmip5_parser_fields matcher extractor ncar_path "model") as (Hf & Hr & Hk);
    [apply (bool_decide_unpack _); vm_compute; exact I|].
  split_and!; [etrans; [exact Hf|]|etrans; [exact Hr|]|etrans; [exact Hk|]];
    vm_compute; reflexivity.
Defined.

Lemma mixed_pick :
  pick_latest_version mixed_frame = Ok {| columns := sample_columns; rows := [numbered] |}.
Proof. vm_compute. reflexivity. Qed.

(** The sample for [pick_latest_version_sublist]. *)
Lemma pick_latest_version_sublist_sample :
  columns sample_selected = columns sample_frame
  ∧ rows sample_selected `sublist_of` rows sample_frame
  ∧ (length (rows sample_selected) ≤ length (rows sample_frame))%nat.
Proof. exact (pick_latest_version_sublist nargsort sample_frame sample_selected sample_pick). Defined.

(** The sample for [pick_latest_version_idempotent]. *)
Lemma pick_latest_version_idempotent_sample :
  pick_latest_version sample_selected = Ok sample_selected.
Proof.
  exact (pick_latest_version_idempotent nargsort nargsort_perm sample_frame sample_selected
           sample_labels_unique sample_pick).
Defined.

(** The sample for [pick_latest_version_text_order]: the one-digit token
    [v3] is greater as text than the date-coded [v20180701], and the
    dated publication goes. *)
Lemma pick_latest_version_text_order_sample :
  pick_latest_version mixed_frame = Ok {| columns := sample_columns; rows := [numbered] |}
  ∧ String.ltb "v20180701" "v3" = true
  ∧ dated ∉ [numbered].
Proof.
  split; [exact mixed_pick|]. split; [reflexivity|].
  apply (pick_latest_version_text_order nargsort nargsort_perm nargsort_sorted
           mixed_frame {| columns := sample_columns; rows := [numbered] |}
           dated numbered "v20180701" "v3").
  - apply (bool_decide_unpack _). vm_compute. exact I.
  - unfold textual. apply (bool_decide_unpack _). vm_compute. exact I.
  - exact mixed_pick.
  - apply (bool_decide_unpack _). vm_compute. exact I.
  - vm_compute. reflexivity.
  - apply (bool_decide_unpack _). vm_compute. exact I.
  - vm_compute. reflexivity.
  - vm_compute. reflexivity.
  - reflexivity.
Defined.

(** The sample for [pick_latest_version_needs_version]. *)
Lemma pick_latest_version_needs_version_sample :
  pick_latest_version unversioned_frame = Raise AttributeError.
Proof.
  etrans; [apply (pick_latest_version_needs_version nargsort unversioned_frame)|].
  - apply (bool_decide_unpack _). vm_compute. exact I.
  - apply (bool_decide_unpack _). vm_compute. exact I.
  - vm_compute. reflexivity.
Defined.

(** The sample for [pick_latest_version_removes_all_but_top]: of the two
    versions of the hindcast only the first in descending order stays. *)
Lemma pick_latest_version_removes_all_but_top_sample :
  ∃ top below,
    nargsort "version" false (group_of sample_frame hindcast_old) = top :: below
    ∧ (∀ x, x ∈ group_of sample_frame hindcast_old → x ∈ rows sample_selected ↔ x = top)
    ∧ group_of sample_selected hindcast_old = [top].
Proof.
  pose proof (pick_latest_version_removes_all_but_top nargsort nargsort_perm
                sample_frame sample_selected hindcast_old sample_labels_unique sample_pick)
    as Htop.
  assert (Hn : (1 <? nunique (versions (group_of sample_frame hindcast_old)))%nat = true)
    by (vm_compute; reflexivity).
  rewrite Hn in Htop. apply Htop.
  - apply (bool_decide_unpack _). vm_compute. exact I.
  - vm_compute. reflexivity.
Defined.

(** ** Sample runs *)

Local Abbreviation sample_run :=
  (run_build_cmip sample_assets sample_vocabulary "..." 6 4 None default_exclude_patterns).

(** The sample for [build_cmip_unknown_convention]. *)
Lemma build_cmip_unknown_convention_sample :
  run_build_cmip sample_assets sample_vocabulary
    "..." 7 4 (Some ["path"; "version"]) default_exclude_patterns false []
  = (Raise KeyError, [Walk "..." 4]).
Proof.
  unfold run_build_cmip.
  apply (build_cmip_unknown_convention nargsort matcher extractor py.float
           (λ _ _, Ok sample_assets) (λ _, Ok sample_vocabulary) assembler.Builder
           "..." 7 4 (Some ["path"; "version"]) default_exclude_patterns false []
           sample_assets).
  - apply (bool_decide_unpack _). vm_compute. exact I.
  - reflexivity.
Defined.

(** The sample for [build_cmip_sorted]. *)
Lemma build_cmip_sorted_sample :
  match (sample_run false []).1 with
  | Ok df => StronglySorted (row_before "path" true) (rows df)
  | Raise _ => False
  end.
Proof.
  assert (Htext : rbind (sample_run false []).1
                    (λ df, Ok (bool_decide
                                 (Forall (λ r, is_float (cell r "path") = true
                                               → isna (cell r "path") = true) (rows df))))
                  = Ok true) by (vm_compute; reflexivity).
  destruct (sample_run false []) as [[df|e] tr'] eqn:Hrun; simpl in Htext |- *; [|discriminate].
  unfold run_build_cmip in Hrun.
  apply (build_cmip_sorted nargsort nargsort_perm nargsort_sorted matcher extractor py.float
           (λ _ _, Ok sample_assets) (λ _, Ok sample_vocabulary) assembler.Builder
           "..." 6 4 None default_exclude_patterns false [] df tr' Hrun).
  injection Htext as Htext. by apply bool_decide_eq_true in Htext.
Defined.

(** The sample for [build_cmip_catalog]. *)
Lemma build_cmip_catalog_sample :
  match (sample_run false []).1 with
  | Ok df =>
      ∃ df0,
        assembler.Builder
          [ "activity_id"; "institution_id"; "source_id"; "experiment_id";
            "member_id"; "table_id"; "variable_id"; "grid_label";
            "dcpp_init_year"; "version"; "time_range"; "path" ]
          default_exclude_patterns sample_assets cmip6 = Ok df0
        ∧ rows df ≡ₚ filter (λ r, isin (cell r "activity_id") sample_vocabulary = true)
                            (rows df0)
  | Raise _ => False
  end.
Proof.
  assert (Hok : is_ok (sample_run false []).1 = true) by (vm_compute; reflexivity).
  destruct (sample_run false []) as [[df|e] tr'] eqn:Hrun; simpl in Hok |- *; [|discriminate].
  unfold run_build_cmip in Hrun.
  destruct (build_cmip_catalog nargsort nargsort_perm matcher extractor py.float
              (λ _ _, Ok sample_assets) (λ _, Ok sample_vocabulary) assembler.Builder
              "..." 6 4 None default_exclude_patterns [] df tr' Hrun)
    as (filelist & cols' & parser & df0 & Hfiles & Hcols & Hparser & Hbuild & _ & Hrows).
  injection Hfiles as <-.
  assert (cols' = [ "activity_id"; "institution_id"; "source_id"; "experiment_id";
                    "member_id"; "table_id"; "variable_id"; "grid_label";
                    "dcpp_init_year"; "version"; "time_range"; "path" ]) as ->
    by (vm_compute in Hcols; congruence).
  rewrite pretty_6, (proj1 (parsers_lookup matcher extractor py.float)) in Hparser.
  injection Hparser as <-.
  destruct Hrows as (ids & Hids & Hrows). injection Hids as <-.
  exists df0. by split.
Defined.

(** The sample for [build_cmip_selection]. *)
Lemma build_cmip_selection_sample :
  ∃ df_all df_latest tr1 tr2,
    sample_run false [] = (Ok df_all, tr1)
    ∧ sample_run true [] = (Ok df_latest, tr2)
    ∧ columns df_latest = columns df_all
    ∧ (∀ r, r ∈ rows df_latest → r ∈ rows df_all)
    ∧ (length (rows df_latest) ≤ length (rows df_all))%nat.
Proof.
  assert (Hrun1 : ∃ df tr', sample_run false [] = (Ok df, tr')).
  { destruct (sample_run false []) as [[df|e] tr'] eqn:Hrun; [by eauto|].
    vm_compute in Hrun. discriminate. }
  assert (Hrun2 : ∃ df tr', sample_run true [] = (Ok df, tr')).
  { destruct (sample_run true []) as [[df|e] tr'] eqn:Hrun; [by eauto|].
    vm_compute in Hrun. discriminate. }
  destruct Hrun1 as (df_all & tr1 & Hrun1). destruct Hrun2 as (df_latest & tr2 & Hrun2).
  pose proof Hrun1 as Hbuild1. pose proof Hrun2 as Hbuild2.
  unfold run_build_cmip in Hbuild1, Hbuild2.
  destruct (build_cmip_selection nargsort nargsort_perm matcher extractor py.float
              (λ _ _, Ok sample_assets) (λ _, Ok sample_vocabulary) assembler.Builder
              "..." 6 4 None default_exclude_patterns [] df_all tr1 df_latest tr2
              Hbuild1 Hbuild2)
    as (Hc & Hsub & Hlen).
  clear Hbuild1 Hbuild2.
  exists df_all, df_latest, tr1, tr2.
  split; [exact Hrun1|]. split; [exact Hrun2|]. split; [exact Hc|].
  split; [exact Hsub|exact Hlen].
Defined.

(** The sample for [build_cmip_needs_activity_id]. *)
Lemma build_cmip_needs_activity_id_sample :
  run_build_cmip sample_assets sample_vocabulary
    "..." 6 4 (Some ["source_id"; "version"]) default_exclude_patterns true []
  = (Raise AttributeError, [Walk "..." 4; HttpGet cmip6_activity_id_url]).
Proof.
  unfold run_build_cmip.
  eapply (build_cmip_needs_activity_id nargsort matcher extractor py.float
            (λ _ _, Ok sample_assets) (λ _, Ok sample_vocabulary) assembler.Builder
            "..." 4 ["source_id"; "version"] default_exclude_patterns true []
            sample_assets _ sample_vocabulary).
  - reflexivity.
  - reflexivity.
  - reflexivity.
  - apply (bool_decide_unpack _). vm_compute. exact I.
Defined.

(** The sample for [build_cmip_needs_path]. *)
Lemma build_cmip_needs_path_sample :
  run_build_cmip sample_assets sample_vocabulary
    "..." 5 4 (Some ["source_id"; "version"]) default_exclude_patterns false []
  = (Raise KeyError, [Walk "..." 4]).
Proof.
  unfold run_build_cmip.
  eapply (build_cmip_needs_path nargsort matcher extractor py.float
            (λ _ _, Ok sample_assets) (λ _, Ok sample_vocabulary) assembler.Builder
            "..." 4 ["source_id"; "version"] default_exclude_patterns []
            sample_assets _).
  - reflexivity.
  - reflexivity.
  - apply (bool_decide_unpack _). vm_compute. exact I.
Defined.

(** The sample for [cli_writes_catalog]: the run ends with the call of
    [df.to_csv] on the catalog; and where that call raises, so does
    [cli]. *)
Lemma cli_writes_catalog_sample :
  ∃ df tr1,
    sample_run false [] = (Ok df, tr1)
    ∧ run_cli sample_assets sample_vocabulary
        "..." 4 false (Some 6%Z) (Some "cmip6.csv.gz") []
      = (Ok tt, tr1 ++ [ToCsv "cmip6.csv.gz" df]).
Proof.
  assert (Hok : is_ok (run_cli sample_assets sample_vocabulary
                         "..." 4 false (Some 6%Z) (Some "cmip6.csv.gz") []).1 = true)
    by (vm_compute; reflexivity).
  destruct (run_cli sample_assets sample_vocabulary
              "..." 4 false (Some 6%Z) (Some "cmip6.csv.gz") []) as [r tr'] eqn:Hrun.
  cbn [fst] in Hok. unfold run_cli in Hrun.
  destruct (cli_writes_catalog nargsort matcher extractor py.float
              (λ _ _, Ok sample_assets) (λ _, Ok sample_vocabulary) assembler.Builder
              (λ _ _, Ok tt)
              "..." 4 false (Some 6%Z) (Some "cmip6.csv.gz") [] r tr' Hrun)
    as [[[e ->] _]|(v & csv & df & tr1 & Hv & _ & Hcsv & Hbuild & _ & -> & ->)];
    [discriminate|].
  injection Hv as <-. injection Hcsv as <-.
  exists df, tr1. split; [exact Hbuild|reflexivity].
Defined.

Example cli_unwritable :
  (cli nargsort matcher extractor py.float
     (λ _ _, Ok sample_assets) (λ _, Ok sample_vocabulary) assembler.Builder
     (λ _ _, Raise OSError)
     "..." 4 false (Some 6%Z) (Some "/nowhere/cmip6.csv.gz") []).1
  = Raise OSError.
Proof. vm_compute. reflexivity. Qed.
